(** * configflow: impact analysis, suggestion ranking and safety-gated auto-tuning

    Shallow embedding of the three core components of configflow
    ([src/analysis/ImpactAnalyzer.ts], [src/optimization/OptimizationEngine.ts],
    [src/autotuning/AutoTuningEngine.ts]) together with the properties stated
    for them.

    Conventions of the embedding.
    - A JavaScript [number] that carries a measurement (CPU %, memory %,
      stability, confidence, score) is a real number: the value of a finite
      double, with exact arithmetic.  Rounding is not represented.  Wherever
      the source can divide by zero the IEEE outcome ([NaN], [Infinity]) is
      written out as an explicit case.
    - A [Date] is its [getTime()] value, an integer number of milliseconds.
    - Array lengths, indices and counters are [nat] or [Z].
    - [Date.now()], [Math.random()] and the file system are inputs of the
      functions that consult them.
    - Console output is omitted. *)

From Stdlib Require Import Reals Lra Lia ZArith Ascii.
From stdpp Require Import gmap strings list sorting.

(** ** JavaScript numbers and array helpers *)

Module JS.

Open Scope R_scope.

(** [a < b] and [a > b] on numbers, as booleans. *)
Definition ltb (a b : R) : bool := if Rlt_dec a b then true else false.
Definition gtb (a b : R) : bool := if Rgt_dec a b then true else false.
Definition eqb (a b : R) : bool := if Req_dec_T a b then true else false.

(** [numbers.reduce((a, b) => a + b, 0)]: a left fold from 0. *)
Definition sum (numbers : list R) : R := fold_left Rplus numbers 0.

(** [values.reduce((acc, val) => acc + Math.pow(val - mean, 2), 0)]. *)
Definition sumSquaredDeviations (mean : R) (values : list R) : R :=
  fold_left (fun acc val => acc + (val - mean) ^ 2) values 0.

(** [array.slice(-n)]: the last [n] elements (all of them when there are
    fewer). *)
Definition lastN {A} (n : nat) (l : list A) : list A :=
  drop (length l - n) l.

(** [array.slice(0, end)] for an integer [end]; a negative [end] counts from
    the end of the array (ECMAScript: relativeEnd < 0 gives
    max(len + relativeEnd, 0)). *)
Definition slice0 {A} (l : list A) (end_ : Z) : list A :=
  if (end_ <? 0)%Z
  then take (Z.to_nat (Z.max (Z.of_nat (length l) + end_) 0)) l
  else take (Z.to_nat end_) l.

(** [array.findIndex(p)]: index of the first match, -1 when there is none. *)
Fixpoint findIndexFrom {A} (p : A -> bool) (l : list A) (i : Z) : Z :=
  match l with
  | [] => (-1)%Z
  | x :: l' => if p x then i else findIndexFrom p l' (i + 1)%Z
  end.

Definition findIndex {A} (p : A -> bool) (l : list A) : Z := findIndexFrom p l 0.

(** [array.filter((x, index) => p x index)]. *)
Fixpoint filterIndexedFrom {A} (p : A -> Z -> bool) (l : list A) (i : Z) : list A :=
  match l with
  | [] => []
  | x :: l' =>
      if p x i then x :: filterIndexedFrom p l' (i + 1)%Z
      else filterIndexedFrom p l' (i + 1)%Z
  end.

Definition filterIndexed {A} (p : A -> Z -> bool) (l : list A) : list A :=
  filterIndexedFrom p l 0.

(** [array.find(p)]. *)
Fixpoint find {A} (p : A -> bool) (l : list A) : option A :=
  match l with
  | [] => None
  | x :: l' => if p x then Some x else find p l'
  end.

(** [array.sort(cmp)] is a stable sort (ECMAScript 2019).  For a comparator
    that is a total preorder the result is determined by stability, whatever
    algorithm the engine uses; it is computed here by insertion from the
    right, an element going before the first later element it does not
    exceed.  [cmp a b] is the sign test [comparator(a, b) <= 0]. *)
Fixpoint insertSorted {A} (le : A -> A -> bool) (x : A) (l : list A) : list A :=
  match l with
  | [] => [x]
  | y :: l' => if le x y then x :: y :: l' else y :: insertSorted le x l'
  end.

Fixpoint sort {A} (le : A -> A -> bool) (l : list A) : list A :=
  match l with
  | [] => []
  | x :: l' => insertSorted le x (sort le l')
  end.

(** [s.endsWith(suffix)]. *)
Definition endsWith (s suffix : string) : bool :=
  let n := String.length s in
  let k := String.length suffix in
  if (n <? k)%nat then false
  else String.eqb (String.substring (n - k) k s) suffix.

(** [items.join(sep)]. *)
Fixpoint join (sep : string) (items : list string) : string :=
  match items with
  | [] => ""
  | [x] => x
  | x :: rest => x +:+ sep +:+ join sep rest
  end.

End JS.

(** ** Data model *)

(** [MetricsSnapshot] ([src/types/config.ts]).  Of the interface the
    embedding keeps [id], [timestamp], [configHash] and the two fields of
    [system] that the three components read, [system.cpu.usage] and
    [system.memory.percentage]; the rest of [system], [application] and
    [tags] are read by none of the embedded functions. *)
Record MetricsSnapshot := {
  ms_id : string;
  ms_timestamp : Z;
  ms_cpu_usage : R;
  ms_memory_percentage : R;
  ms_configHash : string;
}.

(** ** Impact Analyzer ([src/analysis/ImpactAnalyzer.ts]) *)

Module ImpactAnalyzer.

Open Scope R_scope.

Inductive ChangeType := added | modified | removed.

Record ConfigChangeEvent := {
  ce_id : string;
  ce_timestamp : Z;
  ce_configFile : string;
  ce_changeType : ChangeType;
  ce_parameter : option string;
  ce_configHash : string;
}.

Record BaselineMetrics := {
  bm_avgCpu : R;
  bm_avgMemory : R;
  bm_maxCpu : R;
  bm_maxMemory : R;
  bm_sampleCount : nat;
}.

Record PerformanceBaseline := {
  pb_configHash : string;
  pb_timestamp : Z;
  pb_metrics : BaselineMetrics;
  pb_stability : R;
}.

Record ImpactMetrics := {
  cpuDelta : R;
  memoryDelta : R;
  stabilityDelta : R;
}.

Record ImpactAnalysis := {
  changeId : string;
  configFile : string;
  parameter : option string;
  impactScore : R;
  confidence : R;
  metrics : ImpactMetrics;
  recommendation : string;
  evidence : list string;
}.

Record AnalysisConfig := {
  minSampleSize : nat;
  stabilityThreshold : R;
  significanceThreshold : R;
  analysisWindow : Z;
}.

Definition defaultConfig : AnalysisConfig :=
  {| minSampleSize := 5;
     stabilityThreshold := 15 / 100;
     significanceThreshold := 5 / 100;
     analysisWindow := 5 * 60 * 1000 |}.

(** The analyzer object: its configuration and the three private stores. *)
Record t := {
  config : AnalysisConfig;
  baselines : gmap string PerformanceBaseline;
  changeHistory : list ConfigChangeEvent;
  analysisResults : list ImpactAnalysis;
}.

(** [average]: every caller passes a non-empty array (at least 3 samples in
    [analyzeChangeImpact], at least 2 in [calculateStability], a non-empty
    group in [calculateBaseline]), so the division is by a positive
    length. *)
Definition average (numbers : list R) : R :=
  JS.sum numbers / INR (length numbers).

Definition calculateStability (values : list R) : R :=
  if (length values <? 2)%nat then 1
  else
    let mean := average values in
    let variance := JS.sumSquaredDeviations mean values / INR (length values) in
    let stdDev := sqrt variance in
    let coefficientOfVariation := if JS.gtb mean 0 then stdDev / mean else 0 in
    Rmax 0 (1 - coefficientOfVariation).

Definition calculateImpactScore (cpuDelta memoryDelta stabilityDelta : R) : R :=
  let score := 0 in
  let score := score - (cpuDelta / 100) * (4 / 10) in
  let score := score - (memoryDelta / 100) * (3 / 10) in
  let score := score + stabilityDelta * (3 / 10) in
  Rmax (-1) (Rmin 1 score).

Definition calculateConfidence (beforeSamples afterSamples : nat) (impactMagnitude : R) : R :=
  let minSamples := Nat.min beforeSamples afterSamples in
  let sampleConfidence := Rmin 1 (INR minSamples / 10) in
  let magnitudeConfidence := Rmin 1 (impactMagnitude * 10) in
  (sampleConfidence + magnitudeConfidence) / 2.

Definition generateRecommendation (impactScore : R) (configFile : string) : string :=
  if JS.gtb impactScore (3 / 10) then
    "✅ Positive impact detected. Consider keeping this configuration change in "
      +:+ configFile +:+ "."
  else if JS.ltb impactScore (- (3 / 10)) then
    "⚠️ Negative impact detected. Consider reverting changes to "
      +:+ configFile +:+ "."
  else if JS.ltb (Rabs impactScore) (1 / 10) then
    "ℹ️ Minimal impact detected. Configuration change in "
      +:+ configFile +:+ " appears neutral."
  else
    "📊 Minor impact detected. Monitor " +:+ configFile +:+ " for additional changes.".

Section WithNumberFormatting.

(** [x.toFixed(digits)], the decimal rendering of a number, is a built-in of
    the language; the evidence strings embed its result. *)
Variable toFixed : R -> nat -> string.

Definition generateEvidence (cfg : AnalysisConfig)
    (cpuDelta memoryDelta stabilityDelta : R) : list string :=
  let evidence := [] in
  let evidence :=
    if JS.gtb (Rabs cpuDelta) (significanceThreshold cfg * 100) then
      evidence ++ ["CPU usage "
        +:+ (if JS.gtb cpuDelta 0 then "increased" else "decreased")
        +:+ " by " +:+ toFixed (Rabs cpuDelta) 2 +:+ "%"]
    else evidence in
  let evidence :=
    if JS.gtb (Rabs memoryDelta) (significanceThreshold cfg * 100) then
      evidence ++ ["Memory usage "
        +:+ (if JS.gtb memoryDelta 0 then "increased" else "decreased")
        +:+ " by " +:+ toFixed (Rabs memoryDelta) 2 +:+ "%"]
    else evidence in
  let evidence :=
    if JS.gtb (Rabs stabilityDelta) (significanceThreshold cfg) then
      evidence ++ ["System stability "
        +:+ (if JS.gtb stabilityDelta 0 then "improved" else "degraded")
        +:+ " by " +:+ toFixed (Rabs (stabilityDelta * 100)) 1 +:+ "%"]
    else evidence in
  if (length evidence =? 0)%nat
  then evidence ++ ["No significant performance impact detected"]
  else evidence.

(** [analyzeChangeImpact] is a method: it receives the analyzer object and
    reads [this.config] from it. *)
Definition analyzeChangeImpact (self : t) (change : ConfigChangeEvent)
    (metricsHistory : list MetricsSnapshot) : option ImpactAnalysis :=
  let window := analysisWindow (config self) in
  let beforeMetrics :=
    List.filter (fun m =>
      (ms_timestamp m <? ce_timestamp change)%Z
      && (ms_timestamp m >? ce_timestamp change - window)%Z) metricsHistory in
  let afterMetrics :=
    List.filter (fun m =>
      (ms_timestamp m >? ce_timestamp change)%Z
      && (ms_timestamp m <? ce_timestamp change + window)%Z) metricsHistory in
  if ((length beforeMetrics <? 3)%nat || (length afterMetrics <? 3)%nat)%bool
  then None
  else
    let beforeAvgCpu := average (map ms_cpu_usage beforeMetrics) in
    let afterAvgCpu := average (map ms_cpu_usage afterMetrics) in
    let cpuDelta := afterAvgCpu - beforeAvgCpu in
    let beforeAvgMemory := average (map ms_memory_percentage beforeMetrics) in
    let afterAvgMemory := average (map ms_memory_percentage afterMetrics) in
    let memoryDelta := afterAvgMemory - beforeAvgMemory in
    let beforeStability := calculateStability (map ms_cpu_usage beforeMetrics) in
    let afterStability := calculateStability (map ms_cpu_usage afterMetrics) in
    let stabilityDelta := afterStability - beforeStability in
    let impactScore := calculateImpactScore cpuDelta memoryDelta stabilityDelta in
    let confidence :=
      calculateConfidence (length beforeMetrics) (length afterMetrics)
        (Rabs impactScore) in
    let evidence :=
      generateEvidence (config self) cpuDelta memoryDelta stabilityDelta in
    let recommendation := generateRecommendation impactScore (ce_configFile change) in
    Some {| changeId := ce_id change;
            configFile := ce_configFile change;
            parameter := ce_parameter change;
            impactScore := impactScore;
            confidence := confidence;
            metrics := {| cpuDelta := cpuDelta;
                          memoryDelta := memoryDelta;
                          stabilityDelta := stabilityDelta |};
            recommendation := recommendation;
            evidence := evidence |}.

(** [getRecentChanges] consults the clock. *)
Definition getRecentChanges (self : t) (now : Z) : list ConfigChangeEvent :=
  let cutoff := (now - analysisWindow (config self))%Z in
  List.filter (fun change => (ce_timestamp change >? cutoff)%Z) (changeHistory self).

(** [analyzeRecentChanges]: one analysis per recent change that has enough
    samples, appended to the running list in order. *)
Definition analyzeRecentChanges (self : t) (now : Z)
    (metricsHistory : list MetricsSnapshot) : t :=
  fold_left
    (fun (acc : t) change =>
       match analyzeChangeImpact acc change metricsHistory with
       | Some analysis =>
           {| config := config acc;
              baselines := baselines acc;
              changeHistory := changeHistory acc;
              analysisResults := analysisResults acc ++ [analysis] |}
       | None => acc
       end)
    (getRecentChanges self now) self.

End WithNumberFormatting.

End ImpactAnalyzer.

(** ** Suggestions ([src/types/optimization.ts]) *)

(** A JSON document, and the values ([any]) a suggestion carries. *)
#[warnings="-register-all"]
Inductive json :=
| JNull
| JBool (b : bool)
| JNum (x : R)
| JStr (s : string)
| JArr (items : list json)
| JObj (fields : list (string * json)).

Inductive OptimizationPriority := LOW | MEDIUM | HIGH | CRITICAL.

Inductive OptimizationCategory := PERFORMANCE | MEMORY | STABILITY | SECURITY | RESOURCE.

(** The fields of [OptimizationSuggestion] that the engines compute with.
    The descriptive ones ([timestamp], [expectedImpact], [reasoning],
    [estimatedGain], [rollbackPlan]) only reach the console and are left
    out.  [riskLevel] is kept as the string it is at run time. *)
Record OptimizationSuggestion := {
  sg_id : string;
  sg_priority : OptimizationPriority;
  sg_category : OptimizationCategory;
  sg_configFile : string;
  sg_parameter : string;
  sg_currentValue : json;
  sg_suggestedValue : json;
  sg_confidence : R;
  sg_riskLevel : string;
}.

(** ** Optimization Engine ([src/optimization/OptimizationEngine.ts]) *)

Module OptimizationEngine.

Open Scope R_scope.

(** [priorityOrder = { critical: 4, high: 3, medium: 2, low: 1 }]. *)
Definition priorityOrder (p : OptimizationPriority) : Z :=
  match p with
  | CRITICAL => 4
  | HIGH => 3
  | MEDIUM => 2
  | LOW => 1
  end.

(** The predicate of the inner [findIndex]: same file and same parameter. *)
Definition sameTarget (suggestion s : OptimizationSuggestion) : bool :=
  String.eqb (sg_configFile s) (sg_configFile suggestion)
  && String.eqb (sg_parameter s) (sg_parameter suggestion).

(** The comparator handed to [sort]. *)
Definition comparator (a b : OptimizationSuggestion) : R :=
  let aPriority := priorityOrder (sg_priority a) in
  let bPriority := priorityOrder (sg_priority b) in
  if negb (aPriority =? bPriority)%Z
  then IZR (bPriority - aPriority)
  else sg_confidence b - sg_confidence a.

Definition filterAndPrioritizeSuggestions (suggestions : list OptimizationSuggestion)
    : list OptimizationSuggestion :=
  let uniqueSuggestions :=
    JS.filterIndexed
      (fun suggestion index =>
         (index =? JS.findIndex (sameTarget suggestion) suggestions)%Z)
      suggestions in
  JS.sort (fun a b => negb (JS.gtb (comparator a b) 0)) uniqueSuggestions.

(** [latestMetrics]; its third field, [stabilityScore], is read by no pass
    of [generateSuggestions] and is left out. *)
Record LatestMetrics := {
  cpuUsage : R;
  memoryUsage : R;
}.

Definition calculateLatestMetrics (metricsHistory : list MetricsSnapshot) : LatestMetrics :=
  if (length metricsHistory =? 0)%nat then {| cpuUsage := 0; memoryUsage := 0 |}
  else
    let recent := JS.lastN 5 metricsHistory in
    {| cpuUsage := JS.sum (map ms_cpu_usage recent) / INR (length recent);
       memoryUsage := JS.sum (map ms_memory_percentage recent) / INR (length recent) |}.

(** [Math.ceil]. *)
Definition ceil (x : R) : R := IZR (- Int_part (- x)).

Section Passes.

Variable toFixed : R -> nat -> string.

(** [generateSuggestionId()] draws from the clock and the random source;
    the identifier of the [n]-th suggestion built during one call is
    [genId n]. *)
Variable genId : nat -> string.

Definition analyzePoorPerformance (next : nat) (analyses : list ImpactAnalyzer.ImpactAnalysis)
    : list OptimizationSuggestion :=
  let poorPerformers :=
    List.filter (fun a => JS.ltb (ImpactAnalyzer.impactScore a) (- (3 / 10))) analyses in
  imap (fun i analysis =>
          {| sg_id := genId (next + i);
             sg_priority := HIGH;
             sg_category := PERFORMANCE;
             sg_configFile := ImpactAnalyzer.configFile analysis;
             sg_parameter :=
               match ImpactAnalyzer.parameter analysis with
               | Some p => if String.eqb p "" then "unknown" else p
               | None => "unknown"
               end;
             sg_currentValue := JStr "current_config";
             sg_suggestedValue := JStr "optimized_config";
             sg_confidence := ImpactAnalyzer.confidence analysis;
             sg_riskLevel := "low" |})
       poorPerformers.

Definition identifyResourceOptimizations (next : nat) (latestMetrics : LatestMetrics)
    : list OptimizationSuggestion :=
  let suggestions := [] in
  let suggestions :=
    if JS.gtb (memoryUsage latestMetrics) 85 then
      suggestions ++
        [ {| sg_id := genId (next + length suggestions);
             sg_priority := HIGH;
             sg_category := MEMORY;
             sg_configFile := "system";
             sg_parameter := "memory_management";
             sg_currentValue := JStr (toFixed (memoryUsage latestMetrics) 1 +:+ "%");
             sg_suggestedValue := JStr "optimized_memory_settings";
             sg_confidence := 8 / 10;
             sg_riskLevel := "medium" |} ]
    else suggestions in
  let suggestions :=
    if JS.gtb (cpuUsage latestMetrics) 70 then
      suggestions ++
        [ {| sg_id := genId (next + length suggestions);
             sg_priority := MEDIUM;
             sg_category := PERFORMANCE;
             sg_configFile := "system";
             sg_parameter := "cpu_optimization";
             sg_currentValue := JStr (toFixed (cpuUsage latestMetrics) 1 +:+ "%");
             sg_suggestedValue := JStr "optimized_cpu_settings";
             sg_confidence := 7 / 10;
             sg_riskLevel := "medium" |} ]
    else suggestions in
  suggestions.

Definition detectStabilityIssues (next : nat)
    (baselines : list ImpactAnalyzer.PerformanceBaseline) : list OptimizationSuggestion :=
  let unstableBaselines :=
    List.filter (fun b => JS.ltb (ImpactAnalyzer.pb_stability b) (7 / 10)) baselines in
  imap (fun i baseline =>
          {| sg_id := genId (next + i);
             sg_priority := MEDIUM;
             sg_category := STABILITY;
             sg_configFile := "configuration";
             sg_parameter := "stability_optimization";
             sg_currentValue :=
               JStr (toFixed (ImpactAnalyzer.pb_stability baseline * 100) 1 +:+ "%");
             sg_suggestedValue := JStr "stabilized_configuration";
             sg_confidence := 6 / 10;
             sg_riskLevel := "low" |})
       unstableBaselines.

Definition applyAlgorithmicOptimizations (next : nat) (latestMetrics : LatestMetrics)
    : list OptimizationSuggestion :=
  let goldenRatio := 1618 / 1000 in
  let optimalMemoryRatio := 8 / 10 in
  if JS.gtb (memoryUsage latestMetrics) (optimalMemoryRatio * 100) then
    let reductionNeeded := memoryUsage latestMetrics - optimalMemoryRatio * 100 in
    let suggestedReduction := ceil (reductionNeeded / goldenRatio) in
    [ {| sg_id := genId next;
         sg_priority := MEDIUM;
         sg_category := RESOURCE;
         sg_configFile := "algorithmic_optimization";
         sg_parameter := "memory_ratio_optimization";
         sg_currentValue := JStr (toFixed (memoryUsage latestMetrics) 1 +:+ "%");
         sg_suggestedValue :=
           JStr (toFixed (memoryUsage latestMetrics - suggestedReduction) 1 +:+ "%");
         sg_confidence := 75 / 100;
         sg_riskLevel := "low" |} ]
  else [].

(** The engine object: the running suggestion list (the rule table and the
    applied-suggestion map are not consulted by [generateSuggestions]). *)
Record t := {
  suggestions : list OptimizationSuggestion;
}.

(** The array [newSuggestions] that [generateSuggestions] fills: the
    results of the four passes, in order.  The [configFiles] argument is
    read by no pass. *)
Definition collectSuggestions
    (analyses : list ImpactAnalyzer.ImpactAnalysis)
    (baselines : list ImpactAnalyzer.PerformanceBaseline)
    (metricsHistory : list MetricsSnapshot) : list OptimizationSuggestion :=
  let latestMetrics := calculateLatestMetrics metricsHistory in
  let newSuggestions := [] in
  let newSuggestions :=
    newSuggestions ++ analyzePoorPerformance (length newSuggestions) analyses in
  let newSuggestions :=
    newSuggestions ++ identifyResourceOptimizations (length newSuggestions) latestMetrics in
  let newSuggestions :=
    newSuggestions ++ detectStabilityIssues (length newSuggestions) baselines in
  let newSuggestions :=
    newSuggestions ++ applyAlgorithmicOptimizations (length newSuggestions) latestMetrics in
  newSuggestions.

(** [generateSuggestions]: post-processing of the collected suggestions,
    appended to the running list; the result is the new engine state and the
    returned array. *)
Definition generateSuggestions (self : t)
    (analyses : list ImpactAnalyzer.ImpactAnalysis)
    (baselines : list ImpactAnalyzer.PerformanceBaseline)
    (metricsHistory : list MetricsSnapshot) : t * list OptimizationSuggestion :=
  let newSuggestions := collectSuggestions analyses baselines metricsHistory in
  let filteredSuggestions := filterAndPrioritizeSuggestions newSuggestions in
  ({| suggestions := suggestions self ++ filteredSuggestions |}, filteredSuggestions).

End Passes.

End OptimizationEngine.

(** ** Auto-Tuning Engine: types ([src/types/autotuning.ts]) *)

Inductive TuningStatus :=
| PENDING | TESTING | SUCCESSFUL | FAILED | ROLLED_BACK | AWAITING_APPROVAL.

Inductive RiskThreshold := RiskLow | RiskMedium | RiskHigh.

Record AutoTuningConfig := {
  enabled : bool;
  safetyMode : bool;
  maxConcurrentChanges : Z;
  rollbackTimeout : Z;
  approvalRequired : bool;
  riskThreshold : RiskThreshold;
  testDuration : Z;
  backupRetention : Z;
}.

Record ConfigBackup := {
  b_id : string;
  b_timestamp : Z;
  b_configFile : string;
  b_originalContent : string;
  b_reason : string;
}.

(** The value [calculateMetricsAverage] and [simulatePostChangeMetrics]
    return ([preChangeMetrics], [postChangeMetrics]). *)
Record MetricsSummary := {
  avgCpu : R;
  avgMemory : R;
  stability : R;
}.

Record AutoTuningSession := {
  s_id : string;
  s_startTime : Z;
  s_endTime : option Z;
  s_suggestionId : string;
  s_configFile : string;
  s_parameter : string;
  s_originalValue : json;
  s_newValue : json;
  s_status : TuningStatus;
  s_preChangeMetrics : MetricsSummary;
  s_postChangeMetrics : option MetricsSummary;
  s_improvementMeasured : option R;
  s_rollbackReason : option string;
}.

Inductive Recommendation := keep | rollback | continue_testing.

Record ValidationResult := {
  isValid : bool;
  v_confidence : R;
  improvementPercent : R;
  issues : list string;
  v_recommendation : Recommendation;
}.

(** ** The file system the engine works on *)

(** A monitored file: its text (as [readFile(path, "utf-8")] returns it) and
    whether the process may write it. *)
Record File := {
  f_content : string;
  f_writable : bool;
}.

(** The monitored tree, and the backup directory [.configflow/backups] kept
    apart from it: one record per backup id, present when the directory
    could be created. *)
Record FileSystem := {
  files : gmap string File;
  backupDirUsable : bool;
  backupFiles : gmap string ConfigBackup;
}.

Module FS.

Definition existsSync (fs : FileSystem) (path : string) : bool :=
  match files fs !! path with Some _ => true | None => false end.

(** [accessSync(path, W_OK)]: [Some tt] for [undefined], [None] when it
    throws. *)
Definition accessSyncW (fs : FileSystem) (path : string) : option unit :=
  match files fs !! path with
  | Some f => if f_writable f then Some tt else None
  | None => None
  end.

(** [readFile(path, "utf-8")]; [None] when it throws (no such file). *)
Definition readFile (fs : FileSystem) (path : string) : option string :=
  f_content <$> files fs !! path.

(** [writeFile(path, data)]: replaces the text of a writable file, creates a
    missing one, and throws ([None]) on a file that is not writable. *)
Definition writeFile (fs : FileSystem) (path data : string) : option FileSystem :=
  match files fs !! path with
  | Some f =>
      if f_writable f
      then Some {| files := <[path := {| f_content := data; f_writable := true |}]> (files fs);
                   backupDirUsable := backupDirUsable fs;
                   backupFiles := backupFiles fs |}
      else None
  | None =>
      Some {| files := <[path := {| f_content := data; f_writable := true |}]> (files fs);
              backupDirUsable := backupDirUsable fs;
              backupFiles := backupFiles fs |}
  end.

(** Writing [<backupDir>/<id>.backup]. *)
Definition writeBackupFile (fs : FileSystem) (backup : ConfigBackup) : option FileSystem :=
  if backupDirUsable fs
  then Some {| files := files fs;
               backupDirUsable := backupDirUsable fs;
               backupFiles := <[b_id backup := backup]> (backupFiles fs) |}
  else None.

(** [remove(<backupDir>/<id>.backup)]. *)
Definition removeBackupFile (fs : FileSystem) (id : string) : FileSystem :=
  {| files := files fs;
     backupDirUsable := backupDirUsable fs;
     backupFiles := delete id (backupFiles fs) |}.

(** The target can be written: it is writable, or it does not exist and is
    created. *)
Definition canWrite (fs : FileSystem) (path : string) : Prop :=
  forall f, files fs !! path = Some f -> f_writable f = true.

End FS.

(** ** Editing a JSON document along a dotted path *)

Module Json.

(** [s.split(".")]. *)
Fixpoint split (sep : Ascii.ascii) (s : string) : list string :=
  match s with
  | EmptyString => [""]
  | String c rest =>
      if Ascii.eqb c sep then "" :: split sep rest
      else match split sep rest with
           | [] => [String c ""]
           | piece :: pieces => String c piece :: pieces
           end
  end.

Fixpoint lookupField (key : string) (fields : list (string * json)) : option json :=
  match fields with
  | [] => None
  | (k, v) :: rest => if String.eqb k key then Some v else lookupField key rest
  end.

(** [obj[key] = v]: in place when the key exists, appended otherwise. *)
Fixpoint setField (key : string) (v : json) (fields : list (string * json))
    : list (string * json) :=
  match fields with
  | [] => [(key, v)]
  | (k, old) :: rest =>
      if String.eqb k key then (k, v) :: rest else (k, old) :: setField key v rest
  end.

(** [!v] for a value read from a document. *)
Definition falsy (v : json) : bool :=
  match v with
  | JNull => true
  | JBool b => negb b
  | JNum x => JS.eqb x 0
  | JStr s => String.eqb s ""
  | JArr _ => false
  | JObj _ => false
  end.

(** The loop of [applyConfigurationChange] and the assignment after it:
    [paramPath] is walked from the root, a missing or falsy step is replaced
    by a fresh object, and the last key receives the value.  [None] is a
    thrown [TypeError].  Only objects are walked: on [null] any access
    throws, on a primitive the assignment throws (the class body is strict
    code), and a step through an array, which would need sparse arrays, is
    treated like these.

    The walk follows the source on documents that are objects along the
    path and for keys that are the object's own or absent.  It does not
    follow it where JavaScript looks further than the own keys or orders
    them: a step into an array (which the source indexes), a key that
    [Object.prototype] supplies ([toString], [__proto__], ...), and a new
    key made of digits, which JavaScript lists before the other keys.
    Statements about the value written are made for plain keys only
    ([JsonRead.plainKey]). *)
Fixpoint setPath (target : json) (paramPath : list string) (value : json) : option json :=
  match paramPath with
  | [] => None
  | key :: rest =>
      match target with
      | JObj fields =>
          match rest with
          | [] => Some (JObj (setField key value fields))
          | _ :: _ =>
              let child :=
                match lookupField key fields with
                | Some v => if falsy v then JObj [] else v
                | None => JObj []
                end in
              match setPath child rest value with
              | Some child' => Some (JObj (setField key child' fields))
              | None => None
              end
          end
      | _ => None
      end
  end.

End Json.

(** ** Auto-Tuning Engine ([src/autotuning/AutoTuningEngine.ts]) *)

Module AutoTuningEngine.

Open Scope R_scope.

(** The engine object.  [scheduled] holds the validation tasks handed to
    [setTimeout] that have not fired yet, as [(sessionId, backupId)]. *)
Record t := {
  config : AutoTuningConfig;
  activeSessions : gmap string AutoTuningSession;
  backups : list ConfigBackup;
  completedSessions : list AutoTuningSession;
  scheduled : list (string * string);
}.

(** The state of the whole: the engine and the files it reads and writes. *)
Definition World : Type := t * FileSystem.

Definition defaultConfig : AutoTuningConfig :=
  {| enabled := true;
     safetyMode := true;
     maxConcurrentChanges := 1;
     rollbackTimeout := 5 * 60 * 1000;
     approvalRequired := false;
     riskThreshold := RiskLow;
     testDuration := 2 * 60 * 1000;
     backupRetention := 7 |}.

(** [new AutoTuningEngine(config)]. *)
Definition create (cfg : AutoTuningConfig) : t :=
  {| config := cfg;
     activeSessions := ∅;
     backups := [];
     completedSessions := [];
     scheduled := [] |}.

Definition setActiveSessions (self : t) (m : gmap string AutoTuningSession) : t :=
  {| config := config self;
     activeSessions := m;
     backups := backups self;
     completedSessions := completedSessions self;
     scheduled := scheduled self |}.

Definition setBackups (self : t) (l : list ConfigBackup) : t :=
  {| config := config self;
     activeSessions := activeSessions self;
     backups := l;
     completedSessions := completedSessions self;
     scheduled := scheduled self |}.

Definition setCompletedSessions (self : t) (l : list AutoTuningSession) : t :=
  {| config := config self;
     activeSessions := activeSessions self;
     backups := backups self;
     completedSessions := l;
     scheduled := scheduled self |}.

Definition setScheduled (self : t) (l : list (string * string)) : t :=
  {| config := config self;
     activeSessions := activeSessions self;
     backups := backups self;
     completedSessions := completedSessions self;
     scheduled := l |}.

(** What one call of [applySuggestion] draws from outside: the two random
    identifiers and the clock. *)
Record ApplyEnv := {
  env_sessionId : string;
  env_backupId : string;
  env_now : Z;
}.

(** The virtual targets. *)
Definition isVirtual (configFile : string) : bool :=
  String.eqb configFile "system" || String.eqb configFile "algorithmic_optimization".

(** [riskOrder = { low: 1, medium: 2, high: 3 }], looked up by a string. *)
Definition riskOrder (riskLevel : string) : option Z :=
  if String.eqb riskLevel "low" then Some 1%Z
  else if String.eqb riskLevel "medium" then Some 2%Z
  else if String.eqb riskLevel "high" then Some 3%Z
  else None.

Definition thresholdOrder (threshold : RiskThreshold) : Z :=
  match threshold with
  | RiskLow => 1
  | RiskMedium => 2
  | RiskHigh => 3
  end.

Definition isWithinRiskThreshold (self : t) (riskLevel : string) : bool :=
  let suggestionRisk := default 3%Z (riskOrder riskLevel) in
  let thresholdRisk := thresholdOrder (riskThreshold (config self)) in
  (suggestionRisk <=? thresholdRisk)%Z.

Definition isFileModifiable (fs : FileSystem) (filePath : string) : bool :=
  FS.existsSync fs filePath
  && match FS.accessSyncW fs filePath with
     | Some _ => true
     | None => false
     end.

Definition filterEligibleSuggestions (self : t) (fs : FileSystem)
    (suggestions : list OptimizationSuggestion) : list OptimizationSuggestion :=
  List.filter
    (fun suggestion =>
       if negb (isWithinRiskThreshold self (sg_riskLevel suggestion)) then false
       else if JS.ltb (sg_confidence suggestion) (7 / 10) then false
       else if negb (isFileModifiable fs (sg_configFile suggestion)) then false
       else true)
    suggestions.

(** The engine's own [calculateStability], on the CPU series of the
    snapshots.  [stdDev / mean || 0]: with [mean = 0] the quotient is [NaN]
    when [stdDev = 0] (replaced by 0) and [Infinity] otherwise, so that the
    result is [Math.max(0, -Infinity) = 0]; a zero quotient is replaced by
    itself. *)
Definition calculateStability (snapshots : list MetricsSnapshot) : R :=
  if (length snapshots <? 2)%nat then 1
  else
    let cpuValues := map ms_cpu_usage snapshots in
    let mean := JS.sum cpuValues / INR (length cpuValues) in
    let variance := JS.sumSquaredDeviations mean cpuValues / INR (length cpuValues) in
    let stdDev := sqrt variance in
    if JS.eqb mean 0
    then (if JS.eqb stdDev 0 then Rmax 0 (1 - 0) else 0)
    else Rmax 0 (1 - stdDev / mean).

Definition calculateMetricsAverage (snapshots : list MetricsSnapshot) : MetricsSummary :=
  if (length snapshots =? 0)%nat then {| avgCpu := 0; avgMemory := 0; stability := 1 |}
  else
    {| avgCpu := JS.sum (map ms_cpu_usage snapshots) / INR (length snapshots);
       avgMemory := JS.sum (map ms_memory_percentage snapshots) / INR (length snapshots);
       stability := calculateStability snapshots |}.

(** [simulatePostChangeMetrics]; [r1], [r2], [r3] are the three values of
    [Math.random()] in evaluation order. *)
Definition simulatePostChangeMetrics (preMetrics : MetricsSummary) (r1 r2 r3 : R)
    : MetricsSummary :=
  {| avgCpu := Rmax 0 (avgCpu preMetrics * (9 / 10 + r1 * (2 / 10)));
     avgMemory := Rmax 0 (avgMemory preMetrics * (85 / 100 + r2 * (3 / 10)));
     stability := Rmin 1 (stability preMetrics * (1 + r3 * (1 / 10))) |}.

Definition validatePerformanceChange (beforeMetrics afterMetrics : MetricsSummary)
    : ValidationResult :=
  let cpuImprovement := avgCpu beforeMetrics - avgCpu afterMetrics in
  let memoryImprovement := avgMemory beforeMetrics - avgMemory afterMetrics in
  let stabilityImprovement := stability afterMetrics - stability beforeMetrics in
  let overallImprovement :=
    cpuImprovement * (4 / 10) + memoryImprovement * (4 / 10) + stabilityImprovement * 20 in
  let isValid :=
    JS.gtb overallImprovement 0
    && JS.ltb (avgCpu afterMetrics) 90
    && JS.ltb (avgMemory afterMetrics) 95 in
  let confidence := Rmin 1 (Rabs overallImprovement / 10) in
  let issues := [] in
  let issues :=
    if JS.gtb (avgCpu afterMetrics) (avgCpu beforeMetrics * (11 / 10))
    then issues ++ ["CPU usage increased significantly"] else issues in
  let issues :=
    if JS.gtb (avgMemory afterMetrics) (avgMemory beforeMetrics * (11 / 10))
    then issues ++ ["Memory usage increased significantly"] else issues in
  let issues :=
    if JS.ltb (stability afterMetrics) (stability beforeMetrics * (9 / 10))
    then issues ++ ["System stability decreased"] else issues in
  {| isValid := isValid;
     v_confidence := confidence;
     improvementPercent := overallImprovement;
     issues := issues;
     v_recommendation :=
       if isValid && JS.gtb overallImprovement 2 then keep else rollback |}.

Definition createBackup (self : t) (fs : FileSystem) (filePath reason : string)
    (env : ApplyEnv) : option (t * FileSystem * ConfigBackup) :=
  match FS.readFile fs filePath with
  | None => None
  | Some content =>
      let backup :=
        {| b_id := env_backupId env;
           b_timestamp := env_now env;
           b_configFile := filePath;
           b_originalContent := content;
           b_reason := reason |} in
      match FS.writeBackupFile fs backup with
      | None => None
      | Some fs' => Some (setBackups self (backups self ++ [backup]), fs', backup)
      end
  end.

Section WithJSON.

(** [JSON.parse] ([None] when it throws) and [JSON.stringify(_, null, 2)]
    are built-ins of the language. *)
Variable JSON_parse : string -> option json.
Variable JSON_stringify : json -> string.

(** [applyConfigurationChange] catches whatever its body throws: every
    failing step leaves the file system as it was. *)
Definition applyConfigurationChange (fs : FileSystem) (suggestion : OptimizationSuggestion)
    : FileSystem :=
  if isVirtual (sg_configFile suggestion) then fs
  else
    match FS.readFile fs (sg_configFile suggestion) with
    | None => fs
    | Some content =>
        if JS.endsWith (sg_configFile suggestion) ".json" then
          match JSON_parse content with
          | None => fs
          | Some config =>
              if negb (String.eqb (sg_parameter suggestion) "unknown") then
                let paramPath := Json.split "."%char (sg_parameter suggestion) in
                match Json.setPath config paramPath (sg_suggestedValue suggestion) with
                | None => fs
                | Some config' =>
                    match FS.writeFile fs (sg_configFile suggestion)
                            (JSON_stringify config') with
                    | None => fs
                    | Some fs' => fs'
                    end
                end
              else fs
          end
        else fs
    end.

Definition scheduleValidation (self : t) (sessionId backupId : string) : t :=
  setScheduled self (scheduled self ++ [(sessionId, backupId)]).

Definition applySuggestion (w : World) (suggestion : OptimizationSuggestion)
    (currentMetrics : list MetricsSnapshot) (env : ApplyEnv) : World :=
  let '(self, fs) := w in
  let sessionId := env_sessionId env in
  match createBackup self fs (sg_configFile suggestion)
          ("Auto-tuning: " +:+ sg_id suggestion) env with
  | None =>
      (* catch: clean up the failed session *)
      (setActiveSessions self (delete sessionId (activeSessions self)), fs)
  | Some (self, fs, backup) =>
      let session :=
        {| s_id := sessionId;
           s_startTime := env_now env;
           s_endTime := None;
           s_suggestionId := sg_id suggestion;
           s_configFile := sg_configFile suggestion;
           s_parameter := sg_parameter suggestion;
           s_originalValue := sg_currentValue suggestion;
           s_newValue := sg_suggestedValue suggestion;
           s_status := TESTING;
           s_preChangeMetrics := calculateMetricsAverage (JS.lastN 5 currentMetrics);
           s_postChangeMetrics := None;
           s_improvementMeasured := None;
           s_rollbackReason := None |} in
      let self := setActiveSessions self (<[sessionId := session]> (activeSessions self)) in
      let fs := applyConfigurationChange fs suggestion in
      (scheduleValidation self sessionId (b_id backup), fs)
  end.

(** The suggestions one call of [processSuggestions] hands to
    [applySuggestion] ([toProcess]). *)
Definition toProcess (self : t) (fs : FileSystem)
    (suggestions : list OptimizationSuggestion) : list OptimizationSuggestion :=
  let eligibleSuggestions := filterEligibleSuggestions self fs suggestions in
  let availableSlots :=
    (maxConcurrentChanges (config self) - Z.of_nat (size (activeSessions self)))%Z in
  JS.slice0 eligibleSuggestions availableSlots.

(** The [for] loop of [processSuggestions]; the [i]-th call of
    [applySuggestion] draws [envs i]. *)
Fixpoint applyAll (w : World) (toProcess : list OptimizationSuggestion)
    (currentMetrics : list MetricsSnapshot) (envs : nat -> ApplyEnv) (i : nat) : World :=
  match toProcess with
  | [] => w
  | suggestion :: rest =>
      applyAll (applySuggestion w suggestion currentMetrics (envs i))
        rest currentMetrics envs (S i)
  end.

Definition processSuggestions (w : World) (suggestions : list OptimizationSuggestion)
    (currentMetrics : list MetricsSnapshot) (envs : nat -> ApplyEnv) : World :=
  let '(self, fs) := w in
  if negb (enabled (config self)) then w
  else
    let eligibleSuggestions := filterEligibleSuggestions self fs suggestions in
    if (length eligibleSuggestions =? 0)%nat then w
    else applyAll w (toProcess self fs suggestions) currentMetrics envs 0.

End WithJSON.

(** [s.status = ...; s.rollbackReason = reason; s.endTime = new Date()]. *)
Definition markRolledBack (session : AutoTuningSession) (reason : string) (now : Z)
    : AutoTuningSession :=
  {| s_id := s_id session;
     s_startTime := s_startTime session;
     s_endTime := Some now;
     s_suggestionId := s_suggestionId session;
     s_configFile := s_configFile session;
     s_parameter := s_parameter session;
     s_originalValue := s_originalValue session;
     s_newValue := s_newValue session;
     s_status := ROLLED_BACK;
     s_preChangeMetrics := s_preChangeMetrics session;
     s_postChangeMetrics := s_postChangeMetrics session;
     s_improvementMeasured := s_improvementMeasured session;
     s_rollbackReason := Some reason |}.

Definition markSuccessful (session : AutoTuningSession) (improvement : R) (now : Z)
    : AutoTuningSession :=
  {| s_id := s_id session;
     s_startTime := s_startTime session;
     s_endTime := Some now;
     s_suggestionId := s_suggestionId session;
     s_configFile := s_configFile session;
     s_parameter := s_parameter session;
     s_originalValue := s_originalValue session;
     s_newValue := s_newValue session;
     s_status := SUCCESSFUL;
     s_preChangeMetrics := s_preChangeMetrics session;
     s_postChangeMetrics := s_postChangeMetrics session;
     s_improvementMeasured := Some improvement;
     s_rollbackReason := s_rollbackReason session |}.

Definition setPostChangeMetrics (session : AutoTuningSession) (post : MetricsSummary)
    : AutoTuningSession :=
  {| s_id := s_id session;
     s_startTime := s_startTime session;
     s_endTime := s_endTime session;
     s_suggestionId := s_suggestionId session;
     s_configFile := s_configFile session;
     s_parameter := s_parameter session;
     s_originalValue := s_originalValue session;
     s_newValue := s_newValue session;
     s_status := s_status session;
     s_preChangeMetrics := s_preChangeMetrics session;
     s_postChangeMetrics := Some post;
     s_improvementMeasured := s_improvementMeasured session;
     s_rollbackReason := s_rollbackReason session |}.

(** The block "Restore from backup" of [rollbackChange]: the backup is
    looked up by id in the in-memory index; for a real file its original
    text is written back, and a failed [writeFile] is caught and leaves the
    file as it is. *)
Definition restoreFromBackup (index : list ConfigBackup) (fs : FileSystem)
    (backupId : string) : FileSystem :=
  match JS.find (fun b => String.eqb (b_id b) backupId) index with
  | Some backup =>
      if negb (String.eqb (b_configFile backup) "system")
         && negb (String.eqb (b_configFile backup) "algorithmic_optimization")
      then
        match FS.writeFile fs (b_configFile backup) (b_originalContent backup) with
        | Some fs' => fs'
        | None => fs
        end
      else fs
  | None => fs
  end.

(** [rollbackChange].  The session object is the one stored in
    [activeSessions]; its mutation is an update of the stored value. *)
Definition rollbackChange (w : World) (sessionId backupId reason : string) (now : Z)
    : World :=
  let '(self, fs) := w in
  let self :=
    match activeSessions self !! sessionId with
    | Some session =>
        setActiveSessions self
          (<[sessionId := markRolledBack session reason now]> (activeSessions self))
    | None => self
    end in
  (self, restoreFromBackup (backups self) fs backupId).

(** What the measurement step of a validation yields: the three random
    draws of [simulatePostChangeMetrics], or an exception raised inside the
    [try] block before the session is touched. *)
Inductive Measurement :=
| Measured (r1 r2 r3 : R)
| MeasurementThrows.

(** [validateAndFinalize].  The local [session] and the entry of
    [activeSessions] are one object, so after [rollbackChange] the value
    pushed onto [completedSessions] is the entry as it then stands. *)
Definition validateAndFinalize (w : World) (sessionId backupId : string)
    (measurement : Measurement) (now : Z) : World :=
  let '(self, fs) := w in
  match activeSessions self !! sessionId with
  | None => w
  | Some session =>
      match measurement with
      | MeasurementThrows =>
          (* catch *)
          rollbackChange w sessionId backupId "Validation error" now
      | Measured r1 r2 r3 =>
          let postChangeMetrics :=
            simulatePostChangeMetrics (s_preChangeMetrics session) r1 r2 r3 in
          let session := setPostChangeMetrics session postChangeMetrics in
          let self :=
            setActiveSessions self (<[sessionId := session]> (activeSessions self)) in
          let validation :=
            validatePerformanceChange (s_preChangeMetrics session) postChangeMetrics in
          let '(self, fs) :=
            match v_recommendation validation, isValid validation with
            | keep, true =>
                (setActiveSessions self
                   (<[sessionId := markSuccessful session (improvementPercent validation) now]>
                      (activeSessions self)), fs)
            | _, _ =>
                rollbackChange (self, fs) sessionId backupId
                  (JS.join "; " (issues validation)) now
            end in
          (* move to completed sessions *)
          let self :=
            match activeSessions self !! sessionId with
            | Some session => setCompletedSessions self (completedSessions self ++ [session])
            | None => self
            end in
          (setActiveSessions self (delete sessionId (activeSessions self)), fs)
      end
  end.

Definition getActiveSessions (self : t) : list AutoTuningSession :=
  (map_to_list (activeSessions self)).*2.

Definition getCompletedSessions (self : t) : list AutoTuningSession :=
  completedSessions self.

Definition statusIs (st : TuningStatus) (s : AutoTuningSession) : bool :=
  match st, s_status s with
  | PENDING, PENDING | TESTING, TESTING | SUCCESSFUL, SUCCESSFUL
  | FAILED, FAILED | ROLLED_BACK, ROLLED_BACK
  | AWAITING_APPROVAL, AWAITING_APPROVAL => true
  | _, _ => false
  end.

Definition getSuccessfulTunings (self : t) : list AutoTuningSession :=
  List.filter (statusIs SUCCESSFUL) (completedSessions self).

Record TuningStats := {
  totalSessions : nat;
  successful : nat;
  rolledBack : nat;
  successRate : R;
  avgImprovement : R;
}.

(** A division as [getTuningStats] performs it: [None] marks a zero
    denominator, where the quotient would be [NaN] or [Infinity]. *)
Definition divide (a b : R) : option R :=
  if JS.eqb b 0 then None else Some (a / b).

(** [s.improvementMeasured || 0]. *)
Definition improvementOrZero (s : AutoTuningSession) : R :=
  match s_improvementMeasured s with
  | Some x => x
  | None => 0
  end.

(** [getTuningStats]; the result is [None] if one of the two divisions met
    a zero denominator. *)
Definition getTuningStats (self : t) : option TuningStats :=
  let total := length (completedSessions self) in
  let successful := length (getSuccessfulTunings self) in
  let rolledBack := length (List.filter (statusIs ROLLED_BACK) (completedSessions self)) in
  avgImprovement ←
    (if (0 <? successful)%nat
     then divide
            (fold_left (fun sum s => sum + improvementOrZero s)
               (getSuccessfulTunings self) 0)
            (INR successful)
     else Some 0);
  successRate ←
    (if (0 <? total)%nat
     then (fun q => q * 100) <$> divide (INR successful) (INR total)
     else Some 0);
  Some {| totalSessions := total;
          successful := successful;
          rolledBack := rolledBack;
          successRate := successRate;
          avgImprovement := avgImprovement |}.

Definition cleanupOldBackups (w : World) (now : Z) : World :=
  let '(self, fs) := w in
  let cutoff := (now - backupRetention (config self) * 24 * 60 * 60 * 1000)%Z in
  let oldBackups := List.filter (fun b => (b_timestamp b <? cutoff)%Z) (backups self) in
  let fs := fold_left (fun fs b => FS.removeBackupFile fs (b_id b)) oldBackups fs in
  (setBackups self (List.filter (fun b => (b_timestamp b >=? cutoff)%Z) (backups self)), fs).

End AutoTuningEngine.

(** ** The scheduler: ticks run one after the other, each to completion *)

Module Scheduler.

Import AutoTuningEngine.

(** What can happen to an engine and its files: the dispatch tick calls
    [processSuggestions]; a validation task placed by [scheduleValidation]
    fires; housekeeping purges old backups; somebody else rewrites the
    monitored tree. *)
Inductive Event :=
| ProcessSuggestions (suggestions : list OptimizationSuggestion)
    (currentMetrics : list MetricsSnapshot) (envs : nat -> ApplyEnv)
| ValidationDue (sessionId backupId : string) (measurement : Measurement) (now : Z)
| CleanupOldBackups (now : Z)
| FilesChanged (tree : gmap string File).

Fixpoint removeTask (task : string * string) (tasks : list (string * string))
    : list (string * string) :=
  match tasks with
  | [] => []
  | task' :: rest =>
      if decide (task' = task) then rest else task' :: removeTask task rest
  end.

Definition isScheduled (task : string * string) (tasks : list (string * string)) : bool :=
  bool_decide (task ∈ tasks).

Section WithJSON.

Variable JSON_parse : string -> option json.
Variable JSON_stringify : json -> string.

Definition exec (w : World) (ev : Event) : World :=
  match ev with
  | ProcessSuggestions suggestions currentMetrics envs =>
      processSuggestions JSON_parse JSON_stringify w suggestions currentMetrics envs
  | ValidationDue sessionId backupId measurement now =>
      let '(self, fs) := w in
      if isScheduled (sessionId, backupId) (scheduled self)
      then
        validateAndFinalize
          (setScheduled self (removeTask (sessionId, backupId) (scheduled self)), fs)
          sessionId backupId measurement now
      else w
  | CleanupOldBackups now => cleanupOldBackups w now
  | FilesChanged tree =>
      let '(self, fs) := w in
      (self, {| files := tree;
                backupDirUsable := backupDirUsable fs;
                backupFiles := backupFiles fs |})
  end.

Definition run (w : World) (events : list Event) : World :=
  fold_left exec events w.

End WithJSON.

(** The event hands [sid] to some call of [generateSessionId()]. *)
Definition drawsSessionId (sid : string) (ev : Event) : Prop :=
  match ev with
  | ProcessSuggestions _ _ envs => exists i, env_sessionId (envs i) = sid
  | _ => False
  end.

(** Every session object the engine holds: the active ones and the completed
    ones. *)
Definition allSessions (self : t) : list AutoTuningSession :=
  getActiveSessions self ++ completedSessions self.

Definition testingCount (self : t) : nat :=
  length (List.filter (statusIs TESTING) (allSessions self)).

(** The invariant of the engine: the active map holds no more sessions than
    the configured limit, and no completed session is TESTING. *)
Definition withinCapacity (cfg : AutoTuningConfig) (w : World) : Prop :=
  config w.1 = cfg
  /\ (Z.of_nat (size (activeSessions w.1)) <= maxConcurrentChanges cfg)%Z
  /\ Forall (fun s => s_status s <> TESTING) (completedSessions w.1).

End Scheduler.

(** ** Statements of the specification, in its own words *)

Module Spec.

Open Scope R_scope.

(** [clamp(lo, hi, x)]. *)
Definition clamp (lo hi x : R) : R :=
  if Rlt_dec x lo then lo else if Rgt_dec x hi then hi else x.

(** [impactScore = clamp(-1, 1, -0.4·cpuDelta/100 - 0.3·memoryDelta/100
    + 0.3·stabilityDelta)]. *)
Definition impactScore (cpuDelta memoryDelta stabilityDelta : R) : R :=
  clamp (-1) 1
    (- (4 / 10) * cpuDelta / 100 - (3 / 10) * memoryDelta / 100
     + (3 / 10) * stabilityDelta).

(** A series all of whose values are [c]. *)
Definition constantSeries (c : R) (values : list R) : Prop :=
  Forall (fun v => v = c) values.

(** What a suggestion is deduplicated by: [(configFile, parameter)]. *)
Definition target (s : OptimizationSuggestion) : string * string :=
  (sg_configFile s, sg_parameter s).

(** Deduplication keeping the first occurrence: going through the list, a
    suggestion is kept unless its target has been seen. *)
Fixpoint keepFirst (seen : list (string * string)) (l : list OptimizationSuggestion)
    : list OptimizationSuggestion :=
  match l with
  | [] => []
  | s :: rest =>
      if bool_decide (target s ∈ seen) then keepFirst seen rest
      else s :: keepFirst (seen ++ [target s]) rest
  end.

(** [a] may stand before [b]: higher priority rank (critical > high >
    medium > low), or the same rank and a confidence at least as high. *)
Definition ranksBefore (a b : OptimizationSuggestion) : Prop :=
  (OptimizationEngine.priorityOrder (sg_priority b)
     < OptimizationEngine.priorityOrder (sg_priority a))%Z
  \/ (sg_priority a = sg_priority b /\ sg_confidence b <= sg_confidence a).

(** The suggestion at index [i] of [l] is the first of its target. *)
Definition firstOfTarget (l : list OptimizationSuggestion) (i : nat)
    (s : OptimizationSuggestion) : Prop :=
  l !! i = Some s
  /\ forall j s', (j < i)%nat -> l !! j = Some s' -> target s' <> target s.

(** [overallImprovement = 0.4·cpuImprovement + 0.4·memoryImprovement
    + 20·stabilityImprovement]. *)
Definition overallImprovement (before after : MetricsSummary) : R :=
  let cpuImprovement := avgCpu before - avgCpu after in
  let memoryImprovement := avgMemory before - avgMemory after in
  let stabilityImprovement := stability after - stability before in
  (4 / 10) * cpuImprovement + (4 / 10) * memoryImprovement + 20 * stabilityImprovement.

(** [isValid = overallImprovement > 0 AND after.avgCpu < 90 AND
    after.avgMemory < 95]. *)
Definition isValid (before after : MetricsSummary) : Prop :=
  overallImprovement before after > 0 /\ avgCpu after < 90 /\ avgMemory after < 95.

(** The decision to keep: [isValid AND overallImprovement > 2]. *)
Definition kept (before after : MetricsSummary) : Prop :=
  isValid before after /\ overallImprovement before after > 2.

(** The issues a validation triggers, in the order the spec lists them: CPU
    increased by more than 10%, memory increased by more than 10%, stability
    dropped by more than 10%. *)
Definition triggeredIssues (before after : MetricsSummary) : list string :=
  (if Rgt_dec (avgCpu after) (avgCpu before * (11 / 10))
   then ["CPU usage increased significantly"] else [])
  ++ (if Rgt_dec (avgMemory after) (avgMemory before * (11 / 10))
      then ["Memory usage increased significantly"] else [])
  ++ (if Rlt_dec (stability after) (stability before * (9 / 10))
      then ["System stability decreased"] else []).

End Spec.

(** ** Scenarios *)

Module Scenarios.

Import AutoTuningEngine Scheduler.

Open Scope R_scope.

Definition quote : string := String (Ascii.ascii_of_nat 34) "".
Definition newline : string := String (Ascii.ascii_of_nat 10) "".

(** The text [JSON.stringify({ poolSize: 10 }, null, 2)]. *)
Definition poolSizeDocument : string :=
  "{" +:+ newline +:+ "  " +:+ quote +:+ "poolSize" +:+ quote +:+ ": 10"
  +:+ newline +:+ "}".

(** [JSON.parse] and [JSON.stringify(_, null, 2)] on the two documents of the
    scenarios, the empty object and [{ poolSize: 10 }]. *)
Definition JSON_parse (text : string) : option json :=
  if String.eqb text "{}" then Some (JObj []) else None.

Definition JSON_stringify (doc : json) : string :=
  match doc with
  | JObj [] => "{}"
  | _ => poolSizeDocument
  end.

(** A low-risk, high-confidence suggestion to set [poolSize] in app.json. *)
Definition poolSuggestion : OptimizationSuggestion :=
  {| sg_id := "opt_1";
     sg_priority := MEDIUM;
     sg_category := PERFORMANCE;
     sg_configFile := "app.json";
     sg_parameter := "poolSize";
     sg_currentValue := JNull;
     sg_suggestedValue := JNum 10;
     sg_confidence := 9 / 10;
     sg_riskLevel := "low" |}.

(** A tree with app.json, an empty JSON object, writable. *)
Definition appTree : FileSystem :=
  {| files := {[ "app.json" := {| f_content := "{}"; f_writable := true |} ]};
     backupDirUsable := true;
     backupFiles := ∅ |}.

(** The same file after the change, made read-only by its owner. *)
Definition lockedTree : gmap string File :=
  {[ "app.json" := {| f_content := poolSizeDocument; f_writable := false |} ]}.

Definition firstDraw : nat -> ApplyEnv :=
  fun _ => {| env_sessionId := "tune_1"; env_backupId := "backup_1"; env_now := 1000 |}.

(** The default configuration with backups retained for zero days. *)
Definition noRetention : AutoTuningConfig :=
  {| enabled := true;
     safetyMode := true;
     maxConcurrentChanges := 1;
     rollbackTimeout := 5 * 60 * 1000;
     approvalRequired := false;
     riskThreshold := RiskLow;
     testDuration := 2 * 60 * 1000;
     backupRetention := 0 |}.

(** Apply the suggestion, purge the backups, validate two minutes later with
    draws that leave the metrics where they were (no improvement). *)
Definition purgedRun : list Event :=
  [ ProcessSuggestions [poolSuggestion] [] firstDraw;
    CleanupOldBackups 2000;
    ValidationDue "tune_1" "backup_1" (Measured (1 / 2) (1 / 2) 0) 121000 ].

(** Apply the suggestion, lock the file, validate. *)
Definition lockedRun : list Event :=
  [ ProcessSuggestions [poolSuggestion] [] firstDraw;
    FilesChanged lockedTree;
    ValidationDue "tune_1" "backup_1" (Measured (1 / 2) (1 / 2) 0) 121000 ].

(** A limit of -1 concurrent changes, and three eligible suggestions on three
    plain files. *)
Definition negativeLimit : AutoTuningConfig :=
  {| enabled := true;
     safetyMode := true;
     maxConcurrentChanges := -1;
     rollbackTimeout := 5 * 60 * 1000;
     approvalRequired := false;
     riskThreshold := RiskLow;
     testDuration := 2 * 60 * 1000;
     backupRetention := 7 |}.

Definition plainSuggestion (id file : string) : OptimizationSuggestion :=
  {| sg_id := id;
     sg_priority := MEDIUM;
     sg_category := PERFORMANCE;
     sg_configFile := file;
     sg_parameter := "timeout";
     sg_currentValue := JNull;
     sg_suggestedValue := JNum 10;
     sg_confidence := 9 / 10;
     sg_riskLevel := "low" |}.

Definition threeSuggestions : list OptimizationSuggestion :=
  [ plainSuggestion "opt_a" "a.conf";
    plainSuggestion "opt_b" "b.conf";
    plainSuggestion "opt_c" "c.conf" ].

Definition threeFiles : FileSystem :=
  {| files :=
       {[ "a.conf" := {| f_content := "timeout=1"; f_writable := true |};
          "b.conf" := {| f_content := "timeout=2"; f_writable := true |};
          "c.conf" := {| f_content := "timeout=3"; f_writable := true |} ]};
     backupDirUsable := true;
     backupFiles := ∅ |}.

Definition threeDraws : nat -> ApplyEnv :=
  fun i =>
    match i with
    | O => {| env_sessionId := "tune_a"; env_backupId := "backup_a"; env_now := 1000 |}
    | S O => {| env_sessionId := "tune_b"; env_backupId := "backup_b"; env_now := 1001 |}
    | _ => {| env_sessionId := "tune_c"; env_backupId := "backup_c"; env_now := 1002 |}
    end.

(** app.json after the change, still writable. *)
Definition changedTree : FileSystem :=
  {| files := {[ "app.json" := {| f_content := poolSizeDocument; f_writable := true |} ]};
     backupDirUsable := true;
     backupFiles := ∅ |}.

(** A session under test on an idle system, and an engine that holds it. *)
Definition idleSession : AutoTuningSession :=
  {| s_id := "tune_1";
     s_startTime := 1000;
     s_endTime := None;
     s_suggestionId := "opt_1";
     s_configFile := "app.json";
     s_parameter := "poolSize";
     s_originalValue := JNull;
     s_newValue := JNum 10;
     s_status := TESTING;
     s_preChangeMetrics := {| avgCpu := 0; avgMemory := 0; stability := 1 |};
     s_postChangeMetrics := None;
     s_improvementMeasured := None;
     s_rollbackReason := None |}.

Definition idleEngine : t :=
  {| config := defaultConfig;
     activeSessions := {[ "tune_1" := idleSession ]};
     backups := [];
     completedSessions := [];
     scheduled := [("tune_1", "backup_1")] |}.

(** Two analyzers with the default configuration, one fresh and one that
    has already recorded a change; a change event and a short history. *)
Definition sampleChange : ImpactAnalyzer.ConfigChangeEvent :=
  {| ImpactAnalyzer.ce_id := "change_1";
     ImpactAnalyzer.ce_timestamp := 5000;
     ImpactAnalyzer.ce_configFile := "app.json";
     ImpactAnalyzer.ce_changeType := ImpactAnalyzer.modified;
     ImpactAnalyzer.ce_parameter := None;
     ImpactAnalyzer.ce_configHash := "h1" |}.

(** The same change with another id and hash. *)
Definition redrawnChange : ImpactAnalyzer.ConfigChangeEvent :=
  {| ImpactAnalyzer.ce_id := "change_2";
     ImpactAnalyzer.ce_timestamp := 5000;
     ImpactAnalyzer.ce_configFile := "app.json";
     ImpactAnalyzer.ce_changeType := ImpactAnalyzer.modified;
     ImpactAnalyzer.ce_parameter := None;
     ImpactAnalyzer.ce_configHash := "h2" |}.

Definition freshAnalyzer : ImpactAnalyzer.t :=
  {| ImpactAnalyzer.config := ImpactAnalyzer.defaultConfig;
     ImpactAnalyzer.baselines := ∅;
     ImpactAnalyzer.changeHistory := [];
     ImpactAnalyzer.analysisResults := [] |}.

Definition usedAnalyzer : ImpactAnalyzer.t :=
  {| ImpactAnalyzer.config := ImpactAnalyzer.defaultConfig;
     ImpactAnalyzer.baselines := ∅;
     ImpactAnalyzer.changeHistory := [sampleChange];
     ImpactAnalyzer.analysisResults := [] |}.

Definition sample (time : Z) (cpu : R) : MetricsSnapshot :=
  {| ms_id := "m"; ms_timestamp := time; ms_cpu_usage := cpu;
     ms_memory_percentage := 40; ms_configHash := "h0" |}.

Definition sampleHistory : list MetricsSnapshot :=
  [ sample 2000 10; sample 3000 10; sample 4000 10;
    sample 6000 20; sample 7000 20; sample 8000 20 ].

End Scenarios.

(** ** Impact Analyzer: the change ledger, the baselines and the tick *)

Module Analysis.

Import ImpactAnalyzer.

Open Scope R_scope.

(** What one call of [recordConfigChange] draws from outside: the random
    change id, and the three readings of the clock ([new Date()] for the
    timestamp, [Date.now()] for the hash, [Date.now()] in
    [cleanupOldChanges]). *)
Record RecordEnv := {
  re_changeId : string;
  re_timestamp : Z;
  re_hashTime : Z;
  re_cleanupTime : Z;
}.

Definition setChangeHistory (self : t) (l : list ConfigChangeEvent) : t :=
  {| config := config self;
     baselines := baselines self;
     changeHistory := l;
     analysisResults := analysisResults self |}.

Definition setBaselines (self : t) (m : gmap string PerformanceBaseline) : t :=
  {| config := config self;
     baselines := m;
     changeHistory := changeHistory self;
     analysisResults := analysisResults self |}.

Definition cleanupOldChanges (self : t) (now : Z) : t :=
  let cutoff := (now - analysisWindow (config self) * 2)%Z in
  setChangeHistory self
    (List.filter (fun change => (ce_timestamp change >? cutoff)%Z) (changeHistory self)).

Section WithHash.

(** [generateConfigHash]: the MD5 digest of the file name and the time, a
    function of the two. *)
Variable generateConfigHash : string -> Z -> string.

Definition recordConfigChange (self : t) (configFile : string) (changeType : ChangeType)
    (env : RecordEnv) : t :=
  let changeEvent :=
    {| ce_id := re_changeId env;
       ce_timestamp := re_timestamp env;
       ce_configFile := configFile;
       ce_changeType := changeType;
       ce_parameter := None;
       ce_configHash := generateConfigHash configFile (re_hashTime env) |} in
  cleanupOldChanges
    (setChangeHistory self (changeHistory self ++ [changeEvent]))
    (re_cleanupTime env).

End WithHash.

(** [Math.max(...values)]; [None] stands for the [-Infinity] of no values. *)
Definition mathMax (values : list R) : option R :=
  match values with
  | [] => None
  | x :: rest => Some (fold_left Rmax rest x)
  end.

(** [calculateBaseline].  On an empty group the source would divide by zero
    and take the maximum of nothing; that result, which is no finite
    baseline, is [None].  [updateBaselines] only passes groups it has put a
    snapshot in. *)
Definition calculateBaseline (configHash : string) (snapshots : list MetricsSnapshot)
    (now : Z) : option PerformanceBaseline :=
  let cpuValues := map ms_cpu_usage snapshots in
  let memoryValues := map ms_memory_percentage snapshots in
  let avgCpu := average cpuValues in
  let avgMemory := average memoryValues in
  maxCpu ← mathMax cpuValues;
  maxMemory ← mathMax memoryValues;
  let cpuStability := calculateStability cpuValues in
  let memoryStability := calculateStability memoryValues in
  let overallStability := (cpuStability + memoryStability) / 2 in
  Some {| pb_configHash := configHash;
          pb_timestamp := now;
          pb_metrics := {| bm_avgCpu := avgCpu;
                           bm_avgMemory := avgMemory;
                           bm_maxCpu := maxCpu;
                           bm_maxMemory := maxMemory;
                           bm_sampleCount := length snapshots |};
          pb_stability := overallStability |}.

(** The [Map] [configGroups] of [updateBaselines]: the snapshots of each
    configuration hash, in the order of the history. *)
Definition groupByHash (metricsHistory : list MetricsSnapshot)
    : gmap string (list MetricsSnapshot) :=
  fold_left
    (fun groups snapshot =>
       <[ms_configHash snapshot :=
           default [] (groups !! ms_configHash snapshot) ++ [snapshot]]> groups)
    metricsHistory ∅.

(** [updateBaselines].  The loop over the groups sets one key per group, so
    its result does not depend on the order of the groups: the baselines of
    the groups that are large enough, over the baselines there were.
    [clock hash] is the time read when the baseline of [hash] is built. *)
Definition updateBaselines (self : t) (metricsHistory : list MetricsSnapshot)
    (clock : string -> Z) : t :=
  let configGroups := groupByHash metricsHistory in
  setBaselines self
    (map_imap
       (fun configHash snapshots =>
          if (minSampleSize (config self) <=? length snapshots)%nat
          then calculateBaseline configHash snapshots (clock configHash)
          else None)
       configGroups
     ∪ baselines self).

Section WithNumberFormatting.

Variable toFixed : R -> nat -> string.

(** [analyzeMetrics]: nothing with too short a history, otherwise the
    baselines and then the recent changes. *)
Definition analyzeMetrics (self : t) (metricsHistory : list MetricsSnapshot)
    (clock : string -> Z) (now : Z) : t :=
  if (length metricsHistory <? minSampleSize (config self))%nat then self
  else
    analyzeRecentChanges toFixed (updateBaselines self metricsHistory clock)
      now metricsHistory.

End WithNumberFormatting.

(** The four texts of [generateRecommendation]. *)
Inductive Advice := AdviseKeep | AdviseRevert | AdviseNeutral | AdviseMonitor.

Definition adviceText (advice : Advice) (configFile : string) : string :=
  match advice with
  | AdviseKeep =>
      "✅ Positive impact detected. Consider keeping this configuration change in "
        +:+ configFile +:+ "."
  | AdviseRevert =>
      "⚠️ Negative impact detected. Consider reverting changes to "
        +:+ configFile +:+ "."
  | AdviseNeutral =>
      "ℹ️ Minimal impact detected. Configuration change in "
        +:+ configFile +:+ " appears neutral."
  | AdviseMonitor =>
      "📊 Minor impact detected. Monitor " +:+ configFile +:+ " for additional changes."
  end.

End Analysis.

(** ** Reading a JSON document along a path *)

Module JsonRead.

(** [doc[k1][k2]...], through objects only. *)
Fixpoint getPath (doc : json) (path : list string) : option json :=
  match path with
  | [] => Some doc
  | key :: rest =>
      match doc with
      | JObj fields =>
          match Json.lookupField key fields with
          | Some child => getPath child rest
          | None => None
          end
      | _ => None
      end
  end.

(** The property names every object inherits from [Object.prototype]
    (ECMAScript, with Annex B): for these [target[key]] is not [undefined]
    on an object that has no such key of its own. *)
Definition inheritedName (key : string) : bool :=
  existsb (String.eqb key)
    [ "constructor"; "hasOwnProperty"; "isPrototypeOf"; "propertyIsEnumerable";
      "toLocaleString"; "toString"; "valueOf"; "__proto__";
      "__defineGetter__"; "__defineSetter__"; "__lookupGetter__"; "__lookupSetter__" ].

Definition isDigit (c : Ascii.ascii) : bool :=
  (48 <=? Ascii.nat_of_ascii c)%nat && (Ascii.nat_of_ascii c <=? 57)%nat.

(** Keys made of digits only; among them are the integer indices, which an
    object lists first and in numeric order. *)
Fixpoint allDigits (key : string) : bool :=
  match key with
  | EmptyString => true
  | String c rest => isDigit c && allDigits rest
  end.

Definition digitsOnly (key : string) : bool :=
  negb (String.eqb key "") && allDigits key.

(** A key for which [target[key]] reads and writes an own property of an
    object (with the [Object.prototype] of the language, to which nothing
    has been added), and which a new property keeps at the end of the
    object. *)
Definition plainKey (key : string) : bool :=
  negb (inheritedName key) && negb (digitsOnly key).

End JsonRead.

(** ** The auto-tuning tick ([src/index.ts], [startPeriodicAutoTuning]) *)

Module ConfigFlow.

Import AutoTuningEngine.

(** [hasBeenProcessed]: some active or completed session carries the
    suggestion id. *)
Definition hasBeenProcessed (self : t) (suggestionId : string) : bool :=
  let allSessions := getActiveSessions self ++ getCompletedSessions self in
  existsb (fun session => String.eqb (s_suggestionId session) suggestionId) allSessions.

Section WithJSON.

Variable JSON_parse : string -> option json.
Variable JSON_stringify : json -> string.

(** The body of the tick, for a running system with its engines in place:
    the suggestions of the Optimization Engine that have no session yet go
    to [processSuggestions]. *)
Definition autoTuningTick (w : World) (suggestions : list OptimizationSuggestion)
    (recentMetrics : list MetricsSnapshot) (envs : nat -> ApplyEnv) : World :=
  let newSuggestions :=
    List.filter (fun s => negb (hasBeenProcessed w.1 (sg_id s))) suggestions in
  if (0 <? length newSuggestions)%nat
  then processSuggestions JSON_parse JSON_stringify w newSuggestions recentMetrics envs
  else w.

End WithJSON.

End ConfigFlow.

(** ** The records the engine keeps of a session *)

Module Lifecycle.

Import AutoTuningEngine.

Open Scope R_scope.

(** A record as [validateAndFinalize] files it on the completed list: closed
    and measured, and either successful with the improvement it showed or
    rolled back with a reason. *)
Definition finished (s : AutoTuningSession) : Prop :=
  is_Some (s_endTime s)
  /\ is_Some (s_postChangeMetrics s)
  /\ ((s_status s = SUCCESSFUL /\ exists x, s_improvementMeasured s = Some x /\ 2 < x)
      \/ (s_status s = ROLLED_BACK /\ is_Some (s_rollbackReason s))).

(** The active map files every session under its own id, and a validation
    task is pending for every session under test. *)
Definition supervised (self : t) : Prop :=
  forall sid s,
    activeSessions self !! sid = Some s ->
    s_id s = sid
    /\ (s_status s = TESTING -> exists bid, (sid, bid) ∈ scheduled self).

End Lifecycle.

(** ** Further scenarios *)

Module Cases.

Import AutoTuningEngine Scenarios.

Open Scope R_scope.

(** The baseline of a configuration whose load never settled. *)
Definition unstableBaseline : ImpactAnalyzer.PerformanceBaseline :=
  {| ImpactAnalyzer.pb_configHash := "h0";
     ImpactAnalyzer.pb_timestamp := 9000;
     ImpactAnalyzer.pb_metrics :=
       {| ImpactAnalyzer.bm_avgCpu := 50;
          ImpactAnalyzer.bm_avgMemory := 40;
          ImpactAnalyzer.bm_maxCpu := 90;
          ImpactAnalyzer.bm_maxMemory := 45;
          ImpactAnalyzer.bm_sampleCount := 6 |};
     ImpactAnalyzer.pb_stability := 1 / 2 |}.

(** The session of the scenarios as a validation that raised an exception
    leaves it, and an engine that holds it with no task pending. *)
Definition strandedSession : AutoTuningSession :=
  markRolledBack idleSession "Validation error" 121000.

Definition strandedEngine : t :=
  {| config := defaultConfig;
     activeSessions := {[ "tune_1" := strandedSession ]};
     backups := [];
     completedSessions := [];
     scheduled := [] |}.

(** The draws of one [recordConfigChange], and a hash that is the file
    name. *)
Definition recordDraw : Analysis.RecordEnv :=
  {| Analysis.re_changeId := "change_1";
     Analysis.re_timestamp := 5000;
     Analysis.re_hashTime := 5000;
     Analysis.re_cleanupTime := 5001 |}.

Definition fileNameHash (configFile : string) (time : Z) : string := configFile.

Definition numberedId (n : nat) : string :=
  match n with
  | O => "opt_1"
  | _ => "opt_n"
  end.

(** A collector that reports readings below zero (the fields are plain
    numbers), and the run that applies the pool-size suggestion on such a
    snapshot and validates it with the draws 1/2, 1/2 and 0. *)
Definition negativeSnapshot : MetricsSnapshot :=
  {| ms_id := "m1"; ms_timestamp := 500; ms_cpu_usage := -10;
     ms_memory_percentage := -10; ms_configHash := "h0" |}.

Definition negativeRun : list Scheduler.Event :=
  [ Scheduler.ProcessSuggestions [poolSuggestion] [negativeSnapshot] firstDraw;
    Scheduler.ValidationDue "tune_1" "backup_1" (Measured (1 / 2) (1 / 2) 0) 121000 ].

End Cases.

(** * Properties *)

(** ** Numbers and arrays *)

Section JSFacts.

Open Scope R_scope.

Lemma ltb_true a b : JS.ltb a b = true <-> a < b.
Proof. unfold JS.ltb. destruct (Rlt_dec a b); split; (congruence || tauto). Qed.

Lemma ltb_false a b : JS.ltb a b = false <-> b <= a.
Proof. unfold JS.ltb. destruct (Rlt_dec a b); split; intros; (congruence || lra). Qed.

Lemma gtb_true a b : JS.gtb a b = true <-> a > b.
Proof. unfold JS.gtb. destruct (Rgt_dec a b); split; (congruence || tauto). Qed.

Lemma gtb_false a b : JS.gtb a b = false <-> a <= b.
Proof. unfold JS.gtb. destruct (Rgt_dec a b); split; intros; (congruence || lra). Qed.

Lemma eqb_true a b : JS.eqb a b = true <-> a = b.
Proof. unfold JS.eqb. destruct (Req_dec_T a b); split; (congruence || tauto). Qed.

Lemma eqb_false a b : JS.eqb a b = false <-> a <> b.
Proof. unfold JS.eqb. destruct (Req_dec_T a b); split; (congruence || tauto). Qed.

Lemma fold_plus_acc (l : list R) (a : R) :
  fold_left Rplus l a = a + fold_left Rplus l 0.
Proof.
  revert a. induction l as [|x l IH]; intros a; simpl.
  - lra.
  - rewrite (IH (a + x)), (IH (0 + x)). lra.
Qed.

Lemma sum_cons (x : R) (l : list R) : JS.sum (x :: l) = x + JS.sum l.
Proof. unfold JS.sum. simpl. rewrite fold_plus_acc. lra. Qed.

Lemma sum_constant (c : R) (l : list R) :
  Spec.constantSeries c l -> JS.sum l = INR (length l) * c.
Proof.
  induction 1 as [|v l Hv _ IH].
  - unfold JS.sum. simpl. lra.
  - rewrite sum_cons, IH. subst v.
    change (length (c :: l)) with (S (length l)). rewrite S_INR. lra.
Qed.

Lemma fold_sq_acc (m : R) (l : list R) (a : R) :
  fold_left (fun acc val => acc + (val - m) ^ 2) l a
  = a + JS.sumSquaredDeviations m l.
Proof.
  unfold JS.sumSquaredDeviations. revert a.
  induction l as [|x l IH]; intros a; cbn [fold_left].
  - lra.
  - rewrite (IH (a + _)), (IH (0 + _)). lra.
Qed.

Lemma sumSquaredDeviations_cons (m x : R) (l : list R) :
  JS.sumSquaredDeviations m (x :: l) = (x - m) ^ 2 + JS.sumSquaredDeviations m l.
Proof.
  unfold JS.sumSquaredDeviations at 1. cbn [fold_left]. rewrite fold_sq_acc. lra.
Qed.

Lemma sumSquaredDeviations_nonneg (m : R) (l : list R) :
  0 <= JS.sumSquaredDeviations m l.
Proof.
  induction l as [|x l IH].
  - unfold JS.sumSquaredDeviations. simpl. lra.
  - rewrite sumSquaredDeviations_cons.
    assert (0 <= (x - m) ^ 2) by (apply pow2_ge_0). lra.
Qed.

Lemma sumSquaredDeviations_constant (c : R) (l : list R) :
  Spec.constantSeries c l -> JS.sumSquaredDeviations c l = 0.
Proof.
  induction 1 as [|v l Hv _ IH].
  - reflexivity.
  - rewrite sumSquaredDeviations_cons, IH. subst v. lra.
Qed.

Lemma INR_length_pos {A} (l : list A) : (0 < length l)%nat -> 0 < INR (length l).
Proof. intros H. apply lt_0_INR. exact H. Qed.

End JSFacts.

(** ** Impact Analyzer *)

Section ImpactAnalyzerFacts.

Open Scope R_scope.

Import ImpactAnalyzer.

Lemma clamp_as_max_min (x : R) : Rmax (-1) (Rmin 1 x) = Spec.clamp (-1) 1 x.
Proof.
  unfold Spec.clamp, Rmax, Rmin.
  destruct (Rlt_dec x (-1)), (Rgt_dec x 1), (Rle_dec 1 x);
    try lra;
    match goal with |- context [Rle_dec ?a ?b] => destruct (Rle_dec a b) end; lra.
Qed.

(** C6. The impact score the analyzer computes is the clamp to [-1, 1] of
    the weighted sum -0.4·cpuDelta/100 - 0.3·memoryDelta/100
    + 0.3·stabilityDelta, and so always lies between -1 and 1. *)
Theorem calculateImpactScore_clamped (cpuDelta memoryDelta stabilityDelta : R) :
  calculateImpactScore cpuDelta memoryDelta stabilityDelta
    = Spec.impactScore cpuDelta memoryDelta stabilityDelta
  /\ -1 <= calculateImpactScore cpuDelta memoryDelta stabilityDelta <= 1.
Proof.
  split.
  - unfold calculateImpactScore, Spec.impactScore.
    rewrite clamp_as_max_min. f_equal. lra.
  - unfold calculateImpactScore. cbv zeta.
    set (score := 0 - _ - _ + _).
    split.
    + apply Rmax_l.
    + apply Rmax_lub; [lra | apply Rmin_l].
Qed.

Lemma average_constant (c : R) (values : list R) :
  values <> [] -> Spec.constantSeries c values -> average values = c.
Proof.
  intros Hne Hc. unfold average. rewrite (sum_constant c values Hc).
  assert (0 < INR (length values)).
  { apply INR_length_pos. destruct values; [congruence | simpl; lia]. }
  field. lra.
Qed.

(** The analyzer's stability score lies in [0, 1] for every series. *)
Lemma analyzer_stability_bounds (values : list R) :
  0 <= calculateStability values <= 1.
Proof.
  unfold calculateStability.
  destruct (length values <? 2)%nat eqn:Hlen; [lra|].
  cbv zeta.
  set (mean := average values).
  set (stdDev := sqrt _).
  assert (Hsd : 0 <= stdDev) by apply sqrt_pos.
  split; [apply Rmax_l|].
  apply Rmax_lub; [lra|].
  destruct (JS.gtb mean 0) eqn:Hm; [|lra].
  apply gtb_true in Hm.
  assert (0 <= stdDev / mean).
  { apply Rmult_le_pos; [exact Hsd|]. left. apply Rinv_0_lt_compat. lra. }
  lra.
Qed.

(** In exact arithmetic the analyzer's stability score of a constant series
    is 1.  (The doubles of the source can leave a residue of rounding in the
    mean, and through it in the score: three readings of 0.1 give
    0.9999999999999999.) *)
Lemma analyzer_stability_constant (c : R) (values : list R) :
  values <> [] -> Spec.constantSeries c values -> calculateStability values = 1.
Proof.
  intros Hne Hc. unfold calculateStability.
  destruct (length values <? 2)%nat; [reflexivity|].
  cbv zeta. rewrite (average_constant c values Hne Hc).
  rewrite (sumSquaredDeviations_constant c values Hc).
  replace (0 / INR (length values)) with 0 by (unfold Rdiv; lra).
  rewrite sqrt_0.
  replace (if JS.gtb c 0 then 0 / c else 0) with 0
    by (destruct (JS.gtb c 0); unfold Rdiv; lra).
  rewrite Rminus_0_r. apply Rmax_right. lra.
Qed.

End ImpactAnalyzerFacts.

Section Determinism.

Import ImpactAnalyzer.

Variable toFixed : R -> nat -> string.

(** C9. Two runs of the impact computation on the same metrics history, the
    same analysis configuration and the same change event -- or two events
    for the same file and instant that differ in what the random source and
    the hash gave them, their id and configHash -- by analyzer objects in
    whatever state (baselines, change ledger, earlier analyses), agree on
    whether an analysis is produced and on its impact score, confidence and
    recommendation: nothing random is read. *)
Theorem analyzeChangeImpact_deterministic (self1 self2 : t)
    (change1 change2 : ConfigChangeEvent) (metricsHistory : list MetricsSnapshot) :
  config self1 = config self2 ->
  ce_timestamp change1 = ce_timestamp change2 ->
  ce_configFile change1 = ce_configFile change2 ->
  let run1 := analyzeChangeImpact toFixed self1 change1 metricsHistory in
  let run2 := analyzeChangeImpact toFixed self2 change2 metricsHistory in
  impactScore <$> run1 = impactScore <$> run2
  /\ confidence <$> run1 = confidence <$> run2
  /\ recommendation <$> run1 = recommendation <$> run2.
Proof.
  intros Hcfg Htime Hfile run1 run2. subst run1 run2.
  unfold analyzeChangeImpact. rewrite Hcfg, Htime, Hfile. cbv zeta.
  match goal with |- context [if ?c then None else _] => destruct c end;
    cbn [fmap option_fmap option_map impactScore confidence recommendation]; auto.
Qed.

(** The clock only selects which changes are analysed: each analysis that a
    tick appends is the one [analyzeChangeImpact] computes for its change. *)
Lemma analyzeRecentChanges_results (self : t) (now : Z)
    (metricsHistory : list MetricsSnapshot) :
  analysisResults (analyzeRecentChanges toFixed self now metricsHistory)
  = analysisResults self
    ++ omap (fun change => analyzeChangeImpact toFixed self change metricsHistory)
         (getRecentChanges self now).
Proof.
  unfold analyzeRecentChanges.
  generalize (getRecentChanges self now) as changes.
  assert (Hgen : forall changes (acc : t),
    config acc = config self ->
    analysisResults
      (fold_left
         (fun (acc : t) change =>
            match analyzeChangeImpact toFixed acc change metricsHistory with
            | Some analysis =>
                {| config := config acc;
                   baselines := baselines acc;
                   changeHistory := changeHistory acc;
                   analysisResults := analysisResults acc ++ [analysis] |}
            | None => acc
            end) changes acc)
    = analysisResults acc
      ++ omap (fun change => analyzeChangeImpact toFixed self change metricsHistory)
           changes).
  { induction changes as [|c changes IH]; intros acc Hacc.
    - simpl. rewrite app_nil_r. reflexivity.
    - cbn [fold_left omap list_omap].
      assert (Hsame : analyzeChangeImpact toFixed acc c metricsHistory
                      = analyzeChangeImpact toFixed self c metricsHistory).
      { unfold analyzeChangeImpact. rewrite Hacc. reflexivity. }
      rewrite Hsame.
      destruct (analyzeChangeImpact toFixed self c metricsHistory) as [a|].
      + rewrite IH by exact Hacc. cbn [analysisResults].
        rewrite <- app_assoc. reflexivity.
      + apply IH. exact Hacc. }
  intros changes. apply Hgen. reflexivity.
Qed.

End Determinism.

(** ** Stability in the Auto-Tuning Engine *)

Section EngineStability.

Open Scope R_scope.

Import AutoTuningEngine.

(** The engine's stability score is never negative. *)
Lemma engine_stability_nonneg (snapshots : list MetricsSnapshot) :
  0 <= calculateStability snapshots.
Proof.
  unfold calculateStability.
  destruct (length snapshots <? 2)%nat; [lra|]. cbv zeta.
  destruct (JS.eqb _ 0).
  - destruct (JS.eqb _ 0); [apply Rmax_l | lra].
  - apply Rmax_l.
Qed.

(** It is at most 1 when the CPU series has a non-negative mean, as every
    series of non-negative readings has. *)
Lemma engine_stability_le_1 (snapshots : list MetricsSnapshot) :
  0 <= JS.sum (map ms_cpu_usage snapshots) ->
  calculateStability snapshots <= 1.
Proof.
  intros Hsum. unfold calculateStability.
  destruct (length snapshots <? 2)%nat eqn:Hlen; [lra|]. cbv zeta.
  apply Nat.ltb_ge in Hlen.
  set (cpuValues := map ms_cpu_usage snapshots) in *.
  assert (Hn : 0 < INR (length cpuValues)).
  { apply INR_length_pos. unfold cpuValues. rewrite length_map. lia. }
  set (mean := JS.sum cpuValues / INR (length cpuValues)).
  set (stdDev := sqrt _).
  assert (Hsd : 0 <= stdDev) by apply sqrt_pos.
  assert (Hmean : 0 <= mean).
  { unfold mean. apply Rmult_le_pos; [exact Hsum|].
    left. apply Rinv_0_lt_compat. exact Hn. }
  destruct (JS.eqb mean 0) eqn:Hm.
  - destruct (JS.eqb stdDev 0); [|lra].
    apply Rmax_lub; lra.
  - apply eqb_false in Hm.
    apply Rmax_lub; [lra|].
    assert (0 <= stdDev / mean).
    { apply Rmult_le_pos; [exact Hsd|]. left. apply Rinv_0_lt_compat. lra. }
    lra.
Qed.

(** In exact arithmetic a constant CPU series has stability 1 in the engine
    too. *)
Lemma engine_stability_constant (c : R) (snapshots : list MetricsSnapshot) :
  snapshots <> [] ->
  Spec.constantSeries c (map ms_cpu_usage snapshots) ->
  calculateStability snapshots = 1.
Proof.
  intros Hne Hc. unfold calculateStability.
  destruct (length snapshots <? 2)%nat; [reflexivity|]. cbv zeta.
  set (cpuValues := map ms_cpu_usage snapshots) in *.
  assert (Hne' : cpuValues <> []).
  { unfold cpuValues. destruct snapshots; [congruence | discriminate]. }
  fold (ImpactAnalyzer.average cpuValues).
  rewrite (average_constant c cpuValues Hne' Hc).
  rewrite (sumSquaredDeviations_constant c cpuValues Hc).
  replace (0 / INR (length cpuValues)) with 0 by (unfold Rdiv; lra).
  rewrite sqrt_0.
  assert (H0 : JS.eqb 0 0 = true) by (apply eqb_true; reflexivity).
  rewrite H0.
  replace (1 - 0 / c) with 1 by (unfold Rdiv; lra).
  replace (1 - 0) with 1 by lra.
  assert (Rmax 0 1 = 1) as -> by (apply Rmax_right; lra).
  destruct (JS.eqb c 0); reflexivity.
Qed.

(** C7, at the series of CPU readings -1, -3.  The mean is -2 and the
    standard deviation 1, so the quotient is -1/2 and the engine returns
    3/2: above the bound of 1 that the analyzer's version, with its
    [mean > 0] test, keeps on the same readings. *)
Theorem engine_stability_exceeds_one :
  calculateStability
    [ {| ms_id := "m1"; ms_timestamp := 0; ms_cpu_usage := -1;
         ms_memory_percentage := 50; ms_configHash := "h" |};
      {| ms_id := "m2"; ms_timestamp := 1; ms_cpu_usage := -3;
         ms_memory_percentage := 50; ms_configHash := "h" |} ] = 3 / 2
  /\ ImpactAnalyzer.calculateStability [-1; -3] = 1.
Proof.
  split.
  - unfold calculateStability.
    cbn [length Nat.ltb Nat.leb map ms_cpu_usage].
    unfold JS.sum, JS.sumSquaredDeviations. cbn [fold_left INR].
    replace ((0 + -1 + -3) / (1 + 1)) with (-2) by lra.
    replace ((0 + (-1 - -2) ^ 2 + (-3 - -2) ^ 2) / (1 + 1)) with 1 by lra.
    rewrite sqrt_1.
    assert (H : JS.eqb (-2) 0 = false) by (apply eqb_false; lra).
    rewrite H. rewrite Rmax_right; lra.
  - unfold ImpactAnalyzer.calculateStability, ImpactAnalyzer.average.
    cbn [length Nat.ltb Nat.leb].
    unfold JS.sum. cbn [fold_left INR].
    assert (H : JS.gtb ((0 + -1 + -3) / (1 + 1)) 0 = false) by (apply gtb_false; lra).
    rewrite H. rewrite Rmax_right; lra.
Qed.

End EngineStability.

(** ** Optimization Engine: deduplication and ranking *)

Section Prioritization.

Open Scope R_scope.

Import OptimizationEngine.

Lemma sameTarget_true (x y : OptimizationSuggestion) :
  sameTarget x y = true <-> Spec.target y = Spec.target x.
Proof.
  unfold sameTarget, Spec.target. rewrite andb_true_iff, !String.eqb_eq.
  split; [intros [-> ->]; reflexivity | intros [= -> ->]; auto].
Qed.

Lemma sameTarget_refl (x : OptimizationSuggestion) : sameTarget x x = true.
Proof. apply sameTarget_true. reflexivity. Qed.

(** [findIndex] stops at the first match: on [pre ++ s :: rest], with [s] a
    match, it returns the position of [s] exactly when nothing in [pre]
    matches. *)
Lemma findIndexFrom_at {A} (p : A -> bool) (pre : list A) (s : A) (rest : list A) (i : Z) :
  p s = true ->
  (i + Z.of_nat (length pre) =? JS.findIndexFrom p (pre ++ s :: rest) i)%Z
  = forallb (fun y => negb (p y)) pre.
Proof.
  intros Hs. revert i.
  assert (Hlt : forall (pre : list A) i,
            existsb p pre = true ->
            (i <= JS.findIndexFrom p (pre ++ s :: rest) i < i + Z.of_nat (length pre))%Z).
  { clear. induction pre as [|y pre IH]; intros i Hex; [discriminate|].
    cbn [app JS.findIndexFrom length]. cbn [existsb] in Hex.
    destruct (p y) eqn:Hy; [lia|].
    specialize (IH (i + 1)%Z Hex). lia. }
  induction pre as [|y pre IH]; intros i.
  - cbn [app JS.findIndexFrom length forallb]. rewrite Hs. apply Z.eqb_eq. lia.
  - cbn [app JS.findIndexFrom length forallb].
    destruct (p y) eqn:Hy; cbn [negb andb].
    + apply Z.eqb_neq. lia.
    + rewrite <- (IH (i + 1)%Z). f_equal. lia.
Qed.

Lemma forallb_not_sameTarget (s : OptimizationSuggestion) (pre : list OptimizationSuggestion) :
  forallb (fun y => negb (sameTarget s y)) pre
  = negb (bool_decide (Spec.target s ∈ map Spec.target pre)).
Proof.
  induction pre as [|y pre IH].
  - cbn. rewrite bool_decide_eq_false_2; [reflexivity | apply not_elem_of_nil].
  - cbn [forallb map]. rewrite IH.
    destruct (sameTarget s y) eqn:Hy; cbn [negb andb].
    + apply sameTarget_true in Hy. symmetry. apply negb_false_iff.
      apply bool_decide_eq_true. rewrite Hy. apply elem_of_cons. left. reflexivity.
    + f_equal. apply bool_decide_ext. rewrite elem_of_cons.
      split; [tauto|]. intros [Heq|H]; [|exact H].
      exfalso. assert (sameTarget s y = true); [|congruence].
      apply sameTarget_true. congruence.
Qed.

(** Only the set of seen targets matters. *)
Lemma keepFirst_ext (l : list OptimizationSuggestion) (seen1 seen2 : list (string * string)) :
  (forall k, k ∈ seen1 <-> k ∈ seen2) ->
  Spec.keepFirst seen1 l = Spec.keepFirst seen2 l.
Proof.
  revert seen1 seen2. induction l as [|y l IH]; intros seen1 seen2 Heq; [reflexivity|].
  cbn [Spec.keepFirst].
  rewrite (bool_decide_ext _ _ (Heq (Spec.target y))).
  destruct (bool_decide (Spec.target y ∈ seen2)).
  - apply IH. exact Heq.
  - f_equal. apply IH. intros k. rewrite !elem_of_app, Heq. reflexivity.
Qed.

(** The index filter of the source is deduplication keeping the first
    occurrence. *)
Lemma unique_from (pre suf : list OptimizationSuggestion) :
  JS.filterIndexedFrom
    (fun suggestion index =>
       (index =? JS.findIndex (sameTarget suggestion) (pre ++ suf))%Z)
    suf (Z.of_nat (length pre))
  = Spec.keepFirst (map Spec.target pre) suf.
Proof.
  revert pre. induction suf as [|s suf IH]; intros pre; [reflexivity|].
  cbn [JS.filterIndexedFrom Spec.keepFirst].
  unfold JS.findIndex at 1.
  pose proof (findIndexFrom_at (sameTarget s) pre s suf 0 (sameTarget_refl s)) as Hat.
  rewrite Z.add_0_l in Hat. rewrite Hat, forallb_not_sameTarget.
  specialize (IH (pre ++ [s])).
  rewrite length_app, map_app in IH. cbn [length map] in IH.
  replace (Z.of_nat (length pre + 1)) with (Z.of_nat (length pre) + 1)%Z in IH by lia.
  rewrite <- app_assoc in IH. cbn [app] in IH.
  destruct (bool_decide (Spec.target s ∈ map Spec.target pre)) eqn:Hin; cbn [negb].
  - rewrite IH. apply bool_decide_eq_true in Hin.
    apply keepFirst_ext. intros k.
    rewrite elem_of_app, list_elem_of_singleton.
    split; [intros [H| ->]; assumption | auto].
  - rewrite IH. reflexivity.
Qed.

Lemma unique_keepFirst (l : list OptimizationSuggestion) :
  JS.filterIndexed
    (fun suggestion index => (index =? JS.findIndex (sameTarget suggestion) l)%Z) l
  = Spec.keepFirst [] l.
Proof. exact (unique_from [] l). Qed.

Lemma keepFirst_elem (seen : list (string * string)) (l : list OptimizationSuggestion)
    (s : OptimizationSuggestion) :
  s ∈ Spec.keepFirst seen l -> s ∈ l /\ Spec.target s ∉ seen.
Proof.
  revert seen. induction l as [|x l IH]; intros seen; cbn [Spec.keepFirst].
  - intros H. apply elem_of_nil in H. contradiction.
  - destruct (bool_decide (Spec.target x ∈ seen)) eqn:Hx.
    + intros H. apply IH in H as [H1 H2]. split; [apply elem_of_cons; auto | exact H2].
    + apply bool_decide_eq_false in Hx.
      rewrite elem_of_cons. intros [-> | H].
      * split; [apply elem_of_cons; auto | exact Hx].
      * apply IH in H as [H1 H2]. split; [apply elem_of_cons; auto|].
        intros Hin. apply H2. apply elem_of_app. auto.
Qed.

Lemma keepFirst_NoDup (seen : list (string * string)) (l : list OptimizationSuggestion) :
  NoDup (map Spec.target (Spec.keepFirst seen l)).
Proof.
  revert seen. induction l as [|x l IH]; intros seen; cbn [Spec.keepFirst].
  - constructor.
  - destruct (bool_decide (Spec.target x ∈ seen)); [apply IH|].
    cbn [map]. constructor; [|apply IH].
    intros Hin. apply list_elem_of_fmap in Hin as (y & Heq & Hy).
    apply keepFirst_elem in Hy as [_ Hy]. apply Hy.
    apply elem_of_app. right. apply list_elem_of_singleton. congruence.
Qed.

Lemma keepFirst_first (seen : list (string * string)) (l : list OptimizationSuggestion)
    (s : OptimizationSuggestion) :
  s ∈ Spec.keepFirst seen l -> exists i, Spec.firstOfTarget l i s.
Proof.
  revert seen. induction l as [|x l IH]; intros seen; cbn [Spec.keepFirst].
  - intros H. apply elem_of_nil in H. contradiction.
  - destruct (bool_decide (Spec.target x ∈ seen)) eqn:Hx.
    + apply bool_decide_eq_true in Hx. intros H.
      pose proof (keepFirst_elem _ _ _ H) as [_ Hnot].
      apply IH in H as (i & Hi & Hfirst).
      exists (S i). split; [exact Hi|].
      intros [|j] s' Hlt Hj.
      * injection Hj as <-. congruence.
      * apply (Hfirst j); [lia | exact Hj].
    + rewrite elem_of_cons. intros [-> | H].
      * exists 0%nat. split; [reflexivity | intros j s' Hlt; lia].
      * pose proof (keepFirst_elem _ _ _ H) as [_ Hnot].
        apply IH in H as (i & Hi & Hfirst).
        exists (S i). split; [exact Hi|].
        intros [|j] s' Hlt Hj.
        -- injection Hj as <-. intros Heq. apply Hnot.
           apply elem_of_app. right. apply list_elem_of_singleton. congruence.
        -- apply (Hfirst j); [lia | exact Hj].
Qed.

Lemma keepFirst_covers (seen : list (string * string)) (l : list OptimizationSuggestion)
    (s : OptimizationSuggestion) :
  s ∈ l ->
  Spec.target s ∈ seen
  \/ exists s', s' ∈ Spec.keepFirst seen l /\ Spec.target s' = Spec.target s.
Proof.
  revert seen. induction l as [|x l IH]; intros seen Hs.
  - apply elem_of_nil in Hs. contradiction.
  - cbn [Spec.keepFirst].
    destruct (bool_decide (Spec.target x ∈ seen)) eqn:Hx.
    + apply bool_decide_eq_true in Hx.
      apply elem_of_cons in Hs as [-> | Hs]; [left; exact Hx | apply IH; exact Hs].
    + apply elem_of_cons in Hs as [-> | Hs].
      * right. exists x. split; [apply elem_of_cons; auto | reflexivity].
      * destruct (IH (seen ++ [Spec.target x]) Hs) as [Hin | (s' & Hs' & Heq)].
        -- apply elem_of_app in Hin as [Hin | Hin]; [left; exact Hin|].
           apply list_elem_of_singleton in Hin.
           right. exists x. split; [apply elem_of_cons; auto | congruence].
        -- right. exists s'. split; [apply elem_of_cons; auto | exact Heq].
Qed.

(** The sign test on the comparator is the ranking relation. *)
Lemma comparator_ranks (a b : OptimizationSuggestion) :
  negb (JS.gtb (comparator a b) 0) = true <-> Spec.ranksBefore a b.
Proof.
  rewrite negb_true_iff, gtb_false. unfold comparator, Spec.ranksBefore. cbv zeta.
  destruct (Z.eqb_spec (priorityOrder (sg_priority a)) (priorityOrder (sg_priority b)))
    as [Heq | Hne]; cbn [negb].
  - assert (Hp : sg_priority a = sg_priority b).
    { destruct (sg_priority a), (sg_priority b); (reflexivity || discriminate). }
    split; [intros H; right; split; [exact Hp | lra] | intros [H | [_ H]]; [lia | lra]].
  - split.
    + intros H. left. apply le_IZR in H. lia.
    + intros [H | [Hp _]]; [|rewrite Hp in Hne; congruence].
      apply IZR_le. lia.
Qed.

Lemma ranksBefore_total (a b : OptimizationSuggestion) :
  negb (JS.gtb (comparator a b) 0) = false -> Spec.ranksBefore b a.
Proof.
  intros H. apply not_true_iff_false in H. rewrite comparator_ranks in H.
  unfold Spec.ranksBefore in *.
  destruct (Z.lt_trichotomy (priorityOrder (sg_priority a)) (priorityOrder (sg_priority b)))
    as [Hlt | [Heq | Hgt]].
  - left. exact Hlt.
  - assert (Hp : sg_priority a = sg_priority b).
    { destruct (sg_priority a), (sg_priority b); (reflexivity || discriminate). }
    right. split; [congruence|].
    destruct (Rle_dec (sg_confidence a) (sg_confidence b)); [assumption|].
    exfalso. apply H. right. split; [exact Hp | lra].
  - exfalso. apply H. left. exact Hgt.
Qed.

Lemma ranksBefore_trans (a b c : OptimizationSuggestion) :
  Spec.ranksBefore a b -> Spec.ranksBefore b c -> Spec.ranksBefore a c.
Proof.
  unfold Spec.ranksBefore.
  intros [H1 | [H1 H1']] [H2 | [H2 H2']].
  - left. lia.
  - left. rewrite <- H2. exact H1.
  - left. rewrite H1. exact H2.
  - right. split; [congruence | lra].
Qed.

Section Sorting.

Context {A : Type} (le : A -> A -> bool) (R : A -> A -> Prop).
Hypothesis le_R : forall a b, le a b = true <-> R a b.
Hypothesis le_total : forall a b, le a b = false -> R b a.
Hypothesis R_trans : forall a b c, R a b -> R b c -> R a c.

Lemma insertSorted_perm (x : A) (l : list A) : JS.insertSorted le x l ≡ₚ x :: l.
Proof.
  induction l as [|y l IH]; cbn [JS.insertSorted]; [reflexivity|].
  destruct (le x y); [reflexivity|].
  rewrite IH. apply Permutation_swap.
Qed.

Lemma sort_perm (l : list A) : JS.sort le l ≡ₚ l.
Proof.
  induction l as [|x l IH]; cbn [JS.sort]; [reflexivity|].
  rewrite insertSorted_perm, IH. reflexivity.
Qed.

Lemma insertSorted_sorted (x : A) (l : list A) :
  StronglySorted R l -> StronglySorted R (JS.insertSorted le x l).
Proof.
  induction 1 as [|y l Hl IH Hy]; cbn [JS.insertSorted].
  - repeat constructor.
  - destruct (le x y) eqn:Hxy.
    + apply le_R in Hxy. constructor; [constructor; assumption|].
      constructor; [exact Hxy|].
      eapply Forall_impl; [exact Hy|]. intros z Hz. eapply R_trans; eassumption.
    + apply le_total in Hxy. constructor; [exact IH|].
      rewrite insertSorted_perm. constructor; assumption.
Qed.

Lemma sort_sorted (l : list A) : StronglySorted R (JS.sort le l).
Proof.
  induction l as [|x l IH]; cbn [JS.sort]; [constructor|].
  apply insertSorted_sorted. exact IH.
Qed.

End Sorting.

(** C8. The list [generateSuggestions] returns is the post-processing of the
    suggestions its four passes collected; and, for every list of generated
    suggestions, the post-processed list holds at most one suggestion per
    (configFile, parameter) pair, each one the first of its pair in the
    generated list, with no pair lost, and is sorted by priority rank
    (critical > high > medium > low), ties by descending confidence. *)
Theorem generateSuggestions_unique_ranked
    (toFixed : R -> nat -> string) (genId : nat -> string) :
  (forall self analyses baselines metricsHistory,
     (generateSuggestions toFixed genId self analyses baselines metricsHistory).2
     = filterAndPrioritizeSuggestions
         (collectSuggestions toFixed genId analyses baselines metricsHistory))
  /\ forall generated : list OptimizationSuggestion,
       let returned := filterAndPrioritizeSuggestions generated in
       NoDup (map Spec.target returned)
       /\ (forall s, s ∈ returned -> exists i, Spec.firstOfTarget generated i s)
       /\ (forall s, s ∈ generated ->
             exists s', s' ∈ returned /\ Spec.target s' = Spec.target s)
       /\ returned ≡ₚ Spec.keepFirst [] generated
       /\ StronglySorted Spec.ranksBefore returned.
Proof.
  split; [reflexivity|].
  intros generated returned.
  assert (Hperm : returned ≡ₚ Spec.keepFirst [] generated).
  { subst returned. unfold filterAndPrioritizeSuggestions.
    rewrite unique_keepFirst. apply sort_perm. }
  repeat split.
  - assert (Hmap : map Spec.target returned
                   ≡ₚ map Spec.target (Spec.keepFirst [] generated))
      by (apply Permutation_map; exact Hperm).
    rewrite Hmap. apply keepFirst_NoDup.
  - intros s Hs. rewrite Hperm in Hs. eapply keepFirst_first. exact Hs.
  - intros s Hs. destruct (keepFirst_covers [] generated s Hs) as [Hin | (s' & Hs' & Heq)].
    + apply elem_of_nil in Hin. contradiction.
    + exists s'. split; [rewrite Hperm; exact Hs' | exact Heq].
  - exact Hperm.
  - subst returned. unfold filterAndPrioritizeSuggestions.
    apply sort_sorted.
    + apply comparator_ranks.
    + apply ranksBefore_total.
    + apply ranksBefore_trans.
Qed.

End Prioritization.

(** ** Auto-Tuning Engine: statistics *)

Section TuningStats.

Open Scope R_scope.

Import AutoTuningEngine.

Lemma divide_by_count (a : R) (n : nat) :
  (0 <? n)%nat = true -> divide a (INR n) = Some (a / INR n).
Proof.
  intros Hn. apply Nat.ltb_lt in Hn. unfold divide.
  assert (H : JS.eqb (INR n) 0 = false).
  { apply eqb_false. apply not_0_INR. lia. }
  rewrite H. reflexivity.
Qed.

(** C10. [getTuningStats] never divides by zero, whatever the engine holds;
    and when the completed-session list is empty it returns successRate = 0
    and avgImprovement = 0 (with all three counts 0). *)
Theorem getTuningStats_guarded (self : t) :
  is_Some (getTuningStats self)
  /\ (completedSessions self = [] ->
      getTuningStats self
      = Some {| totalSessions := 0; successful := 0; rolledBack := 0;
                successRate := 0; avgImprovement := 0 |}).
Proof.
  split.
  - unfold getTuningStats. cbv zeta.
    destruct (0 <? length (getSuccessfulTunings self))%nat eqn:Hs.
    + rewrite (divide_by_count _ _ Hs). cbn [mbind option_bind].
      destruct (0 <? length (completedSessions self))%nat eqn:Ht.
      * rewrite (divide_by_count _ _ Ht). cbn. eauto.
      * cbn. eauto.
    + cbn [mbind option_bind].
      destruct (0 <? length (completedSessions self))%nat eqn:Ht.
      * rewrite (divide_by_count _ _ Ht). cbn. eauto.
      * cbn. eauto.
  - intros Hempty. unfold getTuningStats, getSuccessfulTunings.
    rewrite Hempty. reflexivity.
Qed.

End TuningStats.

(** ** Auto-Tuning Engine: eligibility *)

Section Eligibility.

Open Scope R_scope.

Import AutoTuningEngine.

(** What the filter decides for one suggestion. *)
Lemma filterEligibleSuggestions_elem (self : t) (fs : FileSystem)
    (suggestions : list OptimizationSuggestion) (s : OptimizationSuggestion) :
  s ∈ filterEligibleSuggestions self fs suggestions
  <-> s ∈ suggestions
      /\ isWithinRiskThreshold self (sg_riskLevel s) = true
      /\ 7 / 10 <= sg_confidence s
      /\ isFileModifiable fs (sg_configFile s) = true.
Proof.
  unfold filterEligibleSuggestions.
  rewrite !list_elem_of_In, filter_In, <- ltb_false.
  destruct (isWithinRiskThreshold self (sg_riskLevel s)),
           (JS.ltb (sg_confidence s) (7 / 10)),
           (isFileModifiable fs (sg_configFile s)); cbn; intuition congruence.
Qed.

(** A virtual target is looked up in the file system like any other path. *)
Lemma virtual_needs_a_file (fs : FileSystem) (configFile : string) :
  isVirtual configFile = true ->
  files fs !! configFile = None ->
  isFileModifiable fs configFile = false.
Proof.
  intros _ Hnone. unfold isFileModifiable, FS.existsSync. rewrite Hnone. reflexivity.
Qed.

(** C4, at the suggestion the Optimization Engine itself builds for a memory
    usage of 90% (target "algorithmic_optimization", risk "low", confidence
    0.75), offered to an engine with the default configuration in a tree
    that holds only package.json: the risk rank is within the threshold and
    the confidence is at least 0.7, yet the suggestion is filtered out,
    because no file of that name exists. *)
Theorem virtual_suggestion_rejected
    (toFixed : R -> nat -> string) (genId : nat -> string) :
  let tree : gmap string File :=
    {[ "package.json" := {| f_content := "{}"; f_writable := true |} ]} in
  let fs := {| files := tree; backupDirUsable := true; backupFiles := ∅ |} in
  let self := create defaultConfig in
  exists s,
    OptimizationEngine.applyAlgorithmicOptimizations toFixed genId 0
      {| OptimizationEngine.cpuUsage := 10; OptimizationEngine.memoryUsage := 90 |}
    = [s]
    /\ isVirtual (sg_configFile s) = true
    /\ isWithinRiskThreshold self (sg_riskLevel s) = true
    /\ 7 / 10 <= sg_confidence s
    /\ filterEligibleSuggestions self fs [s] = [].
Proof.
  intros tree fs self.
  unfold OptimizationEngine.applyAlgorithmicOptimizations.
  cbn [OptimizationEngine.memoryUsage].
  assert (H : JS.gtb 90 (8 / 10 * 100) = true) by (apply gtb_true; lra).
  rewrite H. eexists. split; [reflexivity|].
  cbn [sg_configFile sg_riskLevel sg_confidence].
  split; [reflexivity|]. split; [reflexivity|]. split; [lra|].
  unfold filterEligibleSuggestions. cbn [List.filter sg_riskLevel sg_confidence sg_configFile].
  assert (Hc : JS.ltb (75 / 100) (7 / 10) = false) by (apply ltb_false; lra).
  rewrite Hc. reflexivity.
Qed.

End Eligibility.

(** ** Auto-Tuning Engine: the validation decision *)

Section Validation.

Open Scope R_scope.

Import AutoTuningEngine.

(** The validation function computes what the spec writes. *)
Lemma validatePerformanceChange_spec (before after : MetricsSummary) :
  let v := validatePerformanceChange before after in
  improvementPercent v = Spec.overallImprovement before after
  /\ (isValid v = true <-> Spec.isValid before after)
  /\ issues v = Spec.triggeredIssues before after
  /\ (v_recommendation v = keep <-> Spec.kept before after)
  /\ (v_recommendation v = keep \/ v_recommendation v = rollback).
Proof.
  intros v.
  assert (Himp : improvementPercent v = Spec.overallImprovement before after).
  { subst v. unfold validatePerformanceChange, Spec.overallImprovement.
    cbn [improvementPercent]. lra. }
  assert (Hvalid : isValid v = true <-> Spec.isValid before after).
  { unfold Spec.isValid. rewrite <- Himp. subst v.
    unfold validatePerformanceChange. cbn [isValid improvementPercent].
    rewrite !andb_true_iff, gtb_true, !ltb_true. tauto. }
  split; [exact Himp|]. split; [exact Hvalid|]. split; [|split].
  - subst v. unfold validatePerformanceChange, Spec.triggeredIssues.
    cbn [issues]. unfold JS.gtb, JS.ltb.
    destruct (Rgt_dec _ _), (Rgt_dec _ _), (Rlt_dec _ _); reflexivity.
  - unfold Spec.kept. rewrite <- Hvalid, <- Himp. subst v.
    unfold validatePerformanceChange. cbn [isValid improvementPercent v_recommendation].
    match goal with |- context [if ?c then keep else rollback] => destruct c eqn:Hc end.
    + apply andb_true_iff in Hc as [Hc1 Hc2]. apply gtb_true in Hc2. tauto.
    + split; [discriminate|]. intros [H1 H2]. apply gtb_true in H2.
      rewrite H1, H2 in Hc. discriminate.
  - subst v. unfold validatePerformanceChange. cbn [v_recommendation].
    match goal with |- context [if ?c then keep else rollback] => destruct c end; auto.
Qed.

Lemma rollbackChange_active (self : t) (fs : FileSystem) (sid bid reason : string)
    (now : Z) (session : AutoTuningSession) :
  activeSessions self !! sid = Some session ->
  rollbackChange (self, fs) sid bid reason now
  = (setActiveSessions self
       (<[sid := markRolledBack session reason now]> (activeSessions self)),
     restoreFromBackup (backups self) fs bid).
Proof. intros H. unfold rollbackChange. rewrite H. reflexivity. Qed.

(** The state a completed validation leaves: the session, with its measured
    metrics and its verdict, has moved from the active map to the end of the
    completed list; the files are restored only on the rollback branch. *)
Lemma validateAndFinalize_measured (self : t) (fs : FileSystem) (sid bid : string)
    (r1 r2 r3 : R) (now : Z) (session : AutoTuningSession) :
  activeSessions self !! sid = Some session ->
  let before := s_preChangeMetrics session in
  let after := simulatePostChangeMetrics before r1 r2 r3 in
  let v := validatePerformanceChange before after in
  let measured := setPostChangeMetrics session after in
  validateAndFinalize (self, fs) sid bid (Measured r1 r2 r3) now
  = match v_recommendation v, isValid v with
    | keep, true =>
        (setActiveSessions
           (setCompletedSessions self
              (completedSessions self
                 ++ [markSuccessful measured (improvementPercent v) now]))
           (delete sid (activeSessions self)),
         fs)
    | _, _ =>
        (setActiveSessions
           (setCompletedSessions self
              (completedSessions self
                 ++ [markRolledBack measured (JS.join "; " (issues v)) now]))
           (delete sid (activeSessions self)),
         restoreFromBackup (backups self) fs bid)
    end.
Proof.
  intros Hs before after v measured.
  unfold validateAndFinalize. rewrite Hs.
  fold before. fold after. fold measured.
  change (s_preChangeMetrics measured) with before. fold v.
  assert (Hdel : forall x y,
            delete sid (<[sid := x]> (<[sid := y]> (activeSessions self)))
            = delete sid (activeSessions self)).
  { intros x y. rewrite !delete_insert_eq. reflexivity. }
  assert (Hroll :
    (let '(self0, fs0) :=
       rollbackChange
         (setActiveSessions self (<[sid := measured]> (activeSessions self)), fs)
         sid bid (JS.join "; " (issues v)) now in
     (setActiveSessions
        match activeSessions self0 !! sid with
        | Some session0 =>
            setCompletedSessions self0 (completedSessions self0 ++ [session0])
        | None => self0
        end
        (delete sid
           (activeSessions
              match activeSessions self0 !! sid with
              | Some session0 =>
                  setCompletedSessions self0 (completedSessions self0 ++ [session0])
              | None => self0
              end)), fs0))
    = (setActiveSessions
         (setCompletedSessions self
            (completedSessions self
               ++ [markRolledBack measured (JS.join "; " (issues v)) now]))
         (delete sid (activeSessions self)),
       restoreFromBackup (backups self) fs bid)).
  { rewrite (rollbackChange_active _ fs sid bid _ now measured)
      by (cbn [activeSessions setActiveSessions]; apply lookup_insert_eq).
    cbn [activeSessions setActiveSessions backups].
    rewrite lookup_insert_eq.
    cbn [activeSessions setActiveSessions setCompletedSessions completedSessions
         backups config scheduled].
    unfold setActiveSessions, setCompletedSessions.
    cbn [activeSessions completedSessions backups config scheduled].
    rewrite Hdel. reflexivity. }
  destruct (v_recommendation v), (isValid v); try exact Hroll.
  cbn [activeSessions setActiveSessions].
  rewrite lookup_insert_eq.
  unfold setActiveSessions, setCompletedSessions.
  cbn [activeSessions completedSessions backups config scheduled].
  rewrite Hdel. reflexivity.
Qed.

(** C3, amended.  A validation that completes appends the session to the
    completed list with this verdict: the session is SUCCESSFUL, with the
    overall improvement 0.4·cpuImprovement + 0.4·memoryImprovement +
    20·stabilityImprovement recorded and the files left as they are, if and
    only if isValid holds and the overall improvement exceeds 2; otherwise
    it is ROLLED_BACK, the restore from the backup is run, and its reason is
    the list of all triggered issues (CPU, memory, stability, in that
    order), joined by "; " -- the empty string when none is triggered. *)
Theorem validation_verdict (self : t) (fs : FileSystem) (sid bid : string)
    (r1 r2 r3 : R) (now : Z) (session : AutoTuningSession) :
  activeSessions self !! sid = Some session ->
  let before := s_preChangeMetrics session in
  let after := simulatePostChangeMetrics before r1 r2 r3 in
  let w' := validateAndFinalize (self, fs) sid bid (Measured r1 r2 r3) now in
  exists s',
    completedSessions w'.1 = completedSessions self ++ [s']
    /\ s_id s' = s_id session
    /\ (s_status s' = SUCCESSFUL <-> Spec.kept before after)
    /\ (Spec.kept before after ->
        s_improvementMeasured s' = Some (Spec.overallImprovement before after)
        /\ w'.2 = fs)
    /\ (~ Spec.kept before after ->
        s_status s' = ROLLED_BACK
        /\ s_rollbackReason s'
           = Some (JS.join "; " (Spec.triggeredIssues before after))
        /\ w'.2 = restoreFromBackup (backups self) fs bid).
Proof.
  intros Hs before after w'.
  pose proof (validateAndFinalize_measured self fs sid bid r1 r2 r3 now session Hs) as Hv.
  cbv zeta in Hv. fold before after in Hv. fold w' in Hv.
  destruct (validatePerformanceChange_spec before after)
    as (Himp & Hvalid & Hissues & Hkeep & Hrec).
  cbv zeta in Himp, Hvalid, Hissues, Hkeep, Hrec.
  set (v := validatePerformanceChange before after) in *.
  destruct (v_recommendation v) eqn:Hr, (isValid v) eqn:Hval; rewrite Hv;
    cbn [fst snd completedSessions setActiveSessions setCompletedSessions];
    eexists; (split; [reflexivity|]);
    cbn [s_id s_status s_improvementMeasured s_rollbackReason
         markSuccessful markRolledBack setPostChangeMetrics];
    (split; [reflexivity|]).
  - (* keep, valid *)
    assert (Hk : Spec.kept before after) by (apply Hkeep; reflexivity).
    split; [tauto|]. split; [intros _; rewrite Himp; split; reflexivity | tauto].
  - (* keep, not valid: impossible *)
    assert (Hk : Spec.kept before after) by (apply Hkeep; reflexivity).
    destruct Hk as [Hk _]. apply Hvalid in Hk. congruence.
  - assert (Hk : ~ Spec.kept before after) by (rewrite <- Hkeep; discriminate).
    split; [split; [discriminate | tauto]|].
    split; [tauto|]. intros _. rewrite Hissues. repeat split; reflexivity.
  - assert (Hk : ~ Spec.kept before after) by (rewrite <- Hkeep; discriminate).
    split; [split; [discriminate | tauto]|].
    split; [tauto|]. intros _. rewrite Hissues. repeat split; reflexivity.
  - destruct Hrec; discriminate.
  - destruct Hrec; discriminate.
Qed.

End Validation.

(** ** Auto-Tuning Engine: the life of a session *)

Section Sessions.

Import AutoTuningEngine Scheduler.

Variable JSON_parse : string -> option json.
Variable JSON_stringify : json -> string.

#[local] Abbreviation applySuggestion := (applySuggestion JSON_parse JSON_stringify).
#[local] Abbreviation applyAll := (applyAll JSON_parse JSON_stringify).
#[local] Abbreviation processSuggestions := (processSuggestions JSON_parse JSON_stringify).
#[local] Abbreviation exec := (exec JSON_parse JSON_stringify).
#[local] Abbreviation run := (run JSON_parse JSON_stringify).

(** [applySuggestion] touches the active map at the drawn session id only,
    and leaves the configuration and the completed list alone. *)
Lemma applySuggestion_frame (w : World) (suggestion : OptimizationSuggestion)
    (currentMetrics : list MetricsSnapshot) (env : ApplyEnv) :
  let w' := applySuggestion w suggestion currentMetrics env in
  config w'.1 = config w.1
  /\ completedSessions w'.1 = completedSessions w.1
  /\ (forall sid, sid <> env_sessionId env ->
        activeSessions w'.1 !! sid = activeSessions w.1 !! sid)
  /\ (size (activeSessions w'.1) <= S (size (activeSessions w.1)))%nat.
Proof.
  destruct w as [self fs]. unfold AutoTuningEngine.applySuggestion, createBackup.
  destruct (FS.readFile fs (sg_configFile suggestion)) as [content|];
    [destruct (FS.writeBackupFile fs _) as [fs'|]|];
    cbn [fst config completedSessions activeSessions setActiveSessions
         setBackups scheduleValidation setScheduled backups];
    (split; [reflexivity|]); (split; [reflexivity|]); split.
  - intros sid Hne. apply lookup_insert_ne. congruence.
  - rewrite map_size_insert. case_match; simpl; lia.
  - intros sid Hne. apply lookup_delete_ne. congruence.
  - rewrite map_size_delete. case_match; simpl; lia.
  - intros sid Hne. apply lookup_delete_ne. congruence.
  - rewrite map_size_delete. case_match; simpl; lia.
Qed.

Lemma applyAll_frame (l : list OptimizationSuggestion) (w : World)
    (currentMetrics : list MetricsSnapshot) (envs : nat -> ApplyEnv) (i : nat) :
  let w' := applyAll w l currentMetrics envs i in
  config w'.1 = config w.1
  /\ completedSessions w'.1 = completedSessions w.1
  /\ (forall sid, (forall j, env_sessionId (envs j) <> sid) ->
        activeSessions w'.1 !! sid = activeSessions w.1 !! sid)
  /\ (size (activeSessions w'.1) <= size (activeSessions w.1) + length l)%nat.
Proof.
  revert w i. induction l as [|s l IH]; intros w i; cbn [AutoTuningEngine.applyAll].
  - repeat split; auto. cbn. lia.
  - destruct (applySuggestion_frame w s currentMetrics (envs i)) as (Hc & Hd & Ha & Hn).
    destruct (IH (applySuggestion w s currentMetrics (envs i)) (S i))
      as (Hc' & Hd' & Ha' & Hn').
    cbv zeta in *. repeat split.
    + congruence.
    + congruence.
    + intros sid Hfresh. rewrite Ha' by exact Hfresh. apply Ha.
      intros Heq. apply (Hfresh i). congruence.
    + cbn [length]. lia.
Qed.

Lemma processSuggestions_frame (w : World) (suggestions : list OptimizationSuggestion)
    (currentMetrics : list MetricsSnapshot) (envs : nat -> ApplyEnv) :
  let w' := processSuggestions w suggestions currentMetrics envs in
  config w'.1 = config w.1
  /\ completedSessions w'.1 = completedSessions w.1
  /\ (forall sid, (forall j, env_sessionId (envs j) <> sid) ->
        activeSessions w'.1 !! sid = activeSessions w.1 !! sid)
  /\ (size (activeSessions w'.1)
      <= size (activeSessions w.1) + length (toProcess w.1 w.2 suggestions))%nat.
Proof.
  destruct w as [self fs]. unfold AutoTuningEngine.processSuggestions.
  destruct (negb (enabled (config self))); [cbn; repeat split; auto; lia|].
  destruct (length (filterEligibleSuggestions self fs suggestions) =? 0)%nat;
    [cbn; repeat split; auto; lia|].
  apply applyAll_frame.
Qed.

(** What a validation does to the engine, whichever way it ends. *)
Lemma validateAndFinalize_frame (w : World) (sid bid : string)
    (measurement : Measurement) (now : Z) :
  let w' := validateAndFinalize w sid bid measurement now in
  config w'.1 = config w.1
  /\ (forall sid', sid' <> sid ->
        activeSessions w'.1 !! sid' = activeSessions w.1 !! sid')
  /\ (activeSessions w.1 !! sid = None -> w' = w)
  /\ (size (activeSessions w'.1) <= size (activeSessions w.1))%nat
  /\ (completedSessions w'.1 = completedSessions w.1
      \/ exists s', completedSessions w'.1 = completedSessions w.1 ++ [s']
                    /\ (s_status s' = SUCCESSFUL \/ s_status s' = ROLLED_BACK)).
Proof.
  destruct w as [self fs]. cbn [fst].
  destruct (activeSessions self !! sid) as [session|] eqn:Hs.
  - destruct measurement as [r1 r2 r3|].
    + rewrite (validateAndFinalize_measured self fs sid bid r1 r2 r3 now session Hs).
      cbv zeta. set (v := validatePerformanceChange _ _).
      destruct (v_recommendation v), (isValid v);
        cbn [fst config activeSessions completedSessions setActiveSessions
             setCompletedSessions];
        (split; [reflexivity|]);
        (split; [intros sid' Hne; apply lookup_delete_ne; congruence|]);
        (split; [discriminate|]);
        (split; [rewrite map_size_delete; case_match; simpl; lia|]);
        right; eexists; (split; [reflexivity|]); cbn; auto.
    + unfold validateAndFinalize. rewrite Hs.
      rewrite (rollbackChange_active self fs sid bid _ now session Hs).
      cbn [fst config activeSessions completedSessions setActiveSessions].
      split; [reflexivity|].
      split; [intros sid' Hne; apply lookup_insert_ne; congruence|].
      split; [discriminate|].
      split; [rewrite map_size_insert_Some by eauto; lia|].
      left. reflexivity.
  - assert (Hw : validateAndFinalize (self, fs) sid bid measurement now = (self, fs)).
    { unfold validateAndFinalize. rewrite Hs. reflexivity. }
    rewrite Hw. cbn [fst]. repeat split; auto.
Qed.

Lemma cleanupOldBackups_frame (w : World) (now : Z) :
  let w' := cleanupOldBackups w now in
  config w'.1 = config w.1
  /\ activeSessions w'.1 = activeSessions w.1
  /\ completedSessions w'.1 = completedSessions w.1.
Proof. destruct w as [self fs]. cbn. auto. Qed.

(** Once a session has left the active map its id is gone for good, as long
    as the random session ids drawn later differ from it; and the completed
    list only grows at its end. *)
Lemma run_never_reenters (sid : string) (events : list Event) (w : World) :
  Forall (fun ev => ~ drawsSessionId sid ev) events ->
  activeSessions w.1 !! sid = None ->
  activeSessions (run w events).1 !! sid = None
  /\ completedSessions w.1 `prefix_of` completedSessions (run w events).1.
Proof.
  intros Hfresh. revert w.
  induction Hfresh as [|ev events Hev _ IH]; intros w Hnone.
  - split; [exact Hnone | reflexivity].
  - unfold Scheduler.run. cbn [fold_left]. fold (run (exec w ev) events).
    assert (Hstep : activeSessions (exec w ev).1 !! sid = None
                    /\ completedSessions w.1 `prefix_of` completedSessions (exec w ev).1).
    { destruct ev as [suggestions currentMetrics envs | sid' bid m now | now | tree];
        cbn [Scheduler.exec].
      - destruct (processSuggestions_frame w suggestions currentMetrics envs)
          as (_ & Hd & Ha & _).
        cbv zeta in Hd, Ha. rewrite Hd. split; [|reflexivity].
        rewrite Ha; [exact Hnone|].
        intros j Hj. apply Hev. exists j. exact Hj.
      - destruct w as [self fs]. cbn [fst] in *.
        destruct (isScheduled _ _); [|split; [exact Hnone | reflexivity]].
        set (w0 := (setScheduled self _, fs)).
        destruct (validateAndFinalize_frame w0 sid' bid m now)
          as (_ & Ha & Hno & _ & Hd).
        cbv zeta in Ha, Hno, Hd. split.
        + destruct (decide (sid = sid')) as [<- | Hne].
          * rewrite Hno by exact Hnone. exact Hnone.
          * rewrite Ha by exact Hne. exact Hnone.
        + destruct Hd as [-> | (s' & -> & _)]; [reflexivity|].
          apply prefix_app_r. reflexivity.
      - destruct (cleanupOldBackups_frame w now) as (_ & Ha & Hd).
        cbv zeta in Ha, Hd. rewrite Ha, Hd. split; [exact Hnone | reflexivity].
      - destruct w as [self fs]. split; [exact Hnone | reflexivity]. }
    destruct Hstep as [Hnone' Hpre].
    destruct (IH (exec w ev) Hnone') as [Hfin Hpre'].
    split; [exact Hfin | etrans; eassumption].
Qed.

(** C5. Let a session be active.  If its validation step raises an
    exception, the session is rolled back (marked ROLLED_BACK, the restore
    from the backup run) with the reason "Validation error" and so is no
    longer TESTING.  If its validation completes, whether it
    keeps or rolls back, the session leaves the active map and is appended
    to the completed list as SUCCESSFUL or ROLLED_BACK; from then on a
    validation for its id does nothing, and through every later run of the
    engine that draws other session ids it stays out of the active map and
    in its place in the completed list. *)
Theorem validation_finalizes (self : t) (fs : FileSystem) (sid bid : string)
    (now : Z) (session : AutoTuningSession) :
  activeSessions self !! sid = Some session ->
  (let w' := validateAndFinalize (self, fs) sid bid MeasurementThrows now in
   exists s', activeSessions w'.1 !! sid = Some s'
              /\ s_status s' = ROLLED_BACK
              /\ s_rollbackReason s' = Some "Validation error"
              /\ s_status s' <> TESTING
              /\ w'.2 = restoreFromBackup (backups self) fs bid)
  /\ (forall r1 r2 r3,
        let w' := validateAndFinalize (self, fs) sid bid (Measured r1 r2 r3) now in
        activeSessions w'.1 !! sid = None
        /\ (exists s', completedSessions w'.1 = completedSessions self ++ [s']
                       /\ s_id s' = s_id session
                       /\ (s_status s' = SUCCESSFUL \/ s_status s' = ROLLED_BACK))
        /\ (forall bid' measurement now',
              validateAndFinalize w' sid bid' measurement now' = w')
        /\ (forall events,
              Forall (fun ev => ~ drawsSessionId sid ev) events ->
              activeSessions (run w' events).1 !! sid = None
              /\ completedSessions w'.1 `prefix_of` completedSessions (run w' events).1)).
Proof.
  intros Hs. split.
  - cbv zeta. unfold validateAndFinalize. rewrite Hs.
    rewrite (rollbackChange_active self fs sid bid _ now session Hs).
    cbn [fst snd activeSessions setActiveSessions]. rewrite lookup_insert_eq.
    eexists. split; [reflexivity|]. cbn. repeat split; discriminate.
  - intros r1 r2 r3 w'.
    assert (Hnone : activeSessions w'.1 !! sid = None).
    { subst w'.
      rewrite (validateAndFinalize_measured self fs sid bid r1 r2 r3 now session Hs).
      cbv zeta. set (v := validatePerformanceChange _ _).
      destruct (v_recommendation v), (isValid v);
        cbn [fst activeSessions setActiveSessions]; apply lookup_delete_eq. }
    split; [exact Hnone|]. split; [|split].
    + subst w'.
      rewrite (validateAndFinalize_measured self fs sid bid r1 r2 r3 now session Hs).
      cbv zeta. set (v := validatePerformanceChange _ _).
      destruct (v_recommendation v), (isValid v);
        cbn [fst completedSessions setActiveSessions setCompletedSessions];
        eexists; (split; [reflexivity|]); cbn; auto.
    + intros bid' measurement now'.
      destruct (validateAndFinalize_frame w' sid bid' measurement now')
        as (_ & _ & Hno & _).
      apply Hno. exact Hnone.
    + intros events Hfresh. apply run_never_reenters; assumption.
Qed.

End Sessions.

(** ** Auto-Tuning Engine: the capacity gate *)

Section Exclusivity.

Import AutoTuningEngine Scheduler.

Variable JSON_parse : string -> option json.
Variable JSON_stringify : json -> string.

#[local] Abbreviation exec := (exec JSON_parse JSON_stringify).
#[local] Abbreviation run := (run JSON_parse JSON_stringify).

Lemma slice0_prefix {A} (l : list A) (n : Z) : JS.slice0 l n `prefix_of` l.
Proof. unfold JS.slice0. destruct (n <? 0)%Z; apply prefix_take. Qed.

Lemma slice0_length {A} (l : list A) (n : Z) :
  (0 <= n)%Z -> (Z.of_nat (length (JS.slice0 l n)) <= n)%Z.
Proof.
  intros Hn. unfold JS.slice0.
  destruct (Z.ltb_spec n 0); [lia|]. rewrite length_take. lia.
Qed.

Lemma filter_sublist {A} (f : A -> bool) (l : list A) : List.filter f l `sublist_of` l.
Proof.
  induction l as [|x l IH]; cbn [List.filter]; [constructor|].
  destruct (f x); [apply sublist_skip | apply sublist_cons]; exact IH.
Qed.

(** The admitted suggestions are the first eligible ones, in the order of
    the suggestions, and with a non-negative number of free slots there are
    no more of them than free slots. *)
Lemma toProcess_admits (self : t) (fs : FileSystem)
    (suggestions : list OptimizationSuggestion) :
  toProcess self fs suggestions `prefix_of` filterEligibleSuggestions self fs suggestions
  /\ filterEligibleSuggestions self fs suggestions `sublist_of` suggestions
  /\ ((Z.of_nat (size (activeSessions self)) <= maxConcurrentChanges (config self))%Z ->
      (Z.of_nat (length (toProcess self fs suggestions))
       <= maxConcurrentChanges (config self) - Z.of_nat (size (activeSessions self)))%Z).
Proof.
  split; [apply slice0_prefix|]. split; [apply filter_sublist|].
  intros Hcap. unfold toProcess. apply slice0_length. lia.
Qed.

Lemma exec_withinCapacity (cfg : AutoTuningConfig) (w : World) (ev : Event) :
  withinCapacity cfg w -> withinCapacity cfg (exec w ev).
Proof.
  intros (Hcfg & Hcap & Hdone).
  destruct ev as [suggestions currentMetrics envs | sid bid m now | now | tree];
    cbn [Scheduler.exec].
  - destruct (processSuggestions_frame JSON_parse JSON_stringify
                w suggestions currentMetrics envs) as (Hc & Hd & _ & Hn).
    cbv zeta in Hc, Hd, Hn.
    destruct (toProcess_admits w.1 w.2 suggestions) as (_ & _ & Hadm).
    rewrite Hcfg in Hadm. specialize (Hadm Hcap).
    split; [congruence|]. split; [lia|]. rewrite Hd. exact Hdone.
  - destruct w as [self fs]. cbn [fst] in *.
    destruct (isScheduled _ _); [|repeat split; assumption].
    set (w0 := (setScheduled self _, fs)).
    destruct (validateAndFinalize_frame w0 sid bid m now) as (Hc & _ & _ & Hn & Hd).
    cbv zeta in Hc, Hn, Hd. cbn [fst w0 config activeSessions completedSessions
                                  setScheduled] in Hc, Hn, Hd.
    split; [congruence|]. split; [lia|].
    destruct Hd as [-> | (s' & -> & Hs')]; [exact Hdone|].
    apply Forall_app. split; [exact Hdone|].
    constructor; [|constructor]. destruct Hs' as [-> | ->]; discriminate.
  - destruct (cleanupOldBackups_frame w now) as (Hc & Ha & Hd).
    cbv zeta in Hc, Ha, Hd.
    split; [congruence|]. rewrite Ha, Hd. split; assumption.
  - destruct w as [self fs]. repeat split; assumption.
Qed.

Lemma run_withinCapacity (cfg : AutoTuningConfig) (events : list Event) (w : World) :
  withinCapacity cfg w -> withinCapacity cfg (run w events).
Proof.
  revert w. induction events as [|ev events IH]; intros w Hw; [exact Hw|].
  unfold Scheduler.run. cbn [fold_left]. apply IH. apply exec_withinCapacity. exact Hw.
Qed.

Lemma filter_length_le {A} (f : A -> bool) (l : list A) :
  (length (List.filter f l) <= length l)%nat.
Proof.
  induction l as [|x l IH]; cbn [List.filter length]; [lia|].
  destruct (f x); cbn [length]; lia.
Qed.

Lemma testingCount_le_active (cfg : AutoTuningConfig) (w : World) :
  withinCapacity cfg w -> (testingCount w.1 <= size (activeSessions w.1))%nat.
Proof.
  intros (_ & _ & Hdone). unfold testingCount, allSessions.
  rewrite List.filter_app, length_app.
  assert (Hnone : List.filter (statusIs TESTING) (completedSessions w.1) = []).
  { induction Hdone as [|s l Hs _ IH]; [reflexivity|].
    cbn [List.filter]. unfold statusIs at 1.
    destruct (s_status s); try congruence; exact IH. }
  rewrite Hnone. cbn [length]. rewrite Nat.add_0_r.
  etrans; [apply filter_length_le|].
  unfold getActiveSessions. rewrite length_fmap, length_map_to_list. reflexivity.
Qed.

(** C2.  Let the configured limit N = maxConcurrentChanges be a count, that
    is, not negative.  After every sequence of dispatch ticks, validation
    completions, backup purges and outside changes to the files, started
    from a fresh engine, at most N sessions have status TESTING; and a call
    of processSuggestions made then admits a prefix of the eligible
    suggestions, themselves in suggestion order, of length at most N minus
    the number of active sessions. *)
Theorem session_exclusivity (cfg : AutoTuningConfig) (fs0 : FileSystem)
    (events : list Event) :
  (0 <= maxConcurrentChanges cfg)%Z ->
  let w := run (create cfg, fs0) events in
  (Z.of_nat (testingCount w.1) <= maxConcurrentChanges cfg)%Z
  /\ forall suggestions,
       let admitted := toProcess w.1 w.2 suggestions in
       (Z.of_nat (length admitted)
        <= maxConcurrentChanges cfg - Z.of_nat (size (activeSessions w.1)))%Z
       /\ admitted `prefix_of` filterEligibleSuggestions w.1 w.2 suggestions
       /\ filterEligibleSuggestions w.1 w.2 suggestions `sublist_of` suggestions.
Proof.
  intros HN w.
  assert (Hinv : withinCapacity cfg w).
  { apply run_withinCapacity. split; [reflexivity|]. split; [|constructor].
    cbn [fst create activeSessions]. rewrite map_size_empty. lia. }
  pose proof (testingCount_le_active cfg w Hinv) as Hcount.
  destruct Hinv as (Hcfg & Hcap & _).
  split; [lia|].
  intros suggestions admitted.
  destruct (toProcess_admits w.1 w.2 suggestions) as (Hpre & Hsub & Hadm).
  rewrite Hcfg in Hadm. auto.
Qed.

End Exclusivity.

(** ** Auto-Tuning Engine: backup and rollback *)

Section Rollback.

Import AutoTuningEngine.

(** [createBackup] records the text the file has when it runs, under the
    drawn id, at the end of the in-memory index. *)
Lemma createBackup_captures (self : t) (fs : FileSystem) (filePath reason : string)
    (env : ApplyEnv) (self' : t) (fs' : FileSystem) (backup : ConfigBackup) :
  createBackup self fs filePath reason env = Some (self', fs', backup) ->
  FS.readFile fs filePath = Some (b_originalContent backup)
  /\ b_configFile backup = filePath
  /\ b_id backup = env_backupId env
  /\ backups self' = backups self ++ [backup]
  /\ files fs' = files fs.
Proof.
  unfold createBackup, FS.writeBackupFile.
  destruct (FS.readFile fs filePath) as [content|]; [|discriminate].
  destruct (backupDirUsable fs); [|discriminate].
  intros [= <- <- <-]. cbn. auto.
Qed.

Lemma writeFile_read (fs fs' : FileSystem) (path data : string) :
  FS.writeFile fs path data = Some fs' ->
  FS.readFile fs' path = Some data
  /\ forall other, other <> path -> FS.readFile fs' other = FS.readFile fs other.
Proof.
  unfold FS.writeFile, FS.readFile.
  destruct (files fs !! path) as [f|]; [destruct (f_writable f); [|discriminate]|];
    intros [= <-]; cbn [files]; (split; [rewrite lookup_insert_eq; reflexivity|]);
    intros other Hne; rewrite lookup_insert_ne by congruence; reflexivity.
Qed.

Lemma canWrite_writeFile (fs : FileSystem) (path data : string) :
  FS.canWrite fs path -> is_Some (FS.writeFile fs path data).
Proof.
  intros Hw. unfold FS.writeFile.
  destruct (files fs !! path) as [f|] eqn:Hf; [|eauto].
  rewrite (Hw f Hf). eauto.
Qed.

(** C1, amended.  Take the backup [createBackup] made of a target that is
    not one of the virtual sentinels.  In any later state of the engine and
    of the files in which that backup is still the one the in-memory index
    finds under its id, and in which the target can be written, the target's
    content after [rollbackChange] is the backup's originalContent -- the
    text the file had when [createBackup] ran -- and no other file is
    touched. *)
Theorem rollback_restores_backup
    (self0 : t) (fs0 : FileSystem) (filePath reason : string) (env : ApplyEnv)
    (self1 : t) (fs1 : FileSystem) (backup : ConfigBackup)
    (self : t) (fs : FileSystem) (sid reason' : string) (now : Z) :
  createBackup self0 fs0 filePath reason env = Some (self1, fs1, backup) ->
  isVirtual filePath = false ->
  JS.find (fun b => String.eqb (b_id b) (b_id backup)) (backups self) = Some backup ->
  FS.canWrite fs filePath ->
  let w' := rollbackChange (self, fs) sid (b_id backup) reason' now in
  FS.readFile w'.2 filePath = Some (b_originalContent backup)
  /\ FS.readFile fs0 filePath = Some (b_originalContent backup)
  /\ forall other, other <> filePath -> FS.readFile w'.2 other = FS.readFile fs other.
Proof.
  intros Hcreate Hreal Hfind Hwrite w'.
  destruct (createBackup_captures _ _ _ _ _ _ _ _ Hcreate) as (Horig & Hfile & _).
  assert (Hfs : w'.2 = restoreFromBackup (backups self) fs (b_id backup)).
  { subst w'. unfold rollbackChange.
    destruct (activeSessions self !! sid); reflexivity. }
  rewrite Hfs. unfold restoreFromBackup. rewrite Hfind, Hfile.
  unfold isVirtual in Hreal. apply orb_false_iff in Hreal as [Hsys Halg].
  rewrite Hsys, Halg. cbn [negb andb].
  destruct (canWrite_writeFile fs filePath (b_originalContent backup) Hwrite)
    as [fs' Hfs'].
  rewrite Hfs'. destruct (writeFile_read _ _ _ _ Hfs') as [Hread Hother].
  auto.
Qed.

End Rollback.

(** ** Scenarios on the engine *)

Section ScenarioFacts.

Import AutoTuningEngine Scheduler Scenarios.

Open Scope R_scope.

Lemma nine_tenths_is_confident : JS.ltb (9 / 10) (7 / 10) = false.
Proof. apply ltb_false. lra. Qed.

(** A remark beside C2: the configuration is not validated, and a limit
    below zero, which counts nothing, is not read as "no session".  With
    maxConcurrentChanges = -1 and three eligible suggestions, the free slots
    are -1 - 0 = -1, [slice(0, -1)] keeps the first two suggestions, and two
    sessions are TESTING after the call. *)
Lemma negative_limit_admits_two :
  let w0 : World := (create negativeLimit, threeFiles) in
  let w := run JSON_parse JSON_stringify w0
             [ProcessSuggestions threeSuggestions [] threeDraws] in
  length (toProcess w0.1 w0.2 threeSuggestions) = 2%nat
  /\ testingCount w.1 = 2%nat
  /\ ~ (Z.of_nat (testingCount w.1) <= maxConcurrentChanges negativeLimit)%Z
  /\ ~ (Z.of_nat (length (toProcess w0.1 w0.2 threeSuggestions))
        <= maxConcurrentChanges negativeLimit
           - Z.of_nat (size (activeSessions w0.1)))%Z.
Proof.
  intros w0 w.
  assert (Hadm : length (toProcess w0.1 w0.2 threeSuggestions) = 2%nat).
  { unfold toProcess, filterEligibleSuggestions, threeSuggestions, plainSuggestion.
    cbn [List.filter sg_riskLevel sg_confidence sg_configFile].
    rewrite !nine_tenths_is_confident. vm_compute. reflexivity. }
  assert (Hcount : testingCount w.1 = 2%nat).
  { subst w w0. unfold run, exec, processSuggestions, toProcess,
      filterEligibleSuggestions, threeSuggestions, plainSuggestion.
    cbn [fold_left List.filter sg_riskLevel sg_confidence sg_configFile].
    rewrite !nine_tenths_is_confident. vm_compute. reflexivity. }
  rewrite Hadm, Hcount. repeat split; vm_compute; congruence.
Qed.

(** The draws of the scenarios leave the metrics of an idle system where
    they were, and the change is not kept. *)
Lemma idle_validation_rolls_back :
  let before := {| avgCpu := 0; avgMemory := 0; stability := 1 |} in
  let v := validatePerformanceChange before
             (simulatePostChangeMetrics before (1 / 2) (1 / 2) 0) in
  v_recommendation v = rollback.
Proof.
  intros before v.
  destruct (validatePerformanceChange_spec before
              (simulatePostChangeMetrics before (1 / 2) (1 / 2) 0))
    as (_ & _ & _ & Hkeep & Hrec).
  fold v in Hkeep, Hrec.
  destruct Hrec as [Hk | Hr]; [|exact Hr].
  apply Hkeep in Hk. destruct Hk as [_ Hgt]. exfalso.
  unfold Spec.overallImprovement, simulatePostChangeMetrics, before in Hgt.
  cbn [avgCpu avgMemory stability] in Hgt.
  unfold Rmax, Rmin in Hgt.
  repeat match type of Hgt with
         | context [Rle_dec ?a ?b] => destruct (Rle_dec a b)
         end; lra.
Qed.

Lemma apply_poolSuggestion (cfg : AutoTuningConfig) :
  enabled cfg = true -> riskThreshold cfg = RiskLow -> maxConcurrentChanges cfg = 1%Z ->
  let w1 := exec JSON_parse JSON_stringify (create cfg, appTree)
              (ProcessSuggestions [poolSuggestion] [] firstDraw) in
  backups w1.1
  = [ {| b_id := "backup_1"; b_timestamp := 1000; b_configFile := "app.json";
         b_originalContent := "{}"; b_reason := "Auto-tuning: opt_1" |} ]
  /\ FS.readFile w1.2 "app.json" = Some poolSizeDocument.
Proof.
  intros Hen Hrisk Hmax w1. subst w1.
  unfold exec, processSuggestions, toProcess, filterEligibleSuggestions,
    isWithinRiskThreshold.
  cbn [List.filter poolSuggestion sg_riskLevel sg_confidence sg_configFile
       fst snd create config activeSessions].
  rewrite nine_tenths_is_confident, Hen, Hrisk, Hmax.
  split; vm_compute; reflexivity.
Qed.

(** C1, as stated, fails when the backup is purged between the change and
    the rollback.  With backups retained for zero days: the suggestion is
    applied to app.json (backup "backup_1" holds the original text, the
    empty object; the file now holds poolSize = 10); [cleanupOldBackups]
    drops the backup from the in-memory index; the validation finds no
    improvement and rolls the session back; [rollbackChange] finds no backup
    under the id and writes nothing.  The session is ROLLED_BACK and the
    file still holds the changed text, not the backup's originalContent. *)
Lemma purged_backup_is_not_restored :
  let w0 : World := (create noRetention, appTree) in
  let w1 := exec JSON_parse JSON_stringify w0
              (ProcessSuggestions [poolSuggestion] [] firstDraw) in
  let w := run JSON_parse JSON_stringify w0 purgedRun in
  isVirtual "app.json" = false
  /\ (exists b, backups w1.1 = [b]
                /\ b_id b = "backup_1"
                /\ b_configFile b = "app.json"
                /\ b_originalContent b = "{}")
  /\ (exists s, completedSessions w.1 = [s]
                /\ s_id s = "tune_1"
                /\ s_configFile s = "app.json"
                /\ s_status s = ROLLED_BACK)
  /\ FS.readFile w.2 "app.json" = Some poolSizeDocument
  /\ FS.readFile w.2 "app.json" <> Some "{}".
Proof.
  intros w0 w1 w.
  split; [reflexivity|]. split.
  { destruct (apply_poolSuggestion noRetention eq_refl eq_refl eq_refl) as [Hb _].
    fold w0 in Hb. fold w1 in Hb. rewrite Hb. eexists. repeat split. }
  assert (Hw : (exists s, completedSessions w.1 = [s]
                          /\ s_id s = "tune_1"
                          /\ s_configFile s = "app.json"
                          /\ s_status s = ROLLED_BACK)
               /\ FS.readFile w.2 "app.json" = Some poolSizeDocument).
  { subst w w1 w0. unfold run, purgedRun. cbn [fold_left].
    remember (exec JSON_parse JSON_stringify (create noRetention, appTree)
                (ProcessSuggestions [poolSuggestion] [] firstDraw)) as w1 eqn:H1.
    unfold exec, processSuggestions, toProcess, filterEligibleSuggestions in H1.
    cbn [List.filter poolSuggestion sg_riskLevel sg_confidence sg_configFile] in H1.
    rewrite nine_tenths_is_confident in H1. vm_compute in H1.
    remember (exec JSON_parse JSON_stringify w1 (CleanupOldBackups 2000)) as w2 eqn:H2.
    rewrite H1 in H2. vm_compute in H2. clear H1 w1.
    destruct w2 as [self2 fs2]. cbn [exec].
    assert (Hsched : isScheduled ("tune_1", "backup_1") (scheduled self2) = true).
    { injection H2 as -> _. vm_compute. reflexivity. }
    rewrite Hsched.
    erewrite validateAndFinalize_measured;
      [|injection H2 as -> _; vm_compute; reflexivity].
    match goal with
    | |- context [v_recommendation ?v] =>
        assert (Hrb : v_recommendation v = rollback)
          by exact idle_validation_rolls_back
    end.
    rewrite Hrb. injection H2 as -> ->.
    cbn [fst snd completedSessions setActiveSessions setCompletedSessions setScheduled
         backups restoreFromBackup JS.find app].
    split; [|vm_compute; reflexivity].
    eexists. split; [reflexivity|]. repeat split. }
  destruct Hw as [Hs Hread]. split; [exact Hs|]. split; [exact Hread|].
  rewrite Hread. vm_compute. congruence.
Qed.

(** The same when the file cannot be written at rollback time: the backup is
    found, [writeFile] fails, the failure is caught, and the file keeps the
    changed text. *)
Lemma locked_file_is_not_restored :
  let w0 : World := (create defaultConfig, appTree) in
  let w := run JSON_parse JSON_stringify w0 lockedRun in
  (exists s, completedSessions w.1 = [s]
             /\ s_id s = "tune_1"
             /\ s_status s = ROLLED_BACK)
  /\ (exists b, backups w.1 = [b] /\ b_id b = "backup_1" /\ b_originalContent b = "{}")
  /\ FS.readFile w.2 "app.json" = Some poolSizeDocument.
Proof.
  intros w0 w. subst w w0. unfold run, lockedRun. cbn [fold_left].
  remember (exec JSON_parse JSON_stringify (create defaultConfig, appTree)
              (ProcessSuggestions [poolSuggestion] [] firstDraw)) as w1 eqn:H1.
  unfold exec, processSuggestions, toProcess, filterEligibleSuggestions in H1.
  cbn [List.filter poolSuggestion sg_riskLevel sg_confidence sg_configFile] in H1.
  rewrite nine_tenths_is_confident in H1. vm_compute in H1.
  remember (exec JSON_parse JSON_stringify w1 (FilesChanged lockedTree)) as w2 eqn:H2.
  rewrite H1 in H2. vm_compute in H2. clear H1 w1.
  destruct w2 as [self2 fs2]. cbn [exec].
  assert (Hsched : isScheduled ("tune_1", "backup_1") (scheduled self2) = true).
  { injection H2 as -> _. vm_compute. reflexivity. }
  rewrite Hsched.
  erewrite validateAndFinalize_measured;
    [|injection H2 as -> _; vm_compute; reflexivity].
  match goal with
  | |- context [v_recommendation ?v] =>
      assert (Hrb : v_recommendation v = rollback)
        by exact idle_validation_rolls_back
  end.
  rewrite Hrb. injection H2 as -> ->.
  cbn [fst snd completedSessions setActiveSessions setCompletedSessions setScheduled
       backups].
  split; [eexists; split; [reflexivity|]; repeat split|].
  split; [eexists; repeat split|].
  vm_compute. reflexivity.
Qed.

(** *** The scenarios of the specification *)

(** Scenario B: three samples at CPU 10 before the change and three at CPU 20
    after it give cpuDelta = 10 and, memory and stability being unchanged,
    the impact score -0.4 * (10/100) = -0.04. *)
Example scenario_B :
  exists a,
    ImpactAnalyzer.analyzeChangeImpact (fun _ _ => "") freshAnalyzer sampleChange
      sampleHistory = Some a
    /\ ImpactAnalyzer.cpuDelta (ImpactAnalyzer.metrics a) = 10
    /\ ImpactAnalyzer.impactScore a = - (4 / 100).
Proof.
  unfold ImpactAnalyzer.analyzeChangeImpact. cbv zeta.
  set (isBefore := fun m : MetricsSnapshot => ((_ <? _)%Z && (_ >? _ - _)%Z)%bool).
  set (isAfter := fun m : MetricsSnapshot => ((_ >? _)%Z && (_ <? _ + _)%Z)%bool).
  assert (Hb : List.filter isBefore sampleHistory
               = [sample 2000 10; sample 3000 10; sample 4000 10]) by reflexivity.
  assert (Ha : List.filter isAfter sampleHistory
               = [sample 6000 20; sample 7000 20; sample 8000 20]) by reflexivity.
  rewrite Hb, Ha.
  cbn [length Nat.ltb Nat.leb orb map ms_cpu_usage ms_memory_percentage sample].
  eexists. split; [reflexivity|].
  cbn [ImpactAnalyzer.metrics ImpactAnalyzer.cpuDelta ImpactAnalyzer.impactScore].
  rewrite (analyzer_stability_constant 20 [20; 20; 20]) by (repeat constructor; discriminate).
  rewrite (analyzer_stability_constant 10 [10; 10; 10]) by (repeat constructor; discriminate).
  unfold ImpactAnalyzer.average, JS.sum. cbn [fold_left length INR].
  split; [lra|].
  unfold ImpactAnalyzer.calculateImpactScore. cbv zeta.
  rewrite Rmin_right by lra. rewrite Rmax_right by lra. lra.
Qed.

(** Scenario C: confidence 0.65 with risk low under threshold low is
    rejected by the eligibility filter. *)
Example scenario_C :
  filterEligibleSuggestions (create defaultConfig) appTree
    [ {| sg_id := "opt_2"; sg_priority := MEDIUM; sg_category := PERFORMANCE;
         sg_configFile := "app.json"; sg_parameter := "poolSize";
         sg_currentValue := JNull; sg_suggestedValue := JNum 10;
         sg_confidence := 65 / 100; sg_riskLevel := "low" |} ] = [].
Proof.
  unfold filterEligibleSuggestions.
  cbn [List.filter sg_riskLevel sg_confidence sg_configFile].
  assert (H : JS.ltb (65 / 100) (7 / 10) = true) by (apply ltb_true; lra).
  rewrite H. reflexivity.
Qed.

(** Scenario D: from CPU 50, memory 60, stability 0.9 to CPU 40, memory 60,
    stability 0.9 the overall improvement is 4, the change is valid and
    kept. *)
Example scenario_D :
  let v := validatePerformanceChange
             {| avgCpu := 50; avgMemory := 60; stability := 9 / 10 |}
             {| avgCpu := 40; avgMemory := 60; stability := 9 / 10 |} in
  improvementPercent v = 4 /\ isValid v = true /\ v_recommendation v = keep.
Proof.
  intros v.
  destruct (validatePerformanceChange_spec
              {| avgCpu := 50; avgMemory := 60; stability := 9 / 10 |}
              {| avgCpu := 40; avgMemory := 60; stability := 9 / 10 |})
    as (Himp & Hvalid & _ & Hkeep & _).
  fold v in Himp, Hvalid, Hkeep.
  assert (Hval : Spec.isValid {| avgCpu := 50; avgMemory := 60; stability := 9 / 10 |}
                   {| avgCpu := 40; avgMemory := 60; stability := 9 / 10 |}).
  { unfold Spec.isValid, Spec.overallImprovement. cbn [avgCpu avgMemory stability]. lra. }
  split; [rewrite Himp; unfold Spec.overallImprovement; cbn [avgCpu avgMemory stability]; lra|].
  split; [apply Hvalid; exact Hval|].
  apply Hkeep. split; [exact Hval|].
  unfold Spec.overallImprovement. cbn [avgCpu avgMemory stability]. lra.
Qed.

(** *** Instances of the theorems *)

(** The backup of app.json taken before the change is restored over the
    changed file. *)
Lemma rollback_restores_backup_witness :
  exists self1 fs1 backup,
    createBackup (create defaultConfig) appTree "app.json" "Auto-tuning: opt_1"
      (firstDraw 0) = Some (self1, fs1, backup)
    /\ isVirtual "app.json" = false
    /\ JS.find (fun b => String.eqb (b_id b) (b_id backup)) (backups self1) = Some backup
    /\ FS.canWrite changedTree "app.json"
    /\ FS.readFile
         (rollbackChange (self1, changedTree) "tune_1" (b_id backup)
            "Memory usage increased significantly" 121000).2 "app.json"
       = Some (b_originalContent backup).
Proof.
  assert (Hw : FS.canWrite changedTree "app.json").
  { intros f Hf. vm_compute in Hf. injection Hf as <-. reflexivity. }
  eexists _, _, _.
  split; [vm_compute; reflexivity|].
  split; [reflexivity|].
  split; [vm_compute; reflexivity|].
  split; [exact Hw|].
  refine (proj1 (rollback_restores_backup (create defaultConfig) appTree "app.json"
                   "Auto-tuning: opt_1" (firstDraw 0) _ _ _ _ changedTree "tune_1"
                   "Memory usage increased significantly" 121000 _ _ _ Hw)).
  - vm_compute. reflexivity.
  - reflexivity.
  - vm_compute. reflexivity.
Defined.

(** With the default limit of one, the run that applies a change, locks the
    file and validates never has more than one session under test. *)
Lemma session_exclusivity_witness :
  (0 <= maxConcurrentChanges defaultConfig)%Z
  /\ (Z.of_nat
        (testingCount
           (run JSON_parse JSON_stringify (create defaultConfig, appTree) lockedRun).1)
      <= maxConcurrentChanges defaultConfig)%Z.
Proof.
  assert (H : (0 <= maxConcurrentChanges defaultConfig)%Z) by (cbn; lia).
  split; [exact H|].
  exact (proj1 (session_exclusivity JSON_parse JSON_stringify defaultConfig appTree
                  lockedRun H)).
Defined.

(** The idle session receives its verdict and moves to the completed list. *)
Lemma validation_verdict_witness :
  activeSessions idleEngine !! "tune_1" = Some idleSession
  /\ exists s',
       completedSessions
         (validateAndFinalize (idleEngine, changedTree) "tune_1" "backup_1"
            (Measured (1 / 2) (1 / 2) 0) 121000).1
       = completedSessions idleEngine ++ [s']
       /\ s_id s' = s_id idleSession.
Proof.
  assert (H : activeSessions idleEngine !! "tune_1" = Some idleSession)
    by (vm_compute; reflexivity).
  split; [exact H|].
  destruct (validation_verdict idleEngine changedTree "tune_1" "backup_1"
              (1 / 2) (1 / 2) 0 121000 idleSession H) as (s' & H1 & H2 & _).
  exists s'. split; [exact H1 | exact H2].
Defined.

(** The idle session leaves the active map when its validation completes. *)
Lemma validation_finalizes_witness :
  activeSessions idleEngine !! "tune_1" = Some idleSession
  /\ activeSessions
       (validateAndFinalize (idleEngine, changedTree) "tune_1" "backup_1"
          (Measured (1 / 2) (1 / 2) 0) 121000).1 !! "tune_1" = None.
Proof.
  assert (H : activeSessions idleEngine !! "tune_1" = Some idleSession)
    by (vm_compute; reflexivity).
  split; [exact H|].
  exact (proj1 (proj2 (validation_finalizes JSON_parse JSON_stringify idleEngine
                         changedTree "tune_1" "backup_1" 121000 idleSession H)
                  (1 / 2) (1 / 2) 0)).
Defined.

(** A fresh analyzer and a used one score the same change alike, whatever
    id the change was given. *)
Lemma analyzeChangeImpact_deterministic_witness :
  ImpactAnalyzer.config freshAnalyzer = ImpactAnalyzer.config usedAnalyzer
  /\ ImpactAnalyzer.ce_timestamp sampleChange = ImpactAnalyzer.ce_timestamp redrawnChange
  /\ ImpactAnalyzer.ce_configFile sampleChange = ImpactAnalyzer.ce_configFile redrawnChange
  /\ ImpactAnalyzer.impactScore
       <$> ImpactAnalyzer.analyzeChangeImpact (fun _ _ => "") freshAnalyzer
             sampleChange sampleHistory
     = ImpactAnalyzer.impactScore
         <$> ImpactAnalyzer.analyzeChangeImpact (fun _ _ => "") usedAnalyzer
               redrawnChange sampleHistory.
Proof.
  split; [reflexivity|]. split; [reflexivity|]. split; [reflexivity|].
  exact (proj1 (analyzeChangeImpact_deterministic (fun _ _ => "") freshAnalyzer
                  usedAnalyzer sampleChange redrawnChange sampleHistory
                  eq_refl eq_refl eq_refl)).
Defined.

(** A fresh engine reports zero rates. *)
Lemma getTuningStats_guarded_witness :
  completedSessions (create defaultConfig) = []
  /\ getTuningStats (create defaultConfig)
     = Some {| totalSessions := 0; successful := 0; rolledBack := 0;
               successRate := 0; avgImprovement := 0 |}.
Proof.
  split; [reflexivity|].
  exact (proj2 (getTuningStats_guarded (create defaultConfig)) eq_refl).
Defined.

(** Three suggestions generated twice are returned once each. *)
Lemma generateSuggestions_unique_ranked_witness :
  NoDup (map Spec.target
           (OptimizationEngine.filterAndPrioritizeSuggestions
              (threeSuggestions ++ threeSuggestions))).
Proof.
  exact (proj1 (proj2 (generateSuggestions_unique_ranked (fun _ _ => "") (fun _ => ""))
                  (threeSuggestions ++ threeSuggestions))).
Defined.

(** C3, as stated, fails where two issues are triggered.  A collector that
    reports a CPU usage and a memory percentage of -10 gives the session the
    pre-change averages -10, -10 and stability 1.  The validation draws
    1/2, 1/2 and 0: the measured metrics are [Math.max(0, -10 * 1)] = 0 for
    CPU and for memory and stability 1, the overall improvement is -8, the
    change is rolled back, and since 0 > -11 both the CPU and the memory
    issue are triggered.  The first triggered issue is the CPU one; the
    reason handed to the rollback is the two issues joined. *)
Lemma rollback_reason_joins_issues :
  let w := run JSON_parse JSON_stringify (create defaultConfig, appTree)
             Cases.negativeRun in
  (0 <= 1 / 2 < 1 /\ 0 <= 0 < 1)
  /\ exists s,
       completedSessions w.1 = [s]
       /\ s_id s = "tune_1"
       /\ s_status s = ROLLED_BACK
       /\ s_preChangeMetrics s = {| avgCpu := -10; avgMemory := -10; stability := 1 |}
       /\ (exists post,
             s_postChangeMetrics s = Some post
             /\ post = simulatePostChangeMetrics (s_preChangeMetrics s) (1 / 2) (1 / 2) 0
             /\ head (Spec.triggeredIssues (s_preChangeMetrics s) post)
                = Some "CPU usage increased significantly")
       /\ s_rollbackReason s
          = Some "CPU usage increased significantly; Memory usage increased significantly"
       /\ s_rollbackReason s <> Some "CPU usage increased significantly".
Proof.
  intros w. split; [lra|].
  subst w. unfold run, Cases.negativeRun. cbn [fold_left].
  remember (exec JSON_parse JSON_stringify (create defaultConfig, appTree)
              (ProcessSuggestions [poolSuggestion] [Cases.negativeSnapshot] firstDraw))
    as w1 eqn:H1.
  unfold exec, processSuggestions, toProcess, filterEligibleSuggestions in H1.
  cbn [List.filter poolSuggestion sg_riskLevel sg_confidence sg_configFile] in H1.
  rewrite nine_tenths_is_confident in H1. vm_compute in H1.
  destruct w1 as [self1 fs1]. cbn [exec].
  assert (Hsched : isScheduled ("tune_1", "backup_1") (scheduled self1) = true).
  { injection H1 as -> _. vm_compute. reflexivity. }
  rewrite Hsched.
  set (self2 := setScheduled self1 _).
  assert (Hs : exists session,
            activeSessions self2 !! "tune_1" = Some session
            /\ s_id session = "tune_1"
            /\ s_preChangeMetrics session
               = {| avgCpu := -10; avgMemory := -10; stability := 1 |}).
  { subst self2. injection H1 as -> _. vm_compute. eexists. split; [reflexivity|].
    split; [reflexivity|]. f_equal; lra. }
  destruct Hs as (session & Hs & Hid & Hpre).
  assert (Hdone : completedSessions self2 = []).
  { subst self2. injection H1 as -> _. reflexivity. }
  rewrite (validateAndFinalize_measured self2 fs1 "tune_1" "backup_1" _ _ _ _ session Hs).
  cbv zeta. rewrite Hpre.
  set (before := {| avgCpu := -10; avgMemory := -10; stability := 1 |}).
  set (after := simulatePostChangeMetrics before (1 / 2) (1 / 2) 0).
  set (v := validatePerformanceChange before after).
  destruct (validatePerformanceChange_spec before after)
    as (Himp & Hvalid & Hissues & Hkeep & Hrec).
  fold v in Himp, Hvalid, Hissues, Hkeep, Hrec.
  assert (Hcpu : avgCpu after = 0).
  { unfold after, simulatePostChangeMetrics, before. cbn [avgCpu]. apply Rmax_left. lra. }
  assert (Hmem : avgMemory after = 0).
  { unfold after, simulatePostChangeMetrics, before. cbn [avgMemory]. apply Rmax_left. lra. }
  assert (Hst : stability after = 1).
  { unfold after, simulatePostChangeMetrics, before. cbn [stability]. apply Rmin_left. lra. }
  assert (Hi : Spec.triggeredIssues before after
               = ["CPU usage increased significantly";
                  "Memory usage increased significantly"]).
  { unfold Spec.triggeredIssues. rewrite Hcpu, Hmem, Hst. unfold before.
    cbn [avgCpu avgMemory stability].
    destruct (Rgt_dec 0 (-10 * (11 / 10))); [|lra].
    destruct (Rlt_dec 1 (1 * (9 / 10))); [lra|]. reflexivity. }
  assert (Hrb : v_recommendation v = rollback).
  { destruct Hrec as [Hk | Hr]; [|exact Hr].
    apply Hkeep in Hk. destruct Hk as [[Hpos _] _].
    unfold Spec.overallImprovement in Hpos. rewrite Hcpu, Hmem, Hst in Hpos.
    unfold before in Hpos. cbn [avgCpu avgMemory stability] in Hpos. lra. }
  rewrite Hrb, Hissues, Hi, Hdone.
  cbn [fst completedSessions setActiveSessions setCompletedSessions app].
  eexists. split; [reflexivity|].
  cbn [s_id s_status s_preChangeMetrics s_postChangeMetrics s_rollbackReason
       markRolledBack setPostChangeMetrics].
  split; [exact Hid|]. split; [reflexivity|]. split; [exact Hpre|]. split.
  - exists after. split; [reflexivity|]. rewrite Hpre. split; [reflexivity|].
    fold before. rewrite Hi. reflexivity.
  - split; [vm_compute; reflexivity | vm_compute; congruence].
Qed.

End ScenarioFacts.

(** * Further properties of the code *)

(** ** Impact Analyzer: scores, confidence, evidence, recommendation *)

Section ImpactScores.

Open Scope R_scope.

Import ImpactAnalyzer Analysis.

Lemma clamp_monotone (x y : R) : x <= y -> Rmax (-1) (Rmin 1 x) <= Rmax (-1) (Rmin 1 y).
Proof.
  intros Hxy. apply Rle_max_compat_l. apply Rle_min_compat_l. exact Hxy.
Qed.

Lemma clamp_inactive (x : R) : -1 <= x <= 1 -> Rmax (-1) (Rmin 1 x) = x.
Proof.
  intros [Hlo Hhi]. rewrite Rmin_right by exact Hhi. apply Rmax_right. exact Hlo.
Qed.

Lemma clamp_range (x : R) : -1 <= Rmax (-1) (Rmin 1 x) <= 1.
Proof.
  split; [apply Rmax_l|]. apply Rmax_lub; [lra | apply Rmin_l].
Qed.

(** X1. The impact score never rises when CPU or memory usage rises more,
    and never falls when stability gains more: it is antitone in cpuDelta
    and memoryDelta and monotone in stabilityDelta. *)
Theorem calculateImpactScore_monotone
    (cpuDelta cpuDelta' memoryDelta memoryDelta' stabilityDelta stabilityDelta' : R) :
  cpuDelta <= cpuDelta' ->
  memoryDelta <= memoryDelta' ->
  stabilityDelta' <= stabilityDelta ->
  calculateImpactScore cpuDelta' memoryDelta' stabilityDelta'
  <= calculateImpactScore cpuDelta memoryDelta stabilityDelta.
Proof.
  intros Hc Hm Hs. unfold calculateImpactScore. cbv zeta.
  apply clamp_monotone. lra.
Qed.

(** X2. For deltas of percentages and of stability scores, that is cpuDelta
    and memoryDelta within [-100, 100] and stabilityDelta within [-1, 1],
    the clamp never cuts: the score is the weighted sum itself. *)
Theorem calculateImpactScore_unclamped (cpuDelta memoryDelta stabilityDelta : R) :
  -100 <= cpuDelta <= 100 ->
  -100 <= memoryDelta <= 100 ->
  -1 <= stabilityDelta <= 1 ->
  calculateImpactScore cpuDelta memoryDelta stabilityDelta
  = - (cpuDelta / 100) * (4 / 10) - (memoryDelta / 100) * (3 / 10)
    + stabilityDelta * (3 / 10).
Proof.
  intros Hc Hm Hs. unfold calculateImpactScore. cbv zeta.
  rewrite clamp_inactive; lra.
Qed.

Lemma calculateConfidence_range (beforeSamples afterSamples : nat) (impactMagnitude : R) :
  (3 <= beforeSamples)%nat -> (3 <= afterSamples)%nat -> 0 <= impactMagnitude ->
  15 / 100 <= calculateConfidence beforeSamples afterSamples impactMagnitude <= 1.
Proof.
  intros Hb Ha Hm. unfold calculateConfidence. cbv zeta.
  assert (H3 : 3 <= INR (Nat.min beforeSamples afterSamples)).
  { replace 3 with (INR 3) by (simpl; lra). apply le_INR. lia. }
  assert (Hs : 3 / 10 <= Rmin 1 (INR (Nat.min beforeSamples afterSamples) / 10) <= 1).
  { split; [apply Rmin_glb; lra | apply Rmin_l]. }
  assert (Hg : 0 <= Rmin 1 (impactMagnitude * 10) <= 1).
  { split; [apply Rmin_glb; lra | apply Rmin_l]. }
  lra.
Qed.

Section WithNumberFormatting.

Variable toFixed : R -> nat -> string.

(** What [analyzeChangeImpact] returns when it returns an analysis. *)
Lemma analyzeChangeImpact_some (self : t) (change : ConfigChangeEvent)
    (metricsHistory : list MetricsSnapshot) (a : ImpactAnalysis) :
  analyzeChangeImpact toFixed self change metricsHistory = Some a ->
  let window := analysisWindow (config self) in
  let beforeMetrics :=
    List.filter (fun m =>
      (ms_timestamp m <? ce_timestamp change)%Z
      && (ms_timestamp m >? ce_timestamp change - window)%Z) metricsHistory in
  let afterMetrics :=
    List.filter (fun m =>
      (ms_timestamp m >? ce_timestamp change)%Z
      && (ms_timestamp m <? ce_timestamp change + window)%Z) metricsHistory in
  (3 <= length beforeMetrics)%nat
  /\ (3 <= length afterMetrics)%nat
  /\ changeId a = ce_id change
  /\ configFile a = ce_configFile change
  /\ stabilityDelta (metrics a)
     = calculateStability (map ms_cpu_usage afterMetrics)
       - calculateStability (map ms_cpu_usage beforeMetrics)
  /\ impactScore a
     = calculateImpactScore (cpuDelta (metrics a)) (memoryDelta (metrics a))
         (stabilityDelta (metrics a))
  /\ confidence a
     = calculateConfidence (length beforeMetrics) (length afterMetrics)
         (Rabs (impactScore a))
  /\ recommendation a = generateRecommendation (impactScore a) (configFile a)
  /\ evidence a
     = generateEvidence toFixed (config self) (cpuDelta (metrics a))
         (memoryDelta (metrics a)) (stabilityDelta (metrics a)).
Proof.
  unfold analyzeChangeImpact. cbv zeta.
  set (beforeMetrics := List.filter _ metricsHistory).
  set (afterMetrics := List.filter _ metricsHistory).
  destruct (length beforeMetrics <? 3)%nat eqn:Hb; [discriminate|].
  destruct (length afterMetrics <? 3)%nat eqn:Ha; [discriminate|].
  cbn [orb]. intros [= <-].
  apply Nat.ltb_ge in Hb, Ha.
  cbn [changeId configFile metrics impactScore confidence recommendation evidence
       cpuDelta memoryDelta stabilityDelta].
  repeat split; assumption.
Qed.

(** X3. Every analysis the analyzer produces has an impact score in
    [-1, 1], a confidence in [0.15, 1] and a stability delta in [-1, 1],
    and carries the id and the file of its change. *)
Theorem analysis_ranges (self : t) (change : ConfigChangeEvent)
    (metricsHistory : list MetricsSnapshot) (a : ImpactAnalysis) :
  analyzeChangeImpact toFixed self change metricsHistory = Some a ->
  -1 <= impactScore a <= 1
  /\ 15 / 100 <= confidence a <= 1
  /\ -1 <= stabilityDelta (metrics a) <= 1
  /\ changeId a = ce_id change
  /\ configFile a = ce_configFile change.
Proof.
  intros Ha. apply analyzeChangeImpact_some in Ha.
  destruct Ha as (Hb & Haft & Hid & Hfile & Hstab & Hscore & Hconf & _).
  split; [rewrite Hscore; unfold calculateImpactScore; apply clamp_range|].
  split; [rewrite Hconf; apply calculateConfidence_range;
          [exact Hb | exact Haft | apply Rabs_pos]|].
  split; [|split; assumption].
  rewrite Hstab.
  match goal with
  | |- _ <= calculateStability ?x - calculateStability ?y <= _ =>
      pose proof (analyzer_stability_bounds x); pose proof (analyzer_stability_bounds y)
  end.
  lra.
Qed.

Lemma filter_length_le' {A} (f : A -> bool) (l : list A) :
  (length (List.filter f l) <= length l)%nat.
Proof.
  induction l as [|x l IH]; cbn [List.filter length]; [lia|].
  destruct (f x); cbn [length]; lia.
Qed.

Lemma filter_disjoint_length {A} (f g : A -> bool) (l : list A) :
  (forall x, f x = true -> g x = true -> False) ->
  (length (List.filter f l) + length (List.filter g l) <= length l)%nat.
Proof.
  intros Hfg. induction l as [|x l IH]; cbn [List.filter length]; [lia|].
  destruct (f x) eqn:Hf, (g x) eqn:Hg; cbn [length]; try lia.
  exfalso. eauto.
Qed.

Lemma filter_filter_implied {A} (f g : A -> bool) (l : list A) :
  (forall x, f x = true -> g x = true) ->
  List.filter f (List.filter g l) = List.filter f l.
Proof.
  intros Hfg. induction l as [|x l IH]; [reflexivity|].
  cbn [List.filter]. destruct (g x) eqn:Hg; cbn [List.filter].
  - rewrite IH. reflexivity.
  - destruct (f x) eqn:Hf; [|exact IH].
    apply Hfg in Hf. congruence.
Qed.

(** X4. An analysis needs a positive analysis window and a history of at
    least six snapshots: three strictly before the change and three strictly
    after it, a snapshot taken at the instant of the change counting for
    neither side.  Otherwise [analyzeChangeImpact] returns nothing. *)
Theorem analysis_needs_data (self : t) (change : ConfigChangeEvent)
    (metricsHistory : list MetricsSnapshot) :
  (analysisWindow (config self) <= 0)%Z
  \/ (length metricsHistory < 6)%nat
  \/ (length (List.filter
                (fun m => negb (ms_timestamp m =? ce_timestamp change)%Z)
                metricsHistory) < 6)%nat ->
  analyzeChangeImpact toFixed self change metricsHistory = None.
Proof.
  intros Hcase.
  destruct (analyzeChangeImpact toFixed self change metricsHistory) as [a|] eqn:Ha;
    [|reflexivity].
  exfalso. apply analyzeChangeImpact_some in Ha.
  destruct Ha as (Hb & Haft & _). cbv zeta in Hb, Haft.
  set (isBefore := fun m : MetricsSnapshot => _) in Hb.
  set (isAfter := fun m : MetricsSnapshot => _) in Haft.
  destruct Hcase as [Hwin | [Hlen | Hlen]].
  - assert (Hnil : List.filter isBefore metricsHistory = []).
    { clear Hb Haft. induction metricsHistory as [|m l IH]; [reflexivity|].
      cbn [List.filter].
      assert (Hm : isBefore m = false).
      { unfold isBefore. apply andb_false_iff.
        destruct (Z.ltb_spec (ms_timestamp m) (ce_timestamp change)); [right | left; reflexivity].
        rewrite Z.gtb_ltb. apply Z.ltb_ge. lia. }
      rewrite Hm. exact IH. }
    rewrite Hnil in Hb. cbn in Hb. lia.
  - pose proof (filter_disjoint_length isBefore isAfter metricsHistory) as Hd.
    assert (Hdis : forall x, isBefore x = true -> isAfter x = true -> False).
    { intros x Hx Hy. unfold isBefore in Hx. unfold isAfter in Hy.
      apply andb_true_iff in Hx as [Hx _]. apply andb_true_iff in Hy as [Hy _].
      apply Z.ltb_lt in Hx. apply Z.gtb_lt in Hy. lia. }
    specialize (Hd Hdis). lia.
  - set (offInstant := fun m : MetricsSnapshot => _) in Hlen.
    pose proof (fun f => filter_filter_implied f offInstant metricsHistory) as Hsub.
    assert (Hb' : forall m, isBefore m = true -> offInstant m = true).
    { intros m Hm. unfold isBefore in Hm. apply andb_true_iff in Hm as [Hm _].
      apply Z.ltb_lt in Hm. unfold offInstant. apply negb_true_iff, Z.eqb_neq. lia. }
    assert (Ha' : forall m, isAfter m = true -> offInstant m = true).
    { intros m Hm. unfold isAfter in Hm. apply andb_true_iff in Hm as [Hm _].
      apply Z.gtb_lt in Hm. unfold offInstant. apply negb_true_iff, Z.eqb_neq. lia. }
    rewrite <- (Hsub isBefore Hb') in Hb. rewrite <- (Hsub isAfter Ha') in Haft.
    pose proof (filter_disjoint_length isBefore isAfter
                  (List.filter offInstant metricsHistory)) as Hd.
    assert (Hdis : forall x, isBefore x = true -> isAfter x = true -> False).
    { intros x Hx Hy. unfold isBefore in Hx. unfold isAfter in Hy.
      apply andb_true_iff in Hx as [Hx _]. apply andb_true_iff in Hy as [Hy _].
      apply Z.ltb_lt in Hx. apply Z.gtb_lt in Hy. lia. }
    specialize (Hd Hdis). lia.
Qed.

End WithNumberFormatting.

End ImpactScores.

Section EvidenceAndAdvice.

Open Scope R_scope.

Import ImpactAnalyzer Analysis.

Variable toFixed : R -> nat -> string.

(** X5. The evidence of an analysis is never empty and has at most three
    lines; it is the single line "No significant performance impact
    detected" exactly when neither the CPU delta nor the memory delta exceeds
    the significance threshold (in percent) and the stability delta does not
    exceed the threshold itself. *)
Theorem generateEvidence_lines (cfg : AnalysisConfig)
    (cpuDelta memoryDelta stabilityDelta : R) :
  let evidence := generateEvidence toFixed cfg cpuDelta memoryDelta stabilityDelta in
  (1 <= length evidence <= 3)%nat
  /\ (evidence = ["No significant performance impact detected"]
      <-> Rabs cpuDelta <= significanceThreshold cfg * 100
          /\ Rabs memoryDelta <= significanceThreshold cfg * 100
          /\ Rabs stabilityDelta <= significanceThreshold cfg).
Proof.
  unfold generateEvidence. cbv zeta.
  rewrite <- !gtb_false.
  destruct (JS.gtb (Rabs cpuDelta) _), (JS.gtb (Rabs memoryDelta) _),
    (JS.gtb (Rabs stabilityDelta) _);
    cbn [app length Nat.eqb];
    (split; [lia|]);
    (split; [intros H; try discriminate H; repeat split; reflexivity
            | intros (H1 & H2 & H3); try discriminate; reflexivity]).
Qed.

Lemma adviceText_distinct (a b : Advice) (configFile : string) :
  adviceText a configFile = adviceText b configFile -> a = b.
Proof.
  destruct a, b; try reflexivity; intros H; cbn in H; discriminate H.
Qed.

Lemma generateRecommendation_advice (score : R) (configFile : string) :
  generateRecommendation score configFile
  = adviceText
      (if JS.gtb score (3 / 10) then AdviseKeep
       else if JS.ltb score (- (3 / 10)) then AdviseRevert
       else if JS.ltb (Rabs score) (1 / 10) then AdviseNeutral
       else AdviseMonitor) configFile.
Proof.
  unfold generateRecommendation.
  destruct (JS.gtb score (3 / 10)); [reflexivity|].
  destruct (JS.ltb score (- (3 / 10))); [reflexivity|].
  destruct (JS.ltb (Rabs score) (1 / 10)); reflexivity.
Qed.

Lemma revert_advice_iff (score : R) (configFile : string) :
  generateRecommendation score configFile = adviceText AdviseRevert configFile
  <-> score < - (3 / 10).
Proof.
  rewrite generateRecommendation_advice.
  destruct (JS.gtb score (3 / 10)) eqn:Hk;
    [apply gtb_true in Hk | apply gtb_false in Hk;
     destruct (JS.ltb score (- (3 / 10))) eqn:Hr;
       [apply ltb_true in Hr | apply ltb_false in Hr;
        destruct (JS.ltb (Rabs score) (1 / 10))]];
    (split; [intros Heq; apply adviceText_distinct in Heq; try discriminate Heq
            | intros Hc; try reflexivity; exfalso]);
    try assumption; lra.
Qed.

(** X6. The recommendation is one of four texts, told apart by the score
    alone: "keep" exactly above 0.3, "revert" exactly below -0.3, "neutral"
    exactly for |score| < 0.1, and "monitor" in between, the bounds 0.1 and
    0.3 themselves included. *)
Theorem generateRecommendation_partition (score : R) (configFile : string) :
  let text := generateRecommendation score configFile in
  (text = adviceText AdviseKeep configFile <-> score > 3 / 10)
  /\ (text = adviceText AdviseRevert configFile <-> score < - (3 / 10))
  /\ (text = adviceText AdviseNeutral configFile <-> Rabs score < 1 / 10)
  /\ (text = adviceText AdviseMonitor configFile <-> 1 / 10 <= Rabs score <= 3 / 10).
Proof.
  clear toFixed.
  cbv zeta. rewrite generateRecommendation_advice.
  assert (Hsolve : forall adv : Advice,
    (adv = AdviseKeep <-> score > 3 / 10)
    /\ (adv = AdviseRevert <-> score < - (3 / 10))
    /\ (adv = AdviseNeutral <-> Rabs score < 1 / 10)
    /\ (adv = AdviseMonitor <-> 1 / 10 <= Rabs score <= 3 / 10) ->
    (adviceText adv configFile = adviceText AdviseKeep configFile <-> score > 3 / 10)
    /\ (adviceText adv configFile = adviceText AdviseRevert configFile
        <-> score < - (3 / 10))
    /\ (adviceText adv configFile = adviceText AdviseNeutral configFile
        <-> Rabs score < 1 / 10)
    /\ (adviceText adv configFile = adviceText AdviseMonitor configFile
        <-> 1 / 10 <= Rabs score <= 3 / 10)).
  { intros adv (H1 & H2 & H3 & H4).
    split; [|split; [|split]];
      (split; [intros Heq; apply adviceText_distinct in Heq; tauto
              | intros Hc; f_equal; tauto]). }
  apply Hsolve.
  destruct (JS.gtb score (3 / 10)) eqn:Hk;
    [apply gtb_true in Hk | apply gtb_false in Hk;
     destruct (JS.ltb score (- (3 / 10))) eqn:Hr;
       [apply ltb_true in Hr | apply ltb_false in Hr;
        destruct (JS.ltb (Rabs score) (1 / 10)) eqn:Hn;
          [apply ltb_true in Hn | apply ltb_false in Hn]]];
    (split; [|split; [|split]]);
    (split; [intros Heq; try discriminate Heq | intros Hc; try reflexivity; exfalso]);
    try assumption;
    unfold Rabs in *; destruct (Rcase_abs score); lra.
Qed.

(** X7. The poor-performer pass and the recommendation agree: an analysis
    the analyzer produced yields a suggestion exactly when its recommendation
    is the "revert" text; the suggestion then targets the file of the
    analysis, carries its confidence, and has high priority and low risk. *)
Theorem poor_performer_is_revert_advice (genId : nat -> string) (self : t)
    (change : ConfigChangeEvent) (metricsHistory : list MetricsSnapshot)
    (a : ImpactAnalysis) :
  analyzeChangeImpact toFixed self change metricsHistory = Some a ->
  (recommendation a = adviceText AdviseRevert (configFile a) ->
   exists s, OptimizationEngine.analyzePoorPerformance genId 0 [a] = [s]
             /\ sg_configFile s = ce_configFile change
             /\ sg_confidence s = confidence a
             /\ sg_priority s = HIGH
             /\ sg_riskLevel s = "low")
  /\ (recommendation a <> adviceText AdviseRevert (configFile a) ->
      OptimizationEngine.analyzePoorPerformance genId 0 [a] = []).
Proof.
  intros Ha. apply analyzeChangeImpact_some in Ha.
  destruct Ha as (_ & _ & _ & Hfile & _ & _ & _ & Hrec & _).
  pose proof (revert_advice_iff (impactScore a) (configFile a)) as Hrevert.
  rewrite <- Hrec in Hrevert.
  unfold OptimizationEngine.analyzePoorPerformance. cbn [List.filter].
  split.
  - intros H. apply Hrevert in H. apply ltb_true in H. rewrite H.
    eexists. split; [reflexivity|]. cbn. auto.
  - intros H. destruct (JS.ltb (impactScore a) (- (3 / 10))) eqn:Hlt; [|reflexivity].
    exfalso. apply H, Hrevert. apply ltb_true. exact Hlt.
Qed.

End EvidenceAndAdvice.

(** ** Impact Analyzer: ledger, baselines, tick *)

Section LedgerAndBaselines.

Open Scope R_scope.

Import ImpactAnalyzer Analysis.

Variable generateConfigHash : string -> Z -> string.

(** X8. Recording a change appends it to the ledger and prunes the ledger
    to the events younger than twice the analysis window.  With a
    non-negative window the pruning is invisible to the analysis: at any
    later clock reading the recent changes are those of the unpruned
    ledger.  The new event itself stays, as the last entry, when its
    timestamp is within twice the window of the pruning clock; only the
    ledger changes. *)
Theorem recordConfigChange_ledger (self : t) (configFile : string)
    (changeType : ChangeType) (env : RecordEnv) (now : Z) :
  (0 <= analysisWindow (config self))%Z ->
  (re_cleanupTime env <= now)%Z ->
  let changeEvent :=
    {| ce_id := re_changeId env;
       ce_timestamp := re_timestamp env;
       ce_configFile := configFile;
       ce_changeType := changeType;
       ce_parameter := None;
       ce_configHash := generateConfigHash configFile (re_hashTime env) |} in
  let self' := recordConfigChange generateConfigHash self configFile changeType env in
  Forall (fun c => (re_cleanupTime env - 2 * analysisWindow (config self)
                    < ce_timestamp c)%Z) (changeHistory self')
  /\ getRecentChanges self' now
     = getRecentChanges (setChangeHistory self (changeHistory self ++ [changeEvent])) now
  /\ ((re_cleanupTime env - 2 * analysisWindow (config self) < re_timestamp env)%Z ->
      exists older, changeHistory self' = older ++ [changeEvent]
                    /\ older `sublist_of` changeHistory self)
  /\ config self' = config self
  /\ baselines self' = baselines self
  /\ analysisResults self' = analysisResults self.
Proof.
  intros Hwin Hclock changeEvent self'.
  subst self'. unfold recordConfigChange, cleanupOldChanges.
  fold changeEvent.
  cbn [changeHistory setChangeHistory config baselines analysisResults].
  set (keep := fun change : ConfigChangeEvent => (_ >? _)%Z).
  split; [|split; [|split; [|auto]]].
  - apply Forall_forall. intros c Hc.
    apply list_elem_of_In, filter_In in Hc as [_ Hc].
    unfold keep in Hc. apply Z.gtb_lt in Hc. lia.
  - unfold getRecentChanges.
    cbn [changeHistory setChangeHistory config].
    apply filter_filter_implied.
    intros c Hc. apply Z.gtb_lt in Hc. unfold keep. apply Z.gtb_lt. lia.
  - intros Hnew. rewrite List.filter_app. cbn [List.filter].
    assert (Hk : keep changeEvent = true).
    { unfold keep, changeEvent. cbn [ce_timestamp]. apply Z.gtb_lt. lia. }
    rewrite Hk. eexists. split; [reflexivity|]. apply filter_sublist.
Qed.

Lemma fold_Rmax_ge (l : list R) (x : R) :
  x <= fold_left Rmax l x /\ Forall (fun y => y <= fold_left Rmax l x) l.
Proof.
  revert x. induction l as [|y l IH]; intros x; cbn [fold_left].
  - split; [lra | constructor].
  - destruct (IH (Rmax x y)) as [H1 H2].
    pose proof (Rmax_l x y). pose proof (Rmax_r x y).
    split; [lra|]. constructor; [lra | exact H2].
Qed.

Lemma mathMax_bounds (reading : MetricsSnapshot -> R) (snapshots : list MetricsSnapshot)
    (M : R) :
  mathMax (map reading snapshots) = Some M ->
  Forall (fun s => reading s <= M) snapshots.
Proof.
  destruct snapshots as [|x rest]; [discriminate|].
  cbn [map mathMax]. intros [= <-].
  destruct (fold_Rmax_ge (map reading rest) (reading x)) as [Hx Hrest].
  constructor; [exact Hx|].
  apply Forall_fmap in Hrest. exact Hrest.
Qed.

(** A non-empty group has a baseline, with these figures. *)
Lemma calculateBaseline_some (configHash : string) (snapshots : list MetricsSnapshot)
    (now : Z) :
  snapshots <> [] ->
  exists b,
    calculateBaseline configHash snapshots now = Some b
    /\ pb_configHash b = configHash
    /\ bm_sampleCount (pb_metrics b) = length snapshots
    /\ bm_avgCpu (pb_metrics b) = average (map ms_cpu_usage snapshots)
    /\ bm_avgMemory (pb_metrics b) = average (map ms_memory_percentage snapshots)
    /\ Forall (fun s => ms_cpu_usage s <= bm_maxCpu (pb_metrics b)) snapshots
    /\ Forall (fun s => ms_memory_percentage s <= bm_maxMemory (pb_metrics b)) snapshots
    /\ 0 <= pb_stability b <= 1.
Proof.
  intros Hne. unfold calculateBaseline. cbv zeta.
  destruct (mathMax (map ms_cpu_usage snapshots)) as [maxCpu|] eqn:Hc;
    [|destruct snapshots; [congruence | discriminate]].
  destruct (mathMax (map ms_memory_percentage snapshots)) as [maxMemory|] eqn:Hm;
    [|destruct snapshots; [congruence | discriminate]].
  cbn [mbind option_bind]. eexists. split; [reflexivity|].
  cbn [pb_configHash pb_metrics pb_stability bm_sampleCount bm_avgCpu bm_avgMemory
       bm_maxCpu bm_maxMemory].
  repeat split; try reflexivity.
  - apply (mathMax_bounds ms_cpu_usage). exact Hc.
  - apply (mathMax_bounds ms_memory_percentage). exact Hm.
  - pose proof (analyzer_stability_bounds (map ms_cpu_usage snapshots)).
    pose proof (analyzer_stability_bounds (map ms_memory_percentage snapshots)). lra.
  - pose proof (analyzer_stability_bounds (map ms_cpu_usage snapshots)).
    pose proof (analyzer_stability_bounds (map ms_memory_percentage snapshots)). lra.
Qed.

(** The group of a hash is the snapshots of the history with that hash, in
    order; a hash without snapshots has no group. *)
Lemma groupByHash_lookup (metricsHistory : list MetricsSnapshot) (h : string) :
  groupByHash metricsHistory !! h
  = match List.filter (fun s => String.eqb (ms_configHash s) h) metricsHistory with
    | [] => None
    | group => Some group
    end.
Proof.
  unfold groupByHash.
  assert (Hgen : forall (l : list MetricsSnapshot) (groups : gmap string (list MetricsSnapshot)),
    fold_left
      (fun groups snapshot =>
         <[ms_configHash snapshot :=
             default [] (groups !! ms_configHash snapshot) ++ [snapshot]]> groups)
      l groups !! h
    = match List.filter (fun s => String.eqb (ms_configHash s) h) l with
      | [] => groups !! h
      | group => Some (default [] (groups !! h) ++ group)
      end).
  { induction l as [|s l IH]; intros groups; [reflexivity|].
    cbn [fold_left List.filter]. rewrite IH.
    destruct (String.eqb_spec (ms_configHash s) h) as [Heq | Hne].
    - subst h. rewrite lookup_insert_eq.
      destruct (List.filter _ l) as [|s' group'].
      + reflexivity.
      + cbn [default from_option]. unfold Datatypes.id.
        rewrite <- app_assoc. reflexivity.
    - rewrite lookup_insert_ne by exact Hne. reflexivity. }
  rewrite Hgen. rewrite lookup_empty. cbn [default app].
  destruct (List.filter _ metricsHistory); reflexivity.
Qed.

Lemma updateBaselines_frame (self : t) (metricsHistory : list MetricsSnapshot)
    (clock : string -> Z) :
  let self' := updateBaselines self metricsHistory clock in
  config self' = config self
  /\ changeHistory self' = changeHistory self
  /\ analysisResults self' = analysisResults self.
Proof. cbn. auto. Qed.

(** X9. After [updateBaselines], a configuration hash that at least
    minSampleSize snapshots of the history (and at least one) carry has a
    baseline computed from exactly those snapshots: their count, the
    [average] of their CPU and of their memory readings, maxima that no
    reading of the group exceeds, and a stability in [0, 1].  A hash with
    fewer keeps whatever baseline it had: stale baselines are never removed.
    Nothing else of the analyzer changes. *)
Theorem updateBaselines_lookup (self : t) (metricsHistory : list MetricsSnapshot)
    (clock : string -> Z) (h : string) :
  let group := List.filter (fun s => String.eqb (ms_configHash s) h) metricsHistory in
  let self' := updateBaselines self metricsHistory clock in
  (group <> [] -> (minSampleSize (config self) <= length group)%nat ->
   exists b, baselines self' !! h = Some b
             /\ pb_configHash b = h
             /\ pb_timestamp b = clock h
             /\ bm_sampleCount (pb_metrics b) = length group
             /\ bm_avgCpu (pb_metrics b) = average (map ms_cpu_usage group)
             /\ bm_avgMemory (pb_metrics b) = average (map ms_memory_percentage group)
             /\ Forall (fun s => ms_cpu_usage s <= bm_maxCpu (pb_metrics b)) group
             /\ Forall (fun s => ms_memory_percentage s <= bm_maxMemory (pb_metrics b))
                  group
             /\ 0 <= pb_stability b <= 1)
  /\ (group = [] \/ (length group < minSampleSize (config self))%nat ->
      baselines self' !! h = baselines self !! h)
  /\ config self' = config self
  /\ changeHistory self' = changeHistory self
  /\ analysisResults self' = analysisResults self.
Proof.
  intros group self'. subst self'. unfold updateBaselines.
  cbn [baselines setBaselines config changeHistory analysisResults].
  assert (Hlook : forall m : gmap string PerformanceBaseline,
    (map_imap
       (fun configHash snapshots =>
          if (minSampleSize (config self) <=? length snapshots)%nat
          then calculateBaseline configHash snapshots (clock configHash)
          else None) (groupByHash metricsHistory) ∪ m) !! h
    = match group with
      | [] => m !! h
      | _ => if (minSampleSize (config self) <=? length group)%nat
             then union_with (fun x _ => Some x)
                    (calculateBaseline h group (clock h)) (m !! h)
             else m !! h
      end).
  { intros m. rewrite lookup_union, map_lookup_imap, groupByHash_lookup.
    fold group. destruct group as [|s g] eqn:Hg.
    - cbn. destruct (m !! h); reflexivity.
    - cbn [mbind option_bind].
      destruct (minSampleSize (config self) <=? length (s :: g))%nat.
      + reflexivity.
      + cbn. destruct (m !! h); reflexivity. }
  split; [|split; [|auto]].
  - intros Hne Hmin. rewrite Hlook.
    destruct group as [|s g] eqn:Hg; [congruence|].
    apply Nat.leb_le in Hmin. rewrite Hmin.
    destruct (calculateBaseline_some h (s :: g) (clock h)) as (b & Hb & Hrest);
      [discriminate|].
    rewrite Hb. exists b. split.
    + destruct (baselines self !! h); reflexivity.
    + destruct Hrest as (H1 & H2 & H3 & H4 & H5 & H6 & H7).
      repeat split; try assumption; try lra.
      unfold calculateBaseline in Hb. cbv zeta in Hb.
      destruct (mathMax _); [|discriminate]. destruct (mathMax _); [|discriminate].
      cbn in Hb. injection Hb as <-. reflexivity.
  - intros Hcase. rewrite Hlook.
    destruct group as [|s g] eqn:Hg; [reflexivity|].
    destruct Hcase as [Hnil | Hlt]; [discriminate|].
    apply Nat.leb_gt in Hlt. rewrite Hlt. reflexivity.
Qed.

End LedgerAndBaselines.

Section AnalysisTick.

Import ImpactAnalyzer Analysis.

Variable toFixed : R -> nat -> string.

Lemma analyzeChangeImpact_config (self self' : t) (change : ConfigChangeEvent)
    (metricsHistory : list MetricsSnapshot) :
  config self = config self' ->
  analyzeChangeImpact toFixed self change metricsHistory
  = analyzeChangeImpact toFixed self' change metricsHistory.
Proof. intros H. unfold analyzeChangeImpact. rewrite H. reflexivity. Qed.

Lemma analyzeRecentChanges_frame (self : t) (now : Z)
    (metricsHistory : list MetricsSnapshot) :
  let self' := analyzeRecentChanges toFixed self now metricsHistory in
  config self' = config self
  /\ baselines self' = baselines self
  /\ changeHistory self' = changeHistory self.
Proof.
  unfold analyzeRecentChanges.
  generalize (getRecentChanges self now) as changes.
  intros changes. revert self.
  induction changes as [|c changes IH]; intros self; cbn [fold_left]; [auto|].
  destruct (analyzeChangeImpact toFixed self c metricsHistory) as [a|].
  - destruct (IH {| config := config self; baselines := baselines self;
                    changeHistory := changeHistory self;
                    analysisResults := analysisResults self ++ [a] |})
      as (H1 & H2 & H3).
    cbn [config baselines changeHistory] in H1, H2, H3. auto.
  - apply IH.
Qed.

(** X11. A tick of the analysis only appends: it leaves the configuration
    and the change ledger alone and extends the list of analyses by one
    analysis per recent change with enough samples.  The list is not keyed
    by change: a second tick at the same clock reading on the same history
    appends the same analyses once more. *)
Theorem analyzeMetrics_appends_again (self : t) (metricsHistory : list MetricsSnapshot)
    (clock clock' : string -> Z) (now : Z) :
  let produced :=
    if (length metricsHistory <? minSampleSize (config self))%nat then []
    else omap (fun change => analyzeChangeImpact toFixed self change metricsHistory)
           (getRecentChanges self now) in
  let once := analyzeMetrics toFixed self metricsHistory clock now in
  let twice := analyzeMetrics toFixed once metricsHistory clock' now in
  analysisResults once = analysisResults self ++ produced
  /\ analysisResults twice = analysisResults self ++ produced ++ produced
  /\ (length produced <= length (getRecentChanges self now))%nat
  /\ config twice = config self
  /\ changeHistory twice = changeHistory self.
Proof.
  intros produced once twice.
  assert (Hstep : forall (s : t) (ck : string -> Z),
    config s = config self -> changeHistory s = changeHistory self ->
    analysisResults (analyzeMetrics toFixed s metricsHistory ck now)
    = analysisResults s ++ produced
    /\ config (analyzeMetrics toFixed s metricsHistory ck now) = config self
    /\ changeHistory (analyzeMetrics toFixed s metricsHistory ck now)
       = changeHistory self).
  { intros s ck Hc Hh. unfold analyzeMetrics. subst produced. rewrite Hc.
    destruct (length metricsHistory <? minSampleSize (config self))%nat.
    - rewrite app_nil_r. auto.
    - destruct (updateBaselines_frame s metricsHistory ck) as (Hc' & Hh' & Hr').
      cbv zeta in Hc', Hh', Hr'.
      set (s' := updateBaselines s metricsHistory ck) in *.
      destruct (analyzeRecentChanges_frame s' now metricsHistory) as (H1 & _ & H3).
      cbv zeta in H1, H3.
      rewrite analyzeRecentChanges_results, Hr'.
      split; [|split; congruence].
      f_equal.
      assert (Hrecent : getRecentChanges s' now = getRecentChanges self now).
      { unfold getRecentChanges. rewrite Hc', Hc, Hh', Hh. reflexivity. }
      rewrite Hrecent. apply list_omap_ext. 
      apply Forall2_same_length_lookup. split; [reflexivity|].
      intros i c c' Hi Hi'. rewrite Hi in Hi'. injection Hi' as <-.
      apply analyzeChangeImpact_config. congruence. }
  destruct (Hstep self clock eq_refl eq_refl) as (H1 & H2 & H3).
  fold once in H1, H2, H3.
  destruct (Hstep once clock' H2 H3) as (H4 & H5 & H6).
  fold twice in H4, H5, H6.
  split; [exact H1|]. split; [rewrite H4, H1, <- app_assoc; reflexivity|].
  split; [|auto].
  subst produced. destruct (length metricsHistory <? _)%nat; [cbn; lia|].
  generalize (getRecentChanges self now). intros l.
  induction l as [|c l IH]; cbn; [lia|].
  destruct (analyzeChangeImpact toFixed self c metricsHistory); cbn; lia.
Qed.

End AnalysisTick.

(** ** Optimization Engine: what the passes hand to the auto-tuner *)

Section PassesAndEligibility.

Open Scope R_scope.

Import OptimizationEngine.

Variable toFixed : R -> nat -> string.

(** X12. Suggestions of the stability pass carry confidence 0.6 and are
    rejected by the eligibility filter of every auto-tuning engine, whatever
    its configuration and the files; suggestions of the resource-pressure
    pass carry risk "medium" and are rejected by every engine whose risk
    threshold is low, the default. *)
Theorem passes_never_eligible (genId : nat -> string) (next : nat)
    (self : AutoTuningEngine.t) (fs : FileSystem)
    (offered : list OptimizationSuggestion) (s : OptimizationSuggestion) :
  (forall baselines,
     s ∈ detectStabilityIssues toFixed genId next baselines ->
     s ∉ AutoTuningEngine.filterEligibleSuggestions self fs offered)
  /\ (forall latestMetrics,
        riskThreshold (AutoTuningEngine.config self) = RiskLow ->
        s ∈ identifyResourceOptimizations toFixed genId next latestMetrics ->
        s ∉ AutoTuningEngine.filterEligibleSuggestions self fs offered).
Proof.
  split.
  - intros baselines Hs Hel.
    apply filterEligibleSuggestions_elem in Hel as (_ & _ & Hconf & _).
    unfold detectStabilityIssues in Hs.
    apply elem_of_lookup_imap_1 in Hs as (i & b & -> & _).
    cbn [sg_confidence] in Hconf. lra.
  - intros latestMetrics Hlow Hs Hel.
    apply filterEligibleSuggestions_elem in Hel as (_ & Hrisk & _).
    assert (Hmed : sg_riskLevel s = "medium").
    { unfold identifyResourceOptimizations in Hs. cbv zeta in Hs.
      destruct (JS.gtb (memoryUsage latestMetrics) 85),
               (JS.gtb (cpuUsage latestMetrics) 70);
        cbn [app] in Hs;
        repeat (apply elem_of_cons in Hs as [-> | Hs]; [reflexivity|]);
        apply elem_of_nil in Hs; contradiction. }
    unfold AutoTuningEngine.isWithinRiskThreshold in Hrisk.
    rewrite Hmed, Hlow in Hrisk. discriminate Hrisk.
Qed.

Lemma collectSuggestions_targets (genId genId' : nat -> string)
    (analyses : list ImpactAnalyzer.ImpactAnalysis)
    (baselines : list ImpactAnalyzer.PerformanceBaseline)
    (metricsHistory : list MetricsSnapshot) :
  map Spec.target (collectSuggestions toFixed genId analyses baselines metricsHistory)
  = map Spec.target (collectSuggestions toFixed genId' analyses baselines metricsHistory).
Proof.
  unfold collectSuggestions. cbv zeta. cbn [app length].
  rewrite !map_app. f_equal; [f_equal; [f_equal|]|].
  - unfold analyzePoorPerformance. cbv zeta.
    generalize (List.filter
                  (fun a => JS.ltb (ImpactAnalyzer.impactScore a) (- (3 / 10))) analyses).
    intros l. change (map Spec.target) with (fmap (M := list) Spec.target).
    rewrite !fmap_imap. apply imap_ext. reflexivity.
  - unfold identifyResourceOptimizations. cbv zeta.
    destruct (JS.gtb _ 85), (JS.gtb _ 70); reflexivity.
  - unfold detectStabilityIssues. cbv zeta.
    generalize (List.filter
                  (fun b => JS.ltb (ImpactAnalyzer.pb_stability b) (7 / 10)) baselines).
    intros l. change (map Spec.target) with (fmap (M := list) Spec.target).
    rewrite !fmap_imap. apply imap_ext. reflexivity.
  - unfold applyAlgorithmicOptimizations. cbv zeta.
    destruct (JS.gtb _ _); reflexivity.
Qed.

(** X13. The running suggestion list is deduplicated within one call only.
    Two calls of [generateSuggestions] on the same analyses, baselines and
    history append their returned lists one after the other, and as soon as
    the passes produce anything the running list holds two suggestions for
    the same (configFile, parameter). *)
Theorem running_list_repeats_targets (genId genId' : nat -> string) (self : t)
    (analyses : list ImpactAnalyzer.ImpactAnalysis)
    (baselines : list ImpactAnalyzer.PerformanceBaseline)
    (metricsHistory : list MetricsSnapshot) :
  collectSuggestions toFixed genId analyses baselines metricsHistory <> [] ->
  let first := generateSuggestions toFixed genId self analyses baselines metricsHistory in
  let second :=
    generateSuggestions toFixed genId' first.1 analyses baselines metricsHistory in
  suggestions second.1 = suggestions self ++ first.2 ++ second.2
  /\ ~ NoDup (map Spec.target (suggestions second.1)).
Proof.
  intros Hne first second.
  assert (Hrun : suggestions second.1 = suggestions self ++ first.2 ++ second.2).
  { subst second first. unfold generateSuggestions. cbn [fst snd suggestions].
    rewrite <- app_assoc. reflexivity. }
  split; [exact Hrun|].
  rewrite Hrun, !map_app. intros Hnd.
  apply NoDup_app in Hnd as (_ & _ & Hnd).
  apply NoDup_app in Hnd as (_ & Hdisj & _).
  set (l1 := collectSuggestions toFixed genId analyses baselines metricsHistory) in *.
  set (l2 := collectSuggestions toFixed genId' analyses baselines metricsHistory).
  destruct l1 as [|s l1'] eqn:Hl1; [congruence|].
  assert (Hs1 : s ∈ l1) by (rewrite Hl1; apply elem_of_cons; auto).
  rewrite <- Hl1 in *.
  assert (Ht2 : Spec.target s ∈ map Spec.target l2).
  { subst l2. rewrite <- (collectSuggestions_targets genId genId').
    apply list_elem_of_fmap. exists s. split; [reflexivity | exact Hs1]. }
  apply list_elem_of_fmap in Ht2 as (s2 & Heq & Hs2).
  destruct (keepFirst_covers [] l1 s Hs1) as [Hin | (r1 & Hr1 & Ht1)];
    [apply elem_of_nil in Hin; contradiction|].
  destruct (keepFirst_covers [] l2 s2 Hs2) as [Hin | (r2 & Hr2 & Ht2')];
    [apply elem_of_nil in Hin; contradiction|].
  apply (Hdisj (Spec.target s)).
  - apply list_elem_of_fmap. exists r1. split; [congruence|].
    subst first. unfold generateSuggestions. cbn [snd]. fold l1.
    unfold filterAndPrioritizeSuggestions. rewrite unique_keepFirst.
    rewrite sort_perm. exact Hr1.
  - apply list_elem_of_fmap. exists r2. split; [congruence|].
    subst second. unfold generateSuggestions. cbn [snd]. fold l2.
    unfold filterAndPrioritizeSuggestions. rewrite unique_keepFirst.
    rewrite sort_perm. exact Hr2.
Qed.

End PassesAndEligibility.

(** ** Editing a configuration file *)

Section JsonEditing.

Import AutoTuningEngine.

Lemma lookupField_setField_eq (key : string) (v : json) (fields : list (string * json)) :
  Json.lookupField key (Json.setField key v fields) = Some v.
Proof.
  induction fields as [|[k old] rest IH]; cbn [Json.setField Json.lookupField].
  - rewrite String.eqb_refl. reflexivity.
  - destruct (String.eqb k key) eqn:Hk; cbn [Json.lookupField]; rewrite Hk;
      [reflexivity | exact IH].
Qed.

Lemma lookupField_setField_ne (key other : string) (v : json)
    (fields : list (string * json)) :
  other <> key ->
  Json.lookupField other (Json.setField key v fields) = Json.lookupField other fields.
Proof.
  intros Hne.
  induction fields as [|[k old] rest IH]; cbn [Json.setField Json.lookupField].
  - destruct (String.eqb key other) eqn:Hk; [|reflexivity].
    apply String.eqb_eq in Hk. congruence.
  - destruct (String.eqb k key) eqn:Hk; cbn [Json.lookupField].
    + apply String.eqb_eq in Hk. subst k.
      destruct (String.eqb key other) eqn:Hk'; [|reflexivity].
      apply String.eqb_eq in Hk'. congruence.
    + rewrite IH. reflexivity.
Qed.

Lemma getPath_of_falsy (v : json) (key : string) (rest : list string) :
  Json.falsy v = true -> JsonRead.getPath v (key :: rest) = None.
Proof. destruct v; cbn; congruence. Qed.

Lemma setPath_step (fields : list (string * json)) (key key' : string)
    (rest : list string) (value : json) :
  Json.setPath (JObj fields) (key :: key' :: rest) value
  = match Json.setPath
            (match Json.lookupField key fields with
             | Some v => if Json.falsy v then JObj [] else v
             | None => JObj []
             end) (key' :: rest) value with
    | Some child' => Some (JObj (Json.setField key child' fields))
    | None => None
    end.
Proof. reflexivity. Qed.

Lemma setPath_object (doc doc' value : json) (path : list string) :
  Json.setPath doc path value = Some doc' -> exists fields, doc = JObj fields.
Proof.
  destruct path; [discriminate|]. destruct doc; try discriminate. eauto.
Qed.

Lemma setPath_written (path : list string) (doc doc' value : json) :
  Json.setPath doc path value = Some doc' ->
  JsonRead.getPath doc' path = Some value.
Proof.
  revert doc doc'.
  induction path as [|key rest IH]; intros doc doc' Hset; [discriminate Hset|].
  destruct (setPath_object _ _ _ _ Hset) as [fields ->].
  destruct rest as [|key' rest'].
  - injection Hset as <-. cbn [JsonRead.getPath].
    rewrite lookupField_setField_eq. reflexivity.
  - rewrite setPath_step in Hset.
    destruct (Json.setPath _ (key' :: rest') value) as [child'|] eqn:Hchild;
      [|discriminate Hset].
    injection Hset as <-.
    change (JsonRead.getPath (JObj (Json.setField key child' fields)) (key :: key' :: rest'))
      with (match Json.lookupField key (Json.setField key child' fields) with
            | Some child => JsonRead.getPath child (key' :: rest')
            | None => None
            end).
    rewrite lookupField_setField_eq. exact (IH _ _ Hchild).
Qed.

Lemma setPath_elsewhere (common : list string) :
  forall (doc doc' value : json) (key other : string) (rest rest' : list string),
    other <> key ->
    Json.setPath doc (common ++ key :: rest) value = Some doc' ->
    JsonRead.getPath doc' (common ++ other :: rest')
    = JsonRead.getPath doc (common ++ other :: rest').
Proof.
  induction common as [|step common IH]; intros doc doc' value key other rest rest' Hne Hset.
  - cbn [app] in *.
    destruct (setPath_object _ _ _ _ Hset) as [fields ->].
    assert (Hdoc' : exists child', doc' = JObj (Json.setField key child' fields)).
    { destruct rest as [|key' rest''].
      - injection Hset as <-. eauto.
      - rewrite setPath_step in Hset.
        destruct (Json.setPath _ (key' :: rest'') value) as [child'|];
          [|discriminate Hset].
        injection Hset as <-. eauto. }
    destruct Hdoc' as [child' ->].
    cbn [JsonRead.getPath]. rewrite lookupField_setField_ne by exact Hne. reflexivity.
  - cbn [app] in *.
    destruct (common ++ key :: rest) as [|key' rest''] eqn:Hpath;
      [destruct common; discriminate Hpath|].
    destruct (setPath_object _ _ _ _ Hset) as [fields ->].
    rewrite setPath_step in Hset.
    destruct (Json.setPath _ (key' :: rest'') value) as [child'|] eqn:Hchild;
      [|discriminate Hset].
    injection Hset as <-.
    cbn [JsonRead.getPath]. rewrite lookupField_setField_eq.
    rewrite <- Hpath in Hchild.
    rewrite (IH _ _ _ _ _ _ rest' Hne Hchild).
    destruct (Json.lookupField step fields) as [v|] eqn:Hv.
    + destruct (Json.falsy v) eqn:Hfalsy; [|reflexivity].
      destruct common; cbn [app];
        rewrite (getPath_of_falsy v) by exact Hfalsy; reflexivity.
    + destruct common; cbn; reflexivity.
Qed.

(** X14. On a document that is made of objects along the path, and for a
    path of plain keys (none that [Object.prototype] supplies, none made of
    digits), writing a value along the path and reading the path back gives
    the value, and every path that leaves the written one at some key reads
    as it did before: the edit of [applyConfigurationChange] touches nothing
    beside the parameter. *)
Theorem setPath_read_back (doc doc' value : json) (path : list string) :
  Forall (fun key => JsonRead.plainKey key = true) path ->
  Json.setPath doc path value = Some doc' ->
  JsonRead.getPath doc' path = Some value
  /\ forall common key other rest rest',
       path = common ++ key :: rest -> other <> key ->
       JsonRead.getPath doc' (common ++ other :: rest')
       = JsonRead.getPath doc (common ++ other :: rest').
Proof.
  intros _ Hset. split; [exact (setPath_written _ _ _ _ Hset)|].
  intros common key other rest rest' -> Hne.
  exact (setPath_elsewhere common _ _ _ _ _ _ rest' Hne Hset).
Qed.

End JsonEditing.

Section ApplyingChanges.

Import AutoTuningEngine.

Variable JSON_parse : string -> option json.
Variable JSON_stringify : json -> string.

#[local] Abbreviation applyConfigurationChange :=
  (applyConfigurationChange JSON_parse JSON_stringify).
#[local] Abbreviation applySuggestion := (applySuggestion JSON_parse JSON_stringify).
#[local] Abbreviation applyAll := (applyAll JSON_parse JSON_stringify).
#[local] Abbreviation processSuggestions := (processSuggestions JSON_parse JSON_stringify).

Lemma writeFile_files (fs fs' : FileSystem) (path data : string) :
  FS.writeFile fs path data = Some fs' ->
  fs' = {| files := <[path := {| f_content := data; f_writable := true |}]> (files fs);
           backupDirUsable := backupDirUsable fs;
           backupFiles := backupFiles fs |}.
Proof.
  unfold FS.writeFile.
  destruct (files fs !! path) as [f|]; [destruct (f_writable f); [|discriminate]|];
    intros [= <-]; reflexivity.
Qed.

(** What [applyConfigurationChange] does: nothing, or one rewrite of the
    target with the edited document. *)
Lemma applyConfigurationChange_cases (fs : FileSystem) (suggestion : OptimizationSuggestion) :
  applyConfigurationChange fs suggestion = fs
  \/ exists f doc doc',
       isVirtual (sg_configFile suggestion) = false
       /\ JS.endsWith (sg_configFile suggestion) ".json" = true
       /\ sg_parameter suggestion <> "unknown"
       /\ files fs !! sg_configFile suggestion = Some f
       /\ f_writable f = true
       /\ JSON_parse (f_content f) = Some doc
       /\ Json.setPath doc (Json.split "."%char (sg_parameter suggestion))
            (sg_suggestedValue suggestion) = Some doc'
       /\ applyConfigurationChange fs suggestion
          = {| files := <[sg_configFile suggestion :=
                           {| f_content := JSON_stringify doc'; f_writable := true |}]>
                          (files fs);
               backupDirUsable := backupDirUsable fs;
               backupFiles := backupFiles fs |}.
Proof.
  unfold AutoTuningEngine.applyConfigurationChange, FS.readFile.
  destruct (isVirtual _) eqn:Hvirtual; [left; reflexivity|].
  destruct (files fs !! sg_configFile suggestion) as [f|] eqn:Hf; cbn [fmap option_fmap option_map];
    [|left; reflexivity].
  destruct (JS.endsWith _ _) eqn:Hjson; [|left; reflexivity].
  destruct (JSON_parse (f_content f)) as [doc|] eqn:Hdoc; [|left; reflexivity].
  destruct (String.eqb (sg_parameter suggestion) "unknown") eqn:Hparam;
    cbn [negb]; [left; reflexivity|].
  destruct (Json.setPath doc _ _) as [doc'|] eqn:Hset; [|left; reflexivity].
  destruct (FS.writeFile fs _ _) as [fs'|] eqn:Hwrite; [|left; reflexivity].
  right. exists f, doc, doc'.
  apply String.eqb_neq in Hparam.
  rewrite (writeFile_files _ _ _ _ Hwrite).
  repeat split; try assumption; try reflexivity.
  unfold FS.writeFile in Hwrite. rewrite Hf in Hwrite.
  destruct (f_writable f); [reflexivity | discriminate Hwrite].
Qed.

Lemma applyConfigurationChange_frame (fs : FileSystem)
    (suggestion : OptimizationSuggestion) :
  let fs' := applyConfigurationChange fs suggestion in
  backupFiles fs' = backupFiles fs
  /\ backupDirUsable fs' = backupDirUsable fs
  /\ (forall path, path <> sg_configFile suggestion ->
        files fs' !! path = files fs !! path)
  /\ (forall path, is_Some (files fs' !! path) <-> is_Some (files fs !! path)).
Proof.
  intros fs'.
  destruct (applyConfigurationChange_cases fs suggestion)
    as [Hsame | (f & _ & doc' & _ & _ & _ & Hf & _ & _ & _ & Hfs')].
  - subst fs'. rewrite Hsame. repeat split; tauto.
  - subst fs'. rewrite Hfs'. cbn [files backupFiles backupDirUsable].
    split; [reflexivity|]. split; [reflexivity|].
    split; [intros path Hne; apply lookup_insert_ne; congruence|].
    intros path. destruct (decide (path = sg_configFile suggestion)) as [->|Hne].
    + rewrite lookup_insert_eq, Hf. split; eauto.
    + rewrite lookup_insert_ne by congruence. reflexivity.
Qed.

(** X15. [applyConfigurationChange] rewrites at most the target file: the
    backup directory and every other file are as before, and no file is
    created or removed.  A virtual target, a target that is missing or not a
    .json file, and the parameter "unknown" change nothing at all.  For a
    writable .json target whose text parses to a document made of objects
    along the dotted parameter path, and a path of plain keys (none that
    [Object.prototype] supplies, none made of digits), the new text of the
    file is the serialization of that document with the suggested value at
    the path. *)
Theorem applyConfigurationChange_effect (fs : FileSystem)
    (suggestion : OptimizationSuggestion) :
  let fs' := applyConfigurationChange fs suggestion in
  let file := sg_configFile suggestion in
  let paramPath := Json.split "."%char (sg_parameter suggestion) in
  backupFiles fs' = backupFiles fs
  /\ backupDirUsable fs' = backupDirUsable fs
  /\ (forall path, path <> file -> files fs' !! path = files fs !! path)
  /\ (forall path, is_Some (files fs' !! path) <-> is_Some (files fs !! path))
  /\ (isVirtual file = true \/ FS.readFile fs file = None
      \/ JS.endsWith file ".json" = false \/ sg_parameter suggestion = "unknown" ->
      fs' = fs)
  /\ (forall content doc doc',
        isVirtual file = false ->
        JS.endsWith file ".json" = true ->
        sg_parameter suggestion <> "unknown" ->
        Forall (fun key => JsonRead.plainKey key = true) paramPath ->
        FS.readFile fs file = Some content ->
        FS.canWrite fs file ->
        JSON_parse content = Some doc ->
        Json.setPath doc paramPath (sg_suggestedValue suggestion) = Some doc' ->
        FS.readFile fs' file = Some (JSON_stringify doc')
        /\ JsonRead.getPath doc' paramPath = Some (sg_suggestedValue suggestion)).
Proof.
  intros fs' file paramPath.
  destruct (applyConfigurationChange_frame fs suggestion) as (Hb & Hd & Hother & Hdom).
  do 4 (split; [assumption|]).
  split.
  - intros Hcase. subst fs'. unfold AutoTuningEngine.applyConfigurationChange.
    fold file.
    destruct (isVirtual file); [reflexivity|].
    destruct Hcase as [H | [H | [H | H]]]; [discriminate H | | |].
    + rewrite H. reflexivity.
    + destruct (FS.readFile fs file); [|reflexivity]. rewrite H. reflexivity.
    + destruct (FS.readFile fs file); [|reflexivity].
      destruct (JS.endsWith file ".json"); [|reflexivity].
      destruct (JSON_parse _); [|reflexivity].
      rewrite H. reflexivity.
  - intros content doc doc' Hvirtual Hjson Hparam _ Hread Hwrite Hdoc Hset.
    split; [|exact (setPath_written _ _ _ _ Hset)].
    subst fs'. unfold AutoTuningEngine.applyConfigurationChange.
    fold file. fold paramPath.
    apply String.eqb_neq in Hparam.
    rewrite Hvirtual, Hread, Hjson, Hdoc, Hparam. cbn [negb]. rewrite Hset.
    destruct (canWrite_writeFile fs file (JSON_stringify doc') Hwrite) as [fs1 Hfs1].
    rewrite Hfs1. exact (proj1 (writeFile_read _ _ _ _ Hfs1)).
Qed.

Lemma createBackup_some (self : t) (fs : FileSystem) (filePath reason : string)
    (env : ApplyEnv) (f : File) :
  files fs !! filePath = Some f -> backupDirUsable fs = true ->
  let backup := {| b_id := env_backupId env; b_timestamp := env_now env;
                   b_configFile := filePath; b_originalContent := f_content f;
                   b_reason := reason |} in
  createBackup self fs filePath reason env
  = Some (setBackups self (backups self ++ [backup]),
          {| files := files fs; backupDirUsable := backupDirUsable fs;
             backupFiles := <[env_backupId env := backup]> (backupFiles fs) |},
          backup).
Proof.
  intros Hf Hdir. unfold createBackup, FS.readFile, FS.writeBackupFile.
  rewrite Hf. cbn [fmap option_fmap option_map]. rewrite Hdir. reflexivity.
Qed.

Lemma createBackup_none (self : t) (fs : FileSystem) (filePath reason : string)
    (env : ApplyEnv) :
  createBackup self fs filePath reason env = None
  <-> files fs !! filePath = None \/ backupDirUsable fs = false.
Proof.
  unfold createBackup, FS.readFile, FS.writeBackupFile.
  destruct (files fs !! filePath) as [f|]; cbn [fmap option_fmap option_map].
  - destruct (backupDirUsable fs); split; intros H; try discriminate H;
      try (destruct H; discriminate); auto.
  - tauto.
Qed.

(** X16. [applySuggestion] fails exactly when the target does not exist or
    the backup directory cannot be used; then no file and no backup is
    written, nothing is scheduled, and no session is left under the drawn
    id.  Otherwise the text the file had is appended to the backup index and
    stored in the backup directory under the drawn backup id, a TESTING
    session for the suggestion is registered under the drawn session id with
    the averages of the five latest snapshots, and one validation task is
    scheduled for the pair. *)
Theorem applySuggestion_outcome (self : t) (fs : FileSystem)
    (suggestion : OptimizationSuggestion) (currentMetrics : list MetricsSnapshot)
    (env : ApplyEnv) :
  let w' := applySuggestion (self, fs) suggestion currentMetrics env in
  let sid := env_sessionId env in
  let bid := env_backupId env in
  (FS.readFile fs (sg_configFile suggestion) = None \/ backupDirUsable fs = false ->
   w'.2 = fs
   /\ backups w'.1 = backups self
   /\ scheduled w'.1 = scheduled self
   /\ completedSessions w'.1 = completedSessions self
   /\ activeSessions w'.1 = delete sid (activeSessions self))
  /\ (forall content,
        FS.readFile fs (sg_configFile suggestion) = Some content ->
        backupDirUsable fs = true ->
        exists backup session,
          backups w'.1 = backups self ++ [backup]
          /\ backupFiles w'.2 = <[bid := backup]> (backupFiles fs)
          /\ b_id backup = bid
          /\ b_configFile backup = sg_configFile suggestion
          /\ b_originalContent backup = content
          /\ activeSessions w'.1 = <[sid := session]> (activeSessions self)
          /\ s_id session = sid
          /\ s_status session = TESTING
          /\ s_suggestionId session = sg_id suggestion
          /\ s_preChangeMetrics session
             = calculateMetricsAverage (JS.lastN 5 currentMetrics)
          /\ scheduled w'.1 = scheduled self ++ [(sid, bid)]
          /\ w'.2 = applyConfigurationChange
                      {| files := files fs; backupDirUsable := backupDirUsable fs;
                         backupFiles := <[bid := backup]> (backupFiles fs) |}
                      suggestion).
Proof.
  intros w' sid bid. split.
  - intros Hfail.
    assert (Hnone : createBackup self fs (sg_configFile suggestion)
                      ("Auto-tuning: " +:+ sg_id suggestion) env = None).
    { apply createBackup_none. destruct Hfail as [Hread | Hdir]; [left | right; exact Hdir].
      unfold FS.readFile in Hread.
      destruct (files fs !! sg_configFile suggestion); [discriminate Hread | reflexivity]. }
    subst w'. unfold AutoTuningEngine.applySuggestion. rewrite Hnone.
    cbn. auto.
  - intros content Hread Hdir.
    unfold FS.readFile in Hread.
    destruct (files fs !! sg_configFile suggestion) as [f|] eqn:Hf; [|discriminate Hread].
    injection Hread as <-.
    subst w'. unfold AutoTuningEngine.applySuggestion.
    rewrite (createBackup_some self fs _ _ env f Hf Hdir). cbv zeta.
    eexists _, _. cbn [fst snd backups activeSessions scheduled scheduleValidation
                        setScheduled setActiveSessions setBackups b_id].
    split; [reflexivity|]. split; [|repeat split; reflexivity].
    match goal with
    | |- backupFiles (applyConfigurationChange ?fs1 _) = _ =>
        exact (proj1 (applyConfigurationChange_frame fs1 suggestion))
    end.
Qed.



Lemma applySuggestion_files (w : World) (suggestion : OptimizationSuggestion)
    (currentMetrics : list MetricsSnapshot) (env : ApplyEnv) :
  let w' := applySuggestion w suggestion currentMetrics env in
  (forall path, path <> sg_configFile suggestion ->
     files w'.2 !! path = files w.2 !! path)
  /\ (forall path, is_Some (files w'.2 !! path) <-> is_Some (files w.2 !! path))
  /\ backupDirUsable w'.2 = backupDirUsable w.2
  /\ backups w.1 `prefix_of` backups w'.1.
Proof.
  destruct w as [self fs]. cbn [fst snd].
  unfold AutoTuningEngine.applySuggestion.
  destruct (createBackup self fs _ _ env) as [[[self1 fs1] backup]|] eqn:Hbackup.
  - apply createBackup_captures in Hbackup as Hcap.
    destruct Hcap as (_ & _ & _ & Hindex & Hfiles).
    assert (Hdir : backupDirUsable fs1 = backupDirUsable fs).
    { unfold createBackup, FS.writeBackupFile in Hbackup.
      destruct (FS.readFile fs _); [|discriminate Hbackup].
      destruct (backupDirUsable fs); [|discriminate Hbackup].
      injection Hbackup as <- <- <-. reflexivity. }
    cbn [fst snd backups scheduleValidation setScheduled setActiveSessions].
    destruct (applyConfigurationChange_frame fs1 suggestion)
      as (_ & Hdir' & Hother & Hdom).
    cbv zeta in Hother, Hdom, Hdir'.
    rewrite Hindex, <- Hfiles, <- Hdir.
    repeat split; try (apply Hdom); try (apply prefix_app_r; reflexivity); auto.
  - cbn. repeat split; auto.
Qed.

Lemma applyAll_files (l : list OptimizationSuggestion) (w : World)
    (currentMetrics : list MetricsSnapshot) (envs : nat -> ApplyEnv) (i : nat) :
  let w' := applyAll w l currentMetrics envs i in
  (forall path, path ∉ map sg_configFile l -> files w'.2 !! path = files w.2 !! path)
  /\ (forall path, is_Some (files w'.2 !! path) <-> is_Some (files w.2 !! path))
  /\ backupDirUsable w'.2 = backupDirUsable w.2
  /\ backups w.1 `prefix_of` backups w'.1.
Proof.
  revert w i. induction l as [|s l IH]; intros w i; cbn [AutoTuningEngine.applyAll].
  - cbn. repeat split; auto.
  - destruct (applySuggestion_files w s currentMetrics (envs i)) as (H1 & H2 & H3 & H4).
    destruct (IH (applySuggestion w s currentMetrics (envs i)) (S i)) as (I1 & I2 & I3 & I4).
    cbv zeta in *. split; [|split; [|split]].
    + intros path Hpath. cbn [map] in Hpath. rewrite not_elem_of_cons in Hpath.
      destruct Hpath as [Hne Hnot]. rewrite I1 by exact Hnot. apply H1. exact Hne.
    + intros path. rewrite I2. apply H2.
    + congruence.
    + etransitivity; eassumption.
Qed.

(** X18. One call of [processSuggestions] leaves every monitored file alone
    that is not the target of a suggestion it admits, and each of those is
    the target of an eligible suggestion that was offered; it creates and
    removes no monitored file, and removes no backup from the index.  A
    disabled engine changes nothing. *)
Theorem processSuggestions_touches_targets_only (w : World)
    (suggestions : list OptimizationSuggestion) (currentMetrics : list MetricsSnapshot)
    (envs : nat -> ApplyEnv) :
  let w' := processSuggestions w suggestions currentMetrics envs in
  let admitted := toProcess w.1 w.2 suggestions in
  (forall path, path ∉ map sg_configFile admitted ->
     files w'.2 !! path = files w.2 !! path)
  /\ (forall s, s ∈ admitted ->
        s ∈ suggestions /\ isFileModifiable w.2 (sg_configFile s) = true)
  /\ (forall path, is_Some (files w'.2 !! path) <-> is_Some (files w.2 !! path))
  /\ backups w.1 `prefix_of` backups w'.1
  /\ (enabled (config w.1) = false -> w' = w).
Proof.
  destruct w as [self fs]. intros w' admitted.
  change (toProcess (self, fs).1 (self, fs).2 suggestions)
    with (toProcess self fs suggestions) in admitted.
  cbn [fst snd].
  assert (Hadmitted : forall s, s ∈ admitted ->
            s ∈ suggestions /\ isFileModifiable fs (sg_configFile s) = true).
  { intros s Hs.
    assert (Hel : s ∈ filterEligibleSuggestions self fs suggestions).
    { destruct (slice0_prefix (filterEligibleSuggestions self fs suggestions)
                  (maxConcurrentChanges (config self)
                   - Z.of_nat (size (activeSessions self)))%Z) as [rest Hrest].
      rewrite Hrest. apply elem_of_app. left. exact Hs. }
    apply filterEligibleSuggestions_elem in Hel. tauto. }
  subst w'. unfold AutoTuningEngine.processSuggestions.
  destruct (enabled (config self)) eqn:Hen; cbn [negb].
  - destruct (length _ =? 0)%nat.
    + split; [reflexivity|]. split; [exact Hadmitted|].
      split; [reflexivity|]. split; [reflexivity | discriminate].
    + destruct (applyAll_files admitted (self, fs) currentMetrics envs 0)
        as (H1 & H2 & _ & H4).
      cbv zeta in *. cbn [fst snd] in *.
      split; [exact H1|]. split; [exact Hadmitted|].
      split; [exact H2|]. split; [exact H4 | discriminate].
  - split; [reflexivity|]. split; [exact Hadmitted|].
    split; [reflexivity|]. split; reflexivity.
Qed.

End ApplyingChanges.

(** ** Auto-Tuning Engine: what holds in every reachable state *)

Section ReachableStates.

Import AutoTuningEngine Scheduler Lifecycle.

Open Scope R_scope.

Variable JSON_parse : string -> option json.
Variable JSON_stringify : json -> string.

#[local] Abbreviation applySuggestion := (applySuggestion JSON_parse JSON_stringify).
#[local] Abbreviation applyAll := (applyAll JSON_parse JSON_stringify).
#[local] Abbreviation processSuggestions := (processSuggestions JSON_parse JSON_stringify).
#[local] Abbreviation exec := (exec JSON_parse JSON_stringify).
#[local] Abbreviation run := (run JSON_parse JSON_stringify).

Lemma run_snoc (w : World) (events : list Event) (ev : Event) :
  run w (events ++ [ev]) = exec (run w events) ev.
Proof. unfold Scheduler.run. rewrite fold_left_app. reflexivity. Qed.

(** An invariant of [exec] that holds at the start holds after every run. *)
Lemma run_invariant (P : World -> Prop) :
  (forall w ev, P w -> P (exec w ev)) ->
  forall events w, P w -> P (run w events).
Proof.
  intros Hstep events. induction events as [|ev events IH]; intros w Hw; [exact Hw|].
  apply IH, Hstep, Hw.
Qed.

Lemma validateAndFinalize_files (self : t) (fs : FileSystem) (sid bid : string)
    (measurement : Measurement) (now : Z) :
  let w' := validateAndFinalize (self, fs) sid bid measurement now in
  scheduled w'.1 = scheduled self
  /\ backups w'.1 = backups self
  /\ (w'.2 = fs \/ w'.2 = restoreFromBackup (backups self) fs bid).
Proof.
  destruct (activeSessions self !! sid) as [session|] eqn:Hs.
  - destruct measurement as [r1 r2 r3|].
    + rewrite (validateAndFinalize_measured self fs sid bid r1 r2 r3 now session Hs).
      cbv zeta. set (v := validatePerformanceChange _ _).
      destruct (v_recommendation v), (isValid v); cbn; auto.
    + unfold validateAndFinalize. rewrite Hs.
      rewrite (rollbackChange_active self fs sid bid _ now session Hs). cbn. auto.
  - unfold validateAndFinalize. rewrite Hs. cbn. auto.
Qed.

(** The entry a validation leaves under the session id, and what it adds to
    the completed list. *)
Lemma validateAndFinalize_session (self : t) (fs : FileSystem) (sid bid : string)
    (measurement : Measurement) (now : Z) (session : AutoTuningSession) :
  activeSessions self !! sid = Some session ->
  let w' := validateAndFinalize (self, fs) sid bid measurement now in
  (activeSessions w'.1 !! sid = None
   /\ exists s', completedSessions w'.1 = completedSessions self ++ [s']
                 /\ finished s'
                 /\ s_id s' = s_id session
                 /\ s_suggestionId s' = s_suggestionId session)
  \/ (completedSessions w'.1 = completedSessions self
      /\ exists s', activeSessions w'.1 !! sid = Some s'
                    /\ s_status s' = ROLLED_BACK
                    /\ s_id s' = s_id session
                    /\ s_suggestionId s' = s_suggestionId session).
Proof.
  intros Hs. destruct measurement as [r1 r2 r3|].
  - left.
    rewrite (validateAndFinalize_measured self fs sid bid r1 r2 r3 now session Hs).
    cbv zeta. set (v := validatePerformanceChange _ _).
    assert (Hkeep : v_recommendation v = keep -> 2 < improvementPercent v).
    { subst v. unfold validatePerformanceChange. cbv zeta. cbn [v_recommendation improvementPercent].
      destruct (_ && JS.gtb _ 2) eqn:Hk; [|discriminate].
      intros _. apply andb_prop in Hk as [_ Hk]. apply gtb_true in Hk. lra. }
    destruct (v_recommendation v) eqn:Hrec, (isValid v);
      cbn [fst activeSessions completedSessions setActiveSessions setCompletedSessions];
      (split; [apply lookup_delete_eq|]);
      eexists; (split; [reflexivity|]);
      unfold finished; cbn; repeat split; eauto.
    left. split; [reflexivity|]. eexists. split; [reflexivity|]. auto.
  - right. unfold validateAndFinalize. rewrite Hs.
    rewrite (rollbackChange_active self fs sid bid _ now session Hs).
    cbn [fst activeSessions completedSessions setActiveSessions].
    split; [reflexivity|]. eexists. rewrite lookup_insert_eq.
    split; [reflexivity|]. cbn. auto.
Qed.

Lemma exec_completed_finished (w : World) (ev : Event) :
  Forall finished (completedSessions w.1) ->
  Forall finished (completedSessions (exec w ev).1).
Proof.
  intros Hw. destruct w as [self fs]. destruct ev as [l m envs|sid bid ms now|now|tree].
  - cbn [Scheduler.exec].
    destruct (processSuggestions_frame JSON_parse JSON_stringify (self, fs) l m envs)
      as (_ & Hc & _).
    cbv zeta in Hc. rewrite Hc. exact Hw.
  - cbn [Scheduler.exec]. destruct (isScheduled _ _); [|exact Hw].
    set (self' := setScheduled self _).
    destruct (activeSessions self' !! sid) as [session|] eqn:Hs.
    + destruct (validateAndFinalize_session self' fs sid bid ms now session Hs)
        as [(_ & s' & Hc & Hfin & _) | (Hc & _)]; cbv zeta in Hc; rewrite Hc.
      * apply Forall_app. split; [exact Hw | constructor; [exact Hfin | constructor]].
      * exact Hw.
    + unfold validateAndFinalize. rewrite Hs. exact Hw.
  - cbn [Scheduler.exec].
    destruct (cleanupOldBackups_frame (self, fs) now) as (_ & _ & Hc).
    cbv zeta in Hc. rewrite Hc. exact Hw.
  - exact Hw.
Qed.

(** X19. In every state the engine reaches from its creation, whatever
    suggestions, validations, cleanups and outside changes of the files
    occur, every record on the completed list is closed (end time and
    measured metrics set) and is either SUCCESSFUL with a measured
    improvement above 2 or ROLLED_BACK with a rollback reason. *)
Theorem completed_sessions_are_finished (cfg : AutoTuningConfig) (fs0 : FileSystem)
    (events : list Event) :
  Forall finished (completedSessions (run (create cfg, fs0) events).1).
Proof.
  apply (run_invariant (fun w => Forall finished (completedSessions w.1))).
  - exact exec_completed_finished.
  - constructor.
Qed.

Lemma fold_improvement_acc (l : list AutoTuningSession) (a : R) :
  fold_left (fun sum s => sum + improvementOrZero s) l a
  = a + fold_left (fun sum s => sum + improvementOrZero s) l 0.
Proof.
  revert a. induction l as [|s l IH]; intros a; cbn [fold_left]; [lra|].
  rewrite (IH (a + _)), (IH (0 + _)). lra.
Qed.

Lemma improvement_sum_bound (l : list AutoTuningSession) :
  Forall (fun s => 2 < improvementOrZero s) l ->
  2 * INR (length l) <= fold_left (fun sum s => sum + improvementOrZero s) l 0
  /\ (l <> [] ->
      2 * INR (length l) < fold_left (fun sum s => sum + improvementOrZero s) l 0).
Proof.
  induction 1 as [|s l Hs _ [IH _]]; [split; [cbn; lra | congruence]|].
  cbn [fold_left]. rewrite fold_improvement_acc.
  change (length (s :: l)) with (S (length l)). rewrite S_INR.
  split; [|intros _]; lra.
Qed.

Lemma finished_counts (l : list AutoTuningSession) :
  Forall finished l ->
  length l
  = (length (List.filter (statusIs SUCCESSFUL) l)
     + length (List.filter (statusIs ROLLED_BACK) l))%nat
  /\ Forall (fun s => 2 < improvementOrZero s) (List.filter (statusIs SUCCESSFUL) l).
Proof.
  induction 1 as [|s l Hs _ [IHn IHf]]; [split; [reflexivity | constructor]|].
  destruct Hs as (_ & _ & [(Hst & x & Hx & Hgt) | (Hst & _)]).
  - assert (H1 : statusIs SUCCESSFUL s = true) by (unfold statusIs; rewrite Hst; reflexivity).
    assert (H2 : statusIs ROLLED_BACK s = false) by (unfold statusIs; rewrite Hst; reflexivity).
    cbn [List.filter]. rewrite H1, H2. cbn [length].
    split; [lia|]. constructor; [|exact IHf].
    unfold improvementOrZero. rewrite Hx. exact Hgt.
  - assert (H1 : statusIs SUCCESSFUL s = false) by (unfold statusIs; rewrite Hst; reflexivity).
    assert (H2 : statusIs ROLLED_BACK s = true) by (unfold statusIs; rewrite Hst; reflexivity).
    cbn [List.filter]. rewrite H1, H2. cbn [length].
    split; [lia | exact IHf].
Qed.

(** X20. In every reachable state [getTuningStats] counts each completed
    session once: the total is the number of successful plus the number of
    rolled-back sessions, the success rate lies between 0 and 100, and the
    average improvement is above 2 as soon as one session succeeded and 0
    otherwise. *)
Theorem reachable_stats (cfg : AutoTuningConfig) (fs0 : FileSystem)
    (events : list Event) :
  exists stats,
    getTuningStats (run (create cfg, fs0) events).1 = Some stats
    /\ totalSessions stats = (successful stats + rolledBack stats)%nat
    /\ 0 <= successRate stats <= 100
    /\ ((0 < successful stats)%nat -> 2 < avgImprovement stats)
    /\ (successful stats = 0%nat -> avgImprovement stats = 0).
Proof.
  assert (Hfin : Forall finished (completedSessions (run (create cfg, fs0) events).1)).
  { apply (run_invariant (fun w => Forall finished (completedSessions w.1))).
    - exact exec_completed_finished.
    - constructor. }
  set (self := (run (create cfg, fs0) events).1) in *.
  destruct (finished_counts _ Hfin) as [Hcount Himp].
  apply improvement_sum_bound in Himp as [_ Himp].
  unfold getTuningStats, getSuccessfulTunings.
  set (total := length (completedSessions self)) in *.
  set (succ := List.filter (statusIs SUCCESSFUL) (completedSessions self)) in *.
  set (nrb := length (List.filter (statusIs ROLLED_BACK) (completedSessions self))) in *.
  set (gain := fold_left _ succ 0) in *.
  assert (Hle : (length succ <= total)%nat) by lia.
  destruct (0 <? length succ)%nat eqn:Hs.
  - apply Nat.ltb_lt in Hs.
    assert (Hs' : 0 < INR (length succ)) by (apply lt_0_INR; exact Hs).
    assert (Ht : (0 < total)%nat) by lia.
    assert (Ht' : 0 < INR total) by (apply lt_0_INR; exact Ht).
    assert (Hle' : INR (length succ) <= INR total) by (apply le_INR; exact Hle).
    rewrite (divide_by_count gain (length succ)) by (apply Nat.ltb_lt; exact Hs).
    cbn [mbind option_bind].
    apply Nat.ltb_lt in Ht as Htb. rewrite Htb.
    rewrite (divide_by_count _ total) by exact Htb.
    cbn [fmap option_fmap option_map mbind option_bind].
    eexists. split; [reflexivity|].
    cbn [totalSessions successful rolledBack successRate avgImprovement].
    split; [exact Hcount|]. split; [|split].
    + split.
      * apply Rmult_le_pos; [|lra]. apply Rmult_le_pos; [lra|].
        apply Rlt_le, Rinv_0_lt_compat. exact Ht'.
      * assert (INR (length succ) / INR total <= 1); [|lra].
        apply (Rmult_le_reg_r (INR total)); [exact Ht'|].
        unfold Rdiv. rewrite Rmult_assoc, Rinv_l by lra. lra.
    + intros _.
      apply (Rmult_lt_reg_r (INR (length succ))); [exact Hs'|].
      unfold Rdiv. rewrite Rmult_assoc, Rinv_l by lra.
      rewrite Rmult_1_r.
      apply Himp. intros Hnil. rewrite Hnil in Hs. cbn in Hs. lia.
    + intros H0. lia.
  - apply Nat.ltb_ge in Hs. assert (Hz : length succ = 0%nat) by lia.
    cbn [mbind option_bind].
    destruct (0 <? total)%nat eqn:Ht.
    + rewrite (divide_by_count _ total) by exact Ht.
      cbn [fmap option_fmap option_map mbind option_bind].
      eexists. split; [reflexivity|].
      cbn [totalSessions successful rolledBack successRate avgImprovement].
      rewrite Hz. cbn [INR]. split; [lia|].
      split; [unfold Rdiv; rewrite Rmult_0_l; lra|]. split; [lia | reflexivity].
    + cbn [fmap option_fmap option_map mbind option_bind].
      eexists. split; [reflexivity|].
      cbn [totalSessions successful rolledBack successRate avgImprovement].
      split; [lia|]. split; [lra|]. split; [lia | reflexivity].
Qed.

End ReachableStates.

(** ** Auto-Tuning Engine: sessions and their validation tasks *)

Section Supervision.

Import AutoTuningEngine Scheduler Lifecycle.

Variable JSON_parse : string -> option json.
Variable JSON_stringify : json -> string.

#[local] Abbreviation applySuggestion := (applySuggestion JSON_parse JSON_stringify).
#[local] Abbreviation applyAll := (applyAll JSON_parse JSON_stringify).
#[local] Abbreviation processSuggestions := (processSuggestions JSON_parse JSON_stringify).
#[local] Abbreviation exec := (exec JSON_parse JSON_stringify).
#[local] Abbreviation run := (run JSON_parse JSON_stringify).

(** What [applySuggestion] does to the active map and the task list. *)
Lemma applySuggestion_registers (w : World) (suggestion : OptimizationSuggestion)
    (currentMetrics : list MetricsSnapshot) (env : ApplyEnv) :
  let w' := applySuggestion w suggestion currentMetrics env in
  let sid := env_sessionId env in
  (activeSessions w'.1 = delete sid (activeSessions w.1)
   /\ scheduled w'.1 = scheduled w.1)
  \/ (exists session,
        activeSessions w'.1 = <[sid := session]> (activeSessions w.1)
        /\ s_id session = sid
        /\ s_status session = TESTING
        /\ s_suggestionId session = sg_id suggestion
        /\ scheduled w'.1 = scheduled w.1 ++ [(sid, env_backupId env)]).
Proof.
  destruct w as [self fs]. cbn [fst].
  unfold AutoTuningEngine.applySuggestion.
  destruct (createBackup self fs _ _ env) as [[[self1 fs1] backup]|] eqn:Hbackup.
  - right.
    assert (Hself1 : self1 = setBackups self (backups self ++ [backup])
                     /\ b_id backup = env_backupId env).
    { unfold createBackup in Hbackup.
      destruct (FS.readFile fs _); [|discriminate Hbackup].
      destruct (FS.writeBackupFile fs _); [|discriminate Hbackup].
      injection Hbackup as <- <- <-. split; reflexivity. }
    destruct Hself1 as [-> Hbid].
    eexists. cbn [fst activeSessions scheduled scheduleValidation setScheduled
                  setActiveSessions setBackups].
    rewrite Hbid. repeat split; reflexivity.
  - left. cbn. auto.
Qed.

Lemma applySuggestion_supervised (w : World) (suggestion : OptimizationSuggestion)
    (currentMetrics : list MetricsSnapshot) (env : ApplyEnv) :
  supervised w.1 -> supervised (applySuggestion w suggestion currentMetrics env).1.
Proof.
  intros Hw sid s.
  destruct (applySuggestion_registers w suggestion currentMetrics env)
    as [[Ha Hsch] | (session & Ha & Hid & _ & _ & Hsch)];
    cbv zeta in Ha, Hsch; rewrite Ha, Hsch.
  - intros Hs. apply lookup_delete_Some in Hs as [_ Hs]. exact (Hw sid s Hs).
  - intros Hs. apply lookup_insert_Some in Hs as [[<- <-] | [_ Hs]].
    + split; [exact Hid|]. intros _. eexists. apply elem_of_app. right.
      apply list_elem_of_singleton. reflexivity.
    + destruct (Hw sid s Hs) as [Hkey Htask]. split; [exact Hkey|].
      intros Ht. destruct (Htask Ht) as [bid Hbid]. exists bid.
      apply elem_of_app. left. exact Hbid.
Qed.

Lemma applyAll_supervised (l : list OptimizationSuggestion) (w : World)
    (currentMetrics : list MetricsSnapshot) (envs : nat -> ApplyEnv) (i : nat) :
  supervised w.1 -> supervised (applyAll w l currentMetrics envs i).1.
Proof.
  revert w i. induction l as [|s l IH]; intros w i Hw; [exact Hw|].
  cbn [AutoTuningEngine.applyAll]. apply IH, applySuggestion_supervised, Hw.
Qed.

Lemma elem_of_removeTask (task other : string * string) (tasks : list (string * string)) :
  (other ∈ removeTask task tasks -> other ∈ tasks)
  /\ (other <> task -> other ∈ tasks -> other ∈ removeTask task tasks).
Proof.
  clear JSON_parse JSON_stringify.
  induction tasks as [|task' tasks [IH1 IH2]]; cbn [removeTask]; [tauto|].
  destruct (decide (task' = task)) as [->|Hne].
  - split; [intros H; apply elem_of_cons; auto|].
    intros Hne H. apply elem_of_cons in H as [H | H]; [congruence | exact H].
  - rewrite !elem_of_cons. split; [tauto|]. intros Ho [H | H]; auto.
Qed.

Lemma validateAndFinalize_scheduled (w : World) (sid bid : string)
    (measurement : Measurement) (now : Z) :
  scheduled (validateAndFinalize w sid bid measurement now).1 = scheduled w.1.
Proof.
  destruct w as [self fs]. cbn [fst].
  destruct (activeSessions self !! sid) as [session|] eqn:Hs.
  - destruct measurement as [r1 r2 r3|].
    + rewrite (validateAndFinalize_measured self fs sid bid r1 r2 r3 now session Hs).
      cbv zeta. set (v := validatePerformanceChange _ _).
      destruct (v_recommendation v), (isValid v); reflexivity.
    + unfold validateAndFinalize. rewrite Hs.
      rewrite (rollbackChange_active self fs sid bid _ now session Hs). reflexivity.
  - unfold validateAndFinalize. rewrite Hs. reflexivity.
Qed.

(** The entry a validation leaves under the session id is never under
    test. *)
Lemma validateAndFinalize_settles (w : World) (sid bid : string)
    (measurement : Measurement) (now : Z) (s' : AutoTuningSession) :
  (forall s, activeSessions w.1 !! sid = Some s -> s_id s = sid) ->
  activeSessions (validateAndFinalize w sid bid measurement now).1 !! sid = Some s' ->
  s_id s' = sid /\ s_status s' = ROLLED_BACK.
Proof.
  destruct w as [self fs]. cbn [fst]. intros Hkey.
  destruct (activeSessions self !! sid) as [session|] eqn:Hs.
  - specialize (Hkey session eq_refl).
    destruct measurement as [r1 r2 r3|].
    + rewrite (validateAndFinalize_measured self fs sid bid r1 r2 r3 now session Hs).
      cbv zeta. set (v := validatePerformanceChange _ _).
      destruct (v_recommendation v), (isValid v);
        cbn [fst activeSessions setActiveSessions];
        rewrite lookup_delete_eq; discriminate.
    + unfold validateAndFinalize. rewrite Hs.
      rewrite (rollbackChange_active self fs sid bid _ now session Hs).
      cbn [fst activeSessions setActiveSessions]. rewrite lookup_insert_eq.
      intros [= <-]. cbn. auto.
  - unfold validateAndFinalize. rewrite Hs. cbn [fst]. rewrite Hs. discriminate.
Qed.

Lemma exec_supervised (w : World) (ev : Event) :
  supervised w.1 -> supervised (exec w ev).1.
Proof.
  intros Hw. destruct w as [self fs]. cbn [fst] in Hw.
  destruct ev as [l m envs|sid bid ms now|now|tree].
  - cbn [Scheduler.exec]. unfold AutoTuningEngine.processSuggestions.
    destruct (negb _); [exact Hw|]. destruct (_ =? 0)%nat; [exact Hw|].
    apply applyAll_supervised. exact Hw.
  - cbn [Scheduler.exec]. destruct (isScheduled _ _); [|exact Hw].
    set (self' := setScheduled self (removeTask (sid, bid) (scheduled self))).
    intros sid' s' Hs'.
    rewrite validateAndFinalize_scheduled. cbn [fst scheduled self' setScheduled].
    destruct (decide (sid' = sid)) as [->|Hne].
    + apply validateAndFinalize_settles in Hs' as [Hid Hst].
      * split; [exact Hid|]. rewrite Hst. discriminate.
      * intros s Hs. exact (proj1 (Hw sid s Hs)).
    + destruct (validateAndFinalize_frame (self', fs) sid bid ms now)
        as (_ & Hother & _).
      cbv zeta in Hother. rewrite (Hother sid' Hne) in Hs'.
      destruct (Hw sid' s' Hs') as [Hkey Htask]. split; [exact Hkey|].
      intros Ht. destruct (Htask Ht) as [bid' Hbid']. exists bid'.
      apply elem_of_removeTask; [congruence | exact Hbid'].
  - exact Hw.
  - exact Hw.
Qed.

(** X21. In every state the engine reaches from its creation, each session
    of the active map is filed under its own id, and for each session under
    test a validation task is pending: no session is left TESTING without a
    validation to come. *)
Theorem testing_sessions_are_scheduled (cfg : AutoTuningConfig) (fs0 : FileSystem)
    (events : list Event) (sid : string) (s : AutoTuningSession) :
  let self := (run (create cfg, fs0) events).1 in
  activeSessions self !! sid = Some s ->
  s_id s = sid
  /\ (s_status s = TESTING -> exists bid, (sid, bid) ∈ scheduled self).
Proof.
  intros self.
  assert (Hsup : supervised self).
  { subst self. revert events. intros events.
    assert (Hinv : forall evs w, supervised w.1 -> supervised (run w evs).1).
    { intros evs. induction evs as [|ev evs IH]; intros w Hw; [exact Hw|].
      apply IH, exec_supervised, Hw. }
    apply Hinv. intros sid' s'. cbn. rewrite lookup_empty. discriminate. }
  apply Hsup.
Qed.

Lemma applyAll_scheduled (l : list OptimizationSuggestion) (w : World)
    (currentMetrics : list MetricsSnapshot) (envs : nat -> ApplyEnv) (i : nat)
    (task : string * string) :
  task ∈ scheduled (applyAll w l currentMetrics envs i).1 ->
  task ∈ scheduled w.1 \/ exists j, env_sessionId (envs j) = task.1.
Proof.
  revert w i. induction l as [|s l IH]; intros w i; cbn [AutoTuningEngine.applyAll];
    [auto|].
  intros Ht. apply IH in Ht as [Ht | Ht]; [|auto].
  destruct (applySuggestion_registers w s currentMetrics (envs i))
    as [[_ Hsch] | (session & _ & _ & _ & _ & Hsch)];
    cbv zeta in Hsch; rewrite Hsch in Ht; [auto|].
  apply elem_of_app in Ht as [Ht | Ht]; [auto|].
  apply list_elem_of_singleton in Ht. subst task. right. exists i. reflexivity.
Qed.

Lemma exec_orphan (sid : string) (s : AutoTuningSession) (w : World) (ev : Event) :
  ~ drawsSessionId sid ev ->
  activeSessions w.1 !! sid = Some s /\ (forall bid, (sid, bid) ∉ scheduled w.1) ->
  activeSessions (exec w ev).1 !! sid = Some s
  /\ (forall bid, (sid, bid) ∉ scheduled (exec w ev).1).
Proof.
  intros Hdraw [Hs Hnone]. destruct w as [self fs]. cbn [fst] in Hs, Hnone.
  destruct ev as [l m envs|sid' bid' ms now|now|tree].
  - cbn [Scheduler.exec]. cbn [drawsSessionId] in Hdraw.
    assert (Hfresh : forall j, env_sessionId (envs j) <> sid).
    { intros j Hj. apply Hdraw. exists j. exact Hj. }
    split.
    + destruct (processSuggestions_frame JSON_parse JSON_stringify (self, fs) l m envs)
        as (_ & _ & Hother & _).
      cbv zeta in Hother. rewrite (Hother sid Hfresh). exact Hs.
    + intros bid Hin. unfold AutoTuningEngine.processSuggestions in Hin.
      destruct (negb _); [exact (Hnone bid Hin)|].
      destruct (_ =? 0)%nat; [exact (Hnone bid Hin)|].
      apply applyAll_scheduled in Hin as [Hin | [j Hj]];
        [exact (Hnone bid Hin) | exact (Hfresh j Hj)].
  - cbn [Scheduler.exec].
    destruct (isScheduled (sid', bid') (scheduled self)) eqn:Hsch; [|auto].
    assert (Hne : sid <> sid').
    { intros <-. unfold isScheduled in Hsch. apply bool_decide_eq_true in Hsch.
      exact (Hnone bid' Hsch). }
    set (self' := setScheduled self (removeTask (sid', bid') (scheduled self))).
    split.
    + destruct (validateAndFinalize_frame (self', fs) sid' bid' ms now)
        as (_ & Hother & _).
      cbv zeta in Hother. rewrite (Hother sid Hne). exact Hs.
    + intros bid Hin. rewrite validateAndFinalize_scheduled in Hin.
      cbn [fst scheduled self' setScheduled] in Hin.
      apply elem_of_removeTask in Hin. exact (Hnone bid Hin).
  - cbn [Scheduler.exec]. auto.
  - cbn [Scheduler.exec]. auto.
Qed.

(** A validation that raises an exception consumes its task and leaves the
    session in the active map: with no other task for the session, nothing
    is pending for it afterwards. *)
Lemma exception_strands_session (self : t) (fs : FileSystem) (sid bid : string)
    (now : Z) (session : AutoTuningSession) :
  activeSessions self !! sid = Some session ->
  (forall bid', (sid, bid') ∈ scheduled self -> bid' = bid) ->
  NoDup (scheduled self) ->
  (sid, bid) ∈ scheduled self ->
  let w' := exec (self, fs) (ValidationDue sid bid MeasurementThrows now) in
  activeSessions w'.1 !! sid = Some (markRolledBack session "Validation error" now)
  /\ forall bid', (sid, bid') ∉ scheduled w'.1.
Proof.
  intros Hs Honly Hnodup Htask. cbn [Scheduler.exec].
  unfold isScheduled. rewrite bool_decide_eq_true_2 by exact Htask.
  unfold validateAndFinalize. cbn [activeSessions setScheduled]. rewrite Hs.
  set (self' := setScheduled self _).
  rewrite (rollbackChange_active self' fs sid bid _ now session Hs).
  cbn [fst activeSessions scheduled setActiveSessions self' setScheduled].
  split; [apply lookup_insert_eq|].
  intros bid' Hin.
  assert (Hgone : (sid, bid) ∉ removeTask (sid, bid) (scheduled self)).
  { clear - Hnodup. induction (scheduled self) as [|task tasks IH]; cbn [removeTask].
    - apply not_elem_of_nil.
    - apply NoDup_cons in Hnodup as [Hnot Hnd].
      destruct (decide (task = (sid, bid))) as [->|Hne]; [exact Hnot|].
      rewrite not_elem_of_cons. split; [congruence | exact (IH Hnd)]. }
  assert (Hin' := Hin). apply elem_of_removeTask in Hin'.
  rewrite (Honly bid' Hin') in Hin. exact (Hgone Hin).
Qed.

(** X22. A session of the active map for which no validation task is
    pending stays there for good: whatever happens later, as long as its id
    is not drawn again, its entry is never changed, completed or removed,
    and it keeps occupying one of the concurrent slots.  This is the state
    [exception_strands_session] describes. *)
Theorem unscheduled_session_stays (sid : string) (s : AutoTuningSession)
    (w : World) (events : list Event) :
  activeSessions w.1 !! sid = Some s ->
  (forall bid, (sid, bid) ∉ scheduled w.1) ->
  Forall (fun ev => ~ drawsSessionId sid ev) events ->
  let w' := run w events in
  activeSessions w'.1 !! sid = Some s
  /\ (forall bid, (sid, bid) ∉ scheduled w'.1)
  /\ (1 <= size (activeSessions w'.1))%nat.
Proof.
  intros Hs Hnone Hevents.
  assert (Hinv : activeSessions (run w events).1 !! sid = Some s
                 /\ (forall bid, (sid, bid) ∉ scheduled (run w events).1)).
  { revert w Hs Hnone. induction Hevents as [|ev events Hev _ IH]; intros w Hs Hnone;
      [cbn; auto|].
    destruct (exec_orphan sid s w ev Hev (conj Hs Hnone)) as [Hs' Hnone'].
    exact (IH (exec w ev) Hs' Hnone'). }
  destruct Hinv as [Hs' Hnone']. cbv zeta.
  split; [exact Hs'|]. split; [exact Hnone'|].
  destruct (decide (size (activeSessions (run w events).1) = 0%nat)) as [Hz|Hz]; [|lia].
  apply map_size_empty_inv in Hz. rewrite Hz, lookup_empty in Hs'. discriminate Hs'.
Qed.

End Supervision.

(** ** Auto-Tuning Engine: the metrics of a session *)

Section SessionMetrics.

Import AutoTuningEngine.

Open Scope R_scope.

Lemma sum_ge_bound (l : list R) (m : R) :
  Forall (fun y => m <= y) l -> INR (length l) * m <= JS.sum l.
Proof.
  induction 1 as [|y l Hy _ IH].
  - unfold JS.sum. cbn. lra.
  - rewrite sum_cons. change (length (y :: l)) with (S (length l)).
    rewrite S_INR. lra.
Qed.

(** X23. [calculateMetricsAverage] of no snapshot is (0, 0, stability 1).
    Of snapshots none of whose CPU and memory readings is negative, the two
    averages are not negative and the stability lies between 0 and 1. *)
Theorem calculateMetricsAverage_range (snapshots : list MetricsSnapshot) :
  calculateMetricsAverage [] = {| avgCpu := 0; avgMemory := 0; stability := 1 |}
  /\ ((forall s, s ∈ snapshots ->
         0 <= ms_cpu_usage s /\ 0 <= ms_memory_percentage s) ->
      let summary := calculateMetricsAverage snapshots in
      0 <= avgCpu summary
      /\ 0 <= avgMemory summary
      /\ 0 <= stability summary <= 1).
Proof.
  split; [reflexivity|].
  intros Hall summary.
  assert (Hsum : forall reading : MetricsSnapshot -> R,
            (forall s, s ∈ snapshots -> 0 <= reading s) ->
            0 <= JS.sum (map reading snapshots)).
  { intros reading Hr.
    pose proof (sum_ge_bound (map reading snapshots) 0) as H.
    rewrite Rmult_0_r in H. apply H.
    apply Forall_forall. intros y Hy. apply list_elem_of_fmap in Hy as (s & -> & Hs).
    exact (Hr s Hs). }
  assert (Hcpu : 0 <= JS.sum (map ms_cpu_usage snapshots)).
  { apply Hsum. intros s Hs. exact (proj1 (Hall s Hs)). }
  assert (Hmem : 0 <= JS.sum (map ms_memory_percentage snapshots)).
  { apply Hsum. intros s Hs. exact (proj2 (Hall s Hs)). }
  subst summary. unfold calculateMetricsAverage.
  destruct (length snapshots =? 0)%nat eqn:Hlen; cbn [avgCpu avgMemory stability];
    [lra|].
  apply Nat.eqb_neq in Hlen.
  assert (Hn : 0 < INR (length snapshots)).
  { apply INR_length_pos. lia. }
  assert (Hinv : 0 < / INR (length snapshots)) by (apply Rinv_0_lt_compat; exact Hn).
  split; [unfold Rdiv; apply Rmult_le_pos; lra|].
  split; [unfold Rdiv; apply Rmult_le_pos; lra|].
  split; [apply engine_stability_nonneg | apply engine_stability_le_1; exact Hcpu].
Qed.

(** X24. With the built-in measurement ([simulatePostChangeMetrics], three
    draws in [0, 1)) and pre-change metrics that are not negative with a
    stability of at most 1, the CPU and the stability issue are never
    raised: the only issue a validation can report is the memory one, and it
    does so exactly when the memory average is positive and the second draw
    exceeds 5/6.  The rollback reason is then that message or the empty
    string. *)
Theorem simulated_validation_issues (before : MetricsSummary) (r1 r2 r3 : R) :
  0 <= r1 < 1 -> 0 <= r2 < 1 -> 0 <= r3 < 1 ->
  0 <= avgCpu before -> 0 <= avgMemory before -> 0 <= stability before <= 1 ->
  let after := simulatePostChangeMetrics before r1 r2 r3 in
  let v := validatePerformanceChange before after in
  (issues v = ["Memory usage increased significantly"]
   /\ JS.join "; " (issues v) = "Memory usage increased significantly"
   /\ 0 < avgMemory before /\ 5 / 6 < r2)
  \/ (issues v = []
      /\ JS.join "; " (issues v) = ""
      /\ (avgMemory before = 0 \/ r2 <= 5 / 6)).
Proof.
  intros H1 H2 H3 Hcpu Hmem Hst after v.
  subst v after.
  unfold validatePerformanceChange, simulatePostChangeMetrics. cbv zeta.
  cbn [avgCpu avgMemory stability issues].
  set (cpu := avgCpu before) in *. set (mem := avgMemory before) in *.
  set (st := stability before) in *.
  assert (Hc : JS.gtb (Rmax 0 (cpu * (9 / 10 + r1 * (2 / 10)))) (cpu * (11 / 10)) = false).
  { apply gtb_false. apply Rmax_lub; nra. }
  assert (Hs : JS.ltb (Rmin 1 (st * (1 + r3 * (1 / 10)))) (st * (9 / 10)) = false).
  { apply ltb_false. apply Rmin_glb; nra. }
  rewrite Hc, Hs. cbn [app].
  destruct (JS.gtb (Rmax 0 (mem * (85 / 100 + r2 * (3 / 10)))) (mem * (11 / 10))) eqn:Hm.
  - left. cbn [app JS.join]. split; [reflexivity|]. split; [reflexivity|].
    apply gtb_true in Hm.
    assert (Hmax : Rmax 0 (mem * (85 / 100 + r2 * (3 / 10)))
                   = mem * (85 / 100 + r2 * (3 / 10))).
    { apply Rmax_right. nra. }
    rewrite Hmax in Hm.
    assert (Hpos : 0 < mem).
    { destruct (Rle_lt_or_eq_dec _ _ Hmem) as [Hlt | Heq]; [exact Hlt|].
      rewrite <- Heq in Hm. lra. }
    split; [exact Hpos|]. nra.
  - right. cbn [JS.join]. split; [reflexivity|]. split; [reflexivity|].
    apply gtb_false in Hm.
    assert (Hmax : Rmax 0 (mem * (85 / 100 + r2 * (3 / 10)))
                   = mem * (85 / 100 + r2 * (3 / 10))).
    { apply Rmax_right. nra. }
    rewrite Hmax in Hm.
    destruct (Rle_lt_or_eq_dec _ _ Hmem) as [Hlt | Heq]; [right; nra | left; auto].
Qed.

End SessionMetrics.

(** ** Auto-Tuning Engine: purging old backups *)

Section Backups.

Import AutoTuningEngine.

Lemma removeBackupFiles_fold (l : list ConfigBackup) (fs : FileSystem) :
  let fs' := fold_left (fun fs b => FS.removeBackupFile fs (b_id b)) l fs in
  files fs' = files fs
  /\ backupDirUsable fs' = backupDirUsable fs
  /\ (forall id, id ∈ map b_id l -> backupFiles fs' !! id = None)
  /\ (forall id, id ∉ map b_id l -> backupFiles fs' !! id = backupFiles fs !! id).
Proof.
  revert fs. induction l as [|b l IH]; intros fs; cbn [fold_left map].
  - split; [reflexivity|]. split; [reflexivity|].
    split; [intros id Hid; apply elem_of_nil in Hid; contradiction | reflexivity].
  - destruct (IH (FS.removeBackupFile fs (b_id b))) as (Hf & Hd & Hin & Hout).
    cbv zeta in *. cbn [FS.removeBackupFile files backupDirUsable backupFiles] in *.
    split; [exact Hf|]. split; [exact Hd|]. split.
    + intros id Hid. destruct (decide (id ∈ map b_id l)) as [Hl|Hl]; [exact (Hin id Hl)|].
      rewrite (Hout id Hl).
      apply elem_of_cons in Hid as [-> | Hid]; [apply lookup_delete_eq | contradiction].
    + intros id Hid. rewrite not_elem_of_cons in Hid. destruct Hid as [Hne Hl].
      rewrite (Hout id Hl). apply lookup_delete_ne. congruence.
Qed.

Lemma filter_filter_none {A} (f g : A -> bool) (l : list A) :
  (forall x, g x = true -> f x = false) -> List.filter f (List.filter g l) = [].
Proof.
  intros Hfg. induction l as [|x l IH]; [reflexivity|].
  cbn [List.filter]. destruct (g x) eqn:Hg; [|exact IH].
  cbn [List.filter]. rewrite (Hfg x Hg). exact IH.
Qed.

Lemma filter_filter_same {A} (g : A -> bool) (l : list A) :
  List.filter g (List.filter g l) = List.filter g l.
Proof.
  induction l as [|x l IH]; [reflexivity|].
  cbn [List.filter]. destruct (g x) eqn:Hg; [|exact IH].
  cbn [List.filter]. rewrite Hg, IH. reflexivity.
Qed.

(** X25. [cleanupOldBackups] keeps, in order, exactly the backups of the
    index that are not older than the retention period, and removes from the
    backup directory the record of every id carried by a backup it drops
    (a kept backup that shares its id with a dropped one loses its record
    too); every other record and every monitored file is left alone, and a
    second cleanup at the same time changes nothing more. *)
Theorem cleanupOldBackups_purges (w : World) (now : Z) :
  let cutoff := (now - backupRetention (config w.1) * 24 * 60 * 60 * 1000)%Z in
  let w' := cleanupOldBackups w now in
  files w'.2 = files w.2
  /\ backups w'.1 `sublist_of` backups w.1
  /\ (forall b, b ∈ backups w'.1 <-> b ∈ backups w.1 /\ (cutoff <= b_timestamp b)%Z)
  /\ (forall b, b ∈ backups w.1 -> (b_timestamp b < cutoff)%Z ->
        backupFiles w'.2 !! b_id b = None)
  /\ (forall id,
        (forall b, b ∈ backups w.1 -> (b_timestamp b < cutoff)%Z -> b_id b <> id) ->
        backupFiles w'.2 !! id = backupFiles w.2 !! id)
  /\ cleanupOldBackups w' now = w'.
Proof.
  destruct w as [self fs]. intros cutoff w'. cbn [fst snd] in cutoff.
  subst w'. unfold cleanupOldBackups. fold cutoff.
  set (old := List.filter (fun b => (b_timestamp b <? cutoff)%Z) (backups self)).
  destruct (removeBackupFiles_fold old fs) as (Hf & Hd & Hin & Hout).
  cbv zeta in Hf, Hd, Hin, Hout.
  cbn [fst snd backups setBackups config].
  split; [exact Hf|]. split; [apply filter_sublist|]. split; [|split; [|split]].
  - intros b. rewrite !list_elem_of_In, filter_In, Z.geb_le. reflexivity.
  - intros b Hb Hold. apply Hin. apply list_elem_of_fmap. exists b. split; [reflexivity|].
    subst old. apply list_elem_of_In, filter_In. split; [apply list_elem_of_In, Hb|].
    apply Z.ltb_lt. exact Hold.
  - intros id Hid. apply Hout. intros Hmem.
    apply list_elem_of_fmap in Hmem as (b & -> & Hb).
    subst old. apply list_elem_of_In, filter_In in Hb as [Hb Hold].
    apply list_elem_of_In in Hb. apply Z.ltb_lt in Hold. exact (Hid b Hb Hold eq_refl).
  - fold cutoff.
    rewrite (filter_filter_none (fun b => (b_timestamp b <? cutoff)%Z)
               (fun b => (b_timestamp b >=? cutoff)%Z)).
    + rewrite filter_filter_same. reflexivity.
    + intros b Hb. apply Z.geb_le in Hb. apply Z.ltb_ge. exact Hb.
Qed.

End Backups.

(** ** The auto-tuning tick *)

Section Tick.

Import AutoTuningEngine ConfigFlow.

Variable JSON_parse : string -> option json.
Variable JSON_stringify : json -> string.

#[local] Abbreviation processSuggestions := (processSuggestions JSON_parse JSON_stringify).
#[local] Abbreviation autoTuningTick := (autoTuningTick JSON_parse JSON_stringify).

(** [hasBeenProcessed], in terms of the two stores of the engine. *)
Lemma hasBeenProcessed_true (self : t) (suggestionId : string) :
  hasBeenProcessed self suggestionId = true
  <-> (exists sid s, activeSessions self !! sid = Some s
                     /\ s_suggestionId s = suggestionId)
      \/ (exists s, s ∈ completedSessions self /\ s_suggestionId s = suggestionId).
Proof.
  unfold hasBeenProcessed, getActiveSessions, getCompletedSessions. cbv zeta.
  rewrite existsb_exists. split.
  - intros (s & Hin & Heq). apply String.eqb_eq in Heq.
    apply list_elem_of_In, elem_of_app in Hin as [Hin | Hin].
    + left. apply list_elem_of_fmap in Hin as ([sid s'] & -> & Hin).
      apply elem_of_map_to_list in Hin. exists sid, s'. auto.
    + right. exists s. auto.
  - intros [(sid & s & Hs & Heq) | (s & Hs & Heq)]; exists s;
      (split; [|apply String.eqb_eq; exact Heq]);
      apply list_elem_of_In, elem_of_app; [left | right; exact Hs].
    apply list_elem_of_fmap. exists (sid, s). split; [reflexivity|].
    apply elem_of_map_to_list. exact Hs.
Qed.

Lemma processSuggestions_nil (w : World) (currentMetrics : list MetricsSnapshot)
    (envs : nat -> ApplyEnv) :
  processSuggestions w [] currentMetrics envs = w.
Proof.
  destruct w as [self fs]. unfold AutoTuningEngine.processSuggestions.
  destruct (negb _); reflexivity.
Qed.

(** X26. The tick hands to [processSuggestions] exactly the suggestions
    whose id no active or completed session carries; a suggestion that has a
    session, whatever became of it, is never admitted again, and when every
    suggestion has one the tick changes nothing. *)
Theorem autoTuningTick_skips_processed (w : World)
    (suggestions : list OptimizationSuggestion) (recentMetrics : list MetricsSnapshot)
    (envs : nat -> ApplyEnv) :
  let fresh := List.filter (fun s => negb (hasBeenProcessed w.1 (sg_id s))) suggestions in
  autoTuningTick w suggestions recentMetrics envs
  = processSuggestions w fresh recentMetrics envs
  /\ (forall s, s ∈ toProcess w.1 w.2 fresh ->
        s ∈ suggestions
        /\ (forall sid session, activeSessions w.1 !! sid = Some session ->
              s_suggestionId session <> sg_id s)
        /\ (forall session, session ∈ completedSessions w.1 ->
              s_suggestionId session <> sg_id s))
  /\ ((forall s, s ∈ suggestions -> hasBeenProcessed w.1 (sg_id s) = true) ->
      autoTuningTick w suggestions recentMetrics envs = w).
Proof.
  intros fresh.
  assert (Htick : autoTuningTick w suggestions recentMetrics envs
                  = processSuggestions w fresh recentMetrics envs).
  { unfold ConfigFlow.autoTuningTick. fold fresh.
    destruct fresh as [|s rest]; [|reflexivity].
    cbn [length Nat.ltb Nat.leb]. rewrite processSuggestions_nil. reflexivity. }
  split; [exact Htick|]. split.
  - intros s Hs.
    assert (Hfresh : s ∈ fresh).
    { destruct (slice0_prefix (filterEligibleSuggestions w.1 w.2 fresh)
                  (maxConcurrentChanges (config w.1)
                   - Z.of_nat (size (activeSessions w.1)))%Z) as [rest Hrest].
      assert (Hel : s ∈ filterEligibleSuggestions w.1 w.2 fresh).
      { rewrite Hrest. apply elem_of_app. left. exact Hs. }
      apply filterEligibleSuggestions_elem in Hel. tauto. }
    subst fresh. apply list_elem_of_In, filter_In in Hfresh as [Hin Hnew].
    apply list_elem_of_In in Hin. apply negb_true_iff in Hnew.
    split; [exact Hin|]. split.
    + intros sid session Hsess Heq.
      assert (Hp : hasBeenProcessed w.1 (sg_id s) = true).
      { apply hasBeenProcessed_true. left. eauto. }
      congruence.
    + intros session Hsess Heq.
      assert (Hp : hasBeenProcessed w.1 (sg_id s) = true).
      { apply hasBeenProcessed_true. right. eauto. }
      congruence.
  - intros Hall. rewrite Htick.
    assert (Hnil : fresh = []).
    { subst fresh. clear Htick. induction suggestions as [|s l IH]; [reflexivity|].
      cbn [List.filter]. rewrite (Hall s) by (apply elem_of_cons; auto). cbn [negb].
      apply IH. intros s' Hs'. apply Hall. apply elem_of_cons. auto. }
    rewrite Hnil. apply processSuggestions_nil.
Qed.

(** X27. A validation never makes a suggestion new again: the suggestion of
    the validated session still counts as processed afterwards, whether the
    session succeeded, was rolled back or stayed in the active map after an
    exception, and so does every other suggestion that counted before.  A
    rolled-back suggestion is therefore not retried by the tick. *)
Theorem validation_keeps_processed (self : t) (fs : FileSystem) (sid bid : string)
    (measurement : Measurement) (now : Z) (suggestionId : string) :
  hasBeenProcessed self suggestionId = true ->
  hasBeenProcessed (validateAndFinalize (self, fs) sid bid measurement now).1
    suggestionId = true.
Proof.
  intros Hp. apply hasBeenProcessed_true in Hp. apply hasBeenProcessed_true.
  destruct (activeSessions self !! sid) as [session|] eqn:Hs.
  - assert (Hcases :
      let w' := validateAndFinalize (self, fs) sid bid measurement now in
      exists s', s_suggestionId s' = s_suggestionId session
                 /\ (activeSessions w'.1 !! sid = Some s' \/ s' ∈ completedSessions w'.1)
                 /\ (forall s, s ∈ completedSessions self -> s ∈ completedSessions w'.1)).
    { destruct measurement as [r1 r2 r3|].
      - rewrite (validateAndFinalize_measured self fs sid bid r1 r2 r3 now session Hs).
        cbv zeta. set (v := validatePerformanceChange _ _).
        destruct (v_recommendation v), (isValid v);
          cbn [fst activeSessions completedSessions setActiveSessions setCompletedSessions];
          eexists; (split; [|split; [right; apply elem_of_app; right;
                                     apply list_elem_of_singleton; reflexivity|]]);
          try reflexivity; intros s Hin; apply elem_of_app; left; exact Hin.
      - unfold validateAndFinalize. rewrite Hs.
        rewrite (rollbackChange_active self fs sid bid _ now session Hs).
        cbn [fst activeSessions completedSessions setActiveSessions].
        eexists. split; [|split; [left; apply lookup_insert_eq | auto]]. reflexivity. }
    cbv zeta in Hcases. destruct Hcases as (s' & Hid & Hwhere & Hcompleted).
    destruct (validateAndFinalize_frame (self, fs) sid bid measurement now)
      as (_ & Hother & _).
    cbv zeta in Hother. cbn [fst] in Hother.
    destruct Hp as [(sid0 & s0 & Hs0 & Heq) | (s0 & Hs0 & Heq)].
    + destruct (decide (sid0 = sid)) as [->|Hne].
      * assert (s0 = session) by congruence. subst s0.
        destruct Hwhere as [Hact | Hdone]; [left | right].
        -- exists sid, s'. split; [exact Hact | congruence].
        -- exists s'. split; [exact Hdone | congruence].
      * left. exists sid0, s0. rewrite (Hother sid0 Hne). auto.
    + right. exists s0. auto.
  - unfold validateAndFinalize. rewrite Hs. exact Hp.
Qed.

End Tick.

(** ** The window of snapshots the engines look at *)

Section LatestSnapshots.

Lemma lastN_app {A} (n : nat) (older recent : list A) :
  (n <= length recent)%nat -> JS.lastN n (older ++ recent) = JS.lastN n recent.
Proof.
  intros Hn. unfold JS.lastN. rewrite length_app.
  replace (length older + length recent - n)%nat
    with (length older + (length recent - n))%nat by lia.
  rewrite drop_app_add. reflexivity.
Qed.

(** X28. Only the five latest snapshots count.  Snapshots older than the
    last five change neither the metrics the Optimization Engine derives its
    suggestions from, nor the suggestions it generates, nor the pre-change
    metrics the Auto-Tuning Engine stores in a session: with at least five
    recent snapshots, any older history can be prepended without effect. *)
Theorem only_latest_five_count (older recent : list MetricsSnapshot) :
  (5 <= length recent)%nat ->
  OptimizationEngine.calculateLatestMetrics (older ++ recent)
  = OptimizationEngine.calculateLatestMetrics recent
  /\ (forall toFixed genId self analyses baselines,
        OptimizationEngine.generateSuggestions toFixed genId self analyses baselines
          (older ++ recent)
        = OptimizationEngine.generateSuggestions toFixed genId self analyses baselines
            recent)
  /\ (forall JSON_parse JSON_stringify w suggestion env,
        AutoTuningEngine.applySuggestion JSON_parse JSON_stringify w suggestion
          (older ++ recent) env
        = AutoTuningEngine.applySuggestion JSON_parse JSON_stringify w suggestion
            recent env).
Proof.
  intros Hlen.
  assert (Hlatest : OptimizationEngine.calculateLatestMetrics (older ++ recent)
                    = OptimizationEngine.calculateLatestMetrics recent).
  { unfold OptimizationEngine.calculateLatestMetrics.
    rewrite (lastN_app 5 older recent Hlen).
    assert (H1 : (length (older ++ recent) =? 0)%nat = false).
    { apply Nat.eqb_neq. rewrite length_app. lia. }
    assert (H2 : (length recent =? 0)%nat = false) by (apply Nat.eqb_neq; lia).
    rewrite H1, H2. reflexivity. }
  split; [exact Hlatest|]. split.
  - intros toFixed genId self analyses baselines.
    unfold OptimizationEngine.generateSuggestions, OptimizationEngine.collectSuggestions.
    rewrite Hlatest. reflexivity.
  - intros JSON_parse JSON_stringify [self fs] suggestion env.
    unfold AutoTuningEngine.applySuggestion.
    rewrite (lastN_app 5 older recent Hlen). reflexivity.
Qed.

End LatestSnapshots.

(** ** Auto-Tuning Engine: a session that is never validated *)

Section Deadlock.

Import AutoTuningEngine Scheduler.

Variable JSON_parse : string -> option json.
Variable JSON_stringify : json -> string.

#[local] Abbreviation processSuggestions := (processSuggestions JSON_parse JSON_stringify).
#[local] Abbreviation exec := (exec JSON_parse JSON_stringify).
#[local] Abbreviation run := (run JSON_parse JSON_stringify).

Lemma processSuggestions_no_slot (w : World) (suggestions : list OptimizationSuggestion)
    (currentMetrics : list MetricsSnapshot) (envs : nat -> ApplyEnv) :
  maxConcurrentChanges (config w.1) = Z.of_nat (size (activeSessions w.1)) ->
  processSuggestions w suggestions currentMetrics envs = w.
Proof.
  destruct w as [self fs]. cbn [fst]. intros Hfull.
  unfold AutoTuningEngine.processSuggestions.
  destruct (negb _); [reflexivity|]. destruct (_ =? 0)%nat; [reflexivity|].
  unfold toProcess. cbv zeta. rewrite Hfull, Z.sub_diag.
  unfold JS.slice0. cbn. reflexivity.
Qed.

Lemma exec_blocked (sid : string) (s : AutoTuningSession) (w : World) (ev : Event) :
  maxConcurrentChanges (config w.1) = 1%Z ->
  activeSessions w.1 = {[ sid := s ]} ->
  (forall bid, (sid, bid) ∉ scheduled w.1) ->
  let w' := exec w ev in
  config w'.1 = config w.1
  /\ activeSessions w'.1 = activeSessions w.1
  /\ (forall bid, (sid, bid) ∉ scheduled w'.1)
  /\ completedSessions w'.1 = completedSessions w.1
  /\ ((forall tree, ev <> FilesChanged tree) -> files w'.2 = files w.2).
Proof.
  intros Hmax Hact Hnone. destruct w as [self fs]. cbn [fst snd] in *.
  destruct ev as [l m envs|sid' bid' ms now|now|tree]; cbn [Scheduler.exec].
  - rewrite processSuggestions_no_slot.
    + cbn [fst snd]. auto.
    + cbn [fst]. rewrite Hmax, Hact, map_size_singleton. reflexivity.
  - destruct (isScheduled (sid', bid') (scheduled self)) eqn:Hsch;
      [|cbn [fst snd]; auto].
    assert (Hne : sid' <> sid).
    { intros ->. unfold isScheduled in Hsch. apply bool_decide_eq_true in Hsch.
      exact (Hnone bid' Hsch). }
    assert (Hs : activeSessions self !! sid' = None).
    { rewrite Hact. apply lookup_singleton_ne. congruence. }
    unfold validateAndFinalize. cbn [activeSessions setScheduled]. rewrite Hs.
    cbn [fst snd config activeSessions completedSessions scheduled setScheduled].
    split; [reflexivity|]. split; [reflexivity|]. split; [|auto].
    intros bid Hin. apply elem_of_removeTask in Hin. exact (Hnone bid Hin).
  - unfold cleanupOldBackups.
    cbn [fst snd config activeSessions completedSessions scheduled setBackups].
    split; [reflexivity|]. split; [reflexivity|]. split; [exact Hnone|].
    split; [reflexivity|]. intros _.
    apply (removeBackupFiles_fold _ fs).
  - cbn [fst snd]. split; [reflexivity|]. split; [reflexivity|]. split; [exact Hnone|].
    split; [reflexivity|]. intros Hno. exfalso. exact (Hno tree eq_refl).
Qed.

(** X29. With one concurrent slot (the default), a session that sits in the
    active map with no validation task pending (the state
    [exception_strands_session] describes) stops auto-tuning for good: whatever events
    follow, the active map and the completed list stay as they are, every
    later call of [processSuggestions] changes nothing, and the engine never
    writes a monitored file again. *)
Theorem single_slot_blocked (sid : string) (s : AutoTuningSession) (w : World)
    (events : list Event) :
  maxConcurrentChanges (config w.1) = 1%Z ->
  activeSessions w.1 = {[ sid := s ]} ->
  (forall bid, (sid, bid) ∉ scheduled w.1) ->
  let w' := run w events in
  activeSessions w'.1 = {[ sid := s ]}
  /\ completedSessions w'.1 = completedSessions w.1
  /\ (forall suggestions currentMetrics envs,
        processSuggestions w' suggestions currentMetrics envs = w')
  /\ (Forall (fun ev => forall tree, ev <> FilesChanged tree) events ->
      files w'.2 = files w.2).
Proof.
  intros Hmax Hact Hnone.
  assert (Hinv : config (run w events).1 = config w.1
                 /\ activeSessions (run w events).1 = {[ sid := s ]}
                 /\ completedSessions (run w events).1 = completedSessions w.1
                 /\ (Forall (fun ev => forall tree, ev <> FilesChanged tree) events ->
                     files (run w events).2 = files w.2)).
  { revert w Hmax Hact Hnone. induction events as [|ev events IH]; intros w Hmax Hact Hnone.
    - cbn. auto.
    - destruct (exec_blocked sid s w ev Hmax Hact Hnone) as (Hc & Ha & Hn & Hd & Hf).
      cbv zeta in Hc, Ha, Hn, Hd, Hf.
      destruct (IH (exec w ev)) as (Hc' & Ha' & Hd' & Hf'); [congruence.. | exact Hn |].
      change (run w (ev :: events)) with (run (exec w ev) events).
      split; [congruence|]. split; [exact Ha'|]. split; [congruence|].
      intros Hall. inversion Hall as [|? ? Hev Hrest]; subst.
      rewrite (Hf' Hrest). exact (Hf Hev). }
  destruct Hinv as (Hc & Ha & Hd & Hf). cbv zeta.
  split; [exact Ha|]. split; [exact Hd|]. split; [|exact Hf].
  intros suggestions currentMetrics envs. apply processSuggestions_no_slot.
  rewrite Hc, Hmax, Ha, map_size_singleton. reflexivity.
Qed.

End Deadlock.

(** ** Optimization Engine: the golden-ratio pass *)

Section GoldenRatio.

Import OptimizationEngine.

Open Scope R_scope.

Variable toFixed : R -> nat -> string.
Variable genId : nat -> string.

Lemma ceil_bounds (x : R) : x <= ceil x < x + 1.
Proof.
  unfold ceil. rewrite opp_IZR.
  destruct (base_Int_part (- x)) as [H1 H2]. lra.
Qed.

(** X30. The golden-ratio pass proposes nothing up to 80% memory usage.
    Above it proposes one suggestion on the virtual target
    "algorithmic_optimization", whose reduction is a whole number of at
    least 1, the excess over 80 divided by 1.618 and rounded up; the memory
    value it suggests lies strictly between 79 and the current usage (it can
    fall below the 80% it aims at). *)
Theorem algorithmic_reduction_bounds (next : nat) (latestMetrics : LatestMetrics) :
  let memory := memoryUsage latestMetrics in
  let proposed := applyAlgorithmicOptimizations toFixed genId next latestMetrics in
  (memory <= 80 -> proposed = [])
  /\ (80 < memory ->
      exists (s : OptimizationSuggestion) (reduction : Z),
        proposed = [s]
        /\ sg_configFile s = "algorithmic_optimization"
        /\ sg_parameter s = "memory_ratio_optimization"
        /\ sg_suggestedValue s = JStr (toFixed (memory - IZR reduction) 1 +:+ "%")
        /\ (1 <= reduction)%Z
        /\ (memory - 80) / (1618 / 1000) <= IZR reduction
           < (memory - 80) / (1618 / 1000) + 1
        /\ 79 < memory - IZR reduction < memory).
Proof.
  intros memory proposed. subst proposed.
  unfold applyAlgorithmicOptimizations. cbv zeta. fold memory.
  replace (8 / 10 * 100) with 80 by lra.
  split.
  - intros Hle. apply gtb_false in Hle. rewrite Hle. reflexivity.
  - intros Hgt. assert (Hb : JS.gtb memory 80 = true) by (apply gtb_true; lra).
    rewrite Hb.
    pose proof (ceil_bounds ((memory - 80) / (1618 / 1000))) as Hceil.
    set (q := (memory - 80) / (1618 / 1000)) in *.
    assert (Hq : 0 < q /\ q < memory - 80).
    { subst q. split.
      - apply Rdiv_lt_0_compat; lra.
      - apply (Rmult_lt_reg_r (1618 / 1000)); [lra|].
        unfold Rdiv at 1. rewrite Rmult_assoc, Rinv_l by lra. nra. }
    eexists _, (- Int_part (- q))%Z.
    split; [reflexivity|]. cbn [sg_configFile sg_parameter sg_suggestedValue].
    split; [reflexivity|]. split; [reflexivity|]. split; [reflexivity|].
    change (IZR (- Int_part (- q))) with (ceil q).
    split; [|split; [exact Hceil | lra]].
    assert (Hpos : (0 < - Int_part (- q))%Z).
    { apply lt_IZR. change (IZR (- Int_part (- q))) with (ceil q). lra. }
    lia.
Qed.

End GoldenRatio.

(** ** The further properties at work *)

Section Instances.

Import AutoTuningEngine Scheduler Scenarios Cases.

Open Scope R_scope.

(** Ten points more CPU do not raise the score. *)
Lemma calculateImpactScore_monotone_witness :
  (0 <= 10 /\ 0 <= 0 /\ 0 <= 0)
  /\ ImpactAnalyzer.calculateImpactScore 10 0 0
     <= ImpactAnalyzer.calculateImpactScore 0 0 0.
Proof.
  assert (H1 : 0 <= 10) by lra. assert (H2 : 0 <= 0) by lra.
  split; [auto|].
  exact (calculateImpactScore_monotone 0 10 0 0 0 0 H1 H2 H2).
Defined.

(** Ten points more CPU alone: the score is the weighted sum, -0.04. *)
Lemma calculateImpactScore_unclamped_witness :
  (-100 <= 10 <= 100 /\ -100 <= 0 <= 100 /\ -1 <= 0 <= 1)
  /\ ImpactAnalyzer.calculateImpactScore 10 0 0
     = - (10 / 100) * (4 / 10) - (0 / 100) * (3 / 10) + 0 * (3 / 10).
Proof.
  assert (H1 : -100 <= 10 <= 100) by lra.
  assert (H2 : -100 <= 0 <= 100) by lra.
  assert (H3 : -1 <= 0 <= 1) by lra.
  split; [auto|].
  exact (calculateImpactScore_unclamped 10 0 0 H1 H2 H3).
Defined.

(** The analysis of scenario B has its score within [-1, 1]. *)
Lemma analysis_ranges_witness :
  exists a,
    ImpactAnalyzer.analyzeChangeImpact (fun _ _ => "") freshAnalyzer sampleChange
      sampleHistory = Some a
    /\ -1 <= ImpactAnalyzer.impactScore a <= 1.
Proof.
  destruct scenario_B as (a & Ha & _). exists a. split; [exact Ha|].
  exact (proj1 (analysis_ranges (fun _ _ => "") freshAnalyzer sampleChange
                  sampleHistory a Ha)).
Defined.

(** With no snapshot at all there is no analysis. *)
Lemma analysis_needs_data_witness :
  (length (@nil MetricsSnapshot) < 6)%nat
  /\ ImpactAnalyzer.analyzeChangeImpact (fun _ _ => "") freshAnalyzer sampleChange []
     = None.
Proof.
  assert (H : (length (@nil MetricsSnapshot) < 6)%nat) by (cbn; lia).
  split; [exact H|].
  exact (analysis_needs_data (fun _ _ => "") freshAnalyzer sampleChange []
           (or_intror (or_introl H))).
Defined.

(** The analysis of scenario B, when it does not advise to revert, yields no
    suggestion. *)
Lemma poor_performer_is_revert_advice_witness :
  exists a,
    ImpactAnalyzer.analyzeChangeImpact (fun _ _ => "") freshAnalyzer sampleChange
      sampleHistory = Some a
    /\ (ImpactAnalyzer.recommendation a
        <> Analysis.adviceText Analysis.AdviseRevert (ImpactAnalyzer.configFile a) ->
        OptimizationEngine.analyzePoorPerformance numberedId 0 [a] = []).
Proof.
  destruct scenario_B as (a & Ha & _). exists a. split; [exact Ha|].
  exact (proj2 (poor_performer_is_revert_advice (fun _ _ => "") numberedId
                  freshAnalyzer sampleChange sampleHistory a Ha)).
Defined.

(** After a first change is recorded the ledger holds only changes within two
    windows of the cleanup time. *)
Lemma recordConfigChange_ledger_witness :
  ((0 <= ImpactAnalyzer.analysisWindow (ImpactAnalyzer.config freshAnalyzer))%Z
   /\ (Analysis.re_cleanupTime recordDraw <= 6000)%Z)
  /\ Forall (fun c => (5001 - 2 * 300000 < ImpactAnalyzer.ce_timestamp c)%Z)
       (ImpactAnalyzer.changeHistory
          (Analysis.recordConfigChange fileNameHash freshAnalyzer "app.json"
             ImpactAnalyzer.modified recordDraw)).
Proof.
  assert (H1 : (0 <= ImpactAnalyzer.analysisWindow
                       (ImpactAnalyzer.config freshAnalyzer))%Z) by (cbn; lia).
  assert (H2 : (Analysis.re_cleanupTime recordDraw <= 6000)%Z) by (cbn; lia).
  split; [auto|].
  exact (proj1 (recordConfigChange_ledger fileNameHash freshAnalyzer "app.json"
                  ImpactAnalyzer.modified recordDraw 6000 H1 H2)).
Defined.

(** An unstable baseline makes the stability pass produce a suggestion. *)
Lemma unstable_baseline_is_reported :
  OptimizationEngine.collectSuggestions (fun _ _ => "") numberedId [] [unstableBaseline] []
  <> [].
Proof.
  unfold OptimizationEngine.collectSuggestions. cbv zeta. intros H.
  apply app_eq_nil in H as [H _]. apply app_eq_nil in H as [_ H].
  unfold OptimizationEngine.detectStabilityIssues in H. cbv zeta in H.
  cbn [List.filter unstableBaseline ImpactAnalyzer.pb_stability] in H.
  assert (Hlt : JS.ltb (1 / 2) (7 / 10) = true) by (apply ltb_true; lra).
  rewrite Hlt in H. discriminate H.
Qed.

(** Two calls on the same unstable baseline leave the same target twice in the
    running list. *)
Lemma running_list_repeats_targets_witness :
  OptimizationEngine.collectSuggestions (fun _ _ => "") numberedId [] [unstableBaseline] []
  <> []
  /\ ~ NoDup
         (map Spec.target
            (OptimizationEngine.suggestions
               (OptimizationEngine.generateSuggestions (fun _ _ => "") numberedId
                  (OptimizationEngine.generateSuggestions (fun _ _ => "") numberedId
                     {| OptimizationEngine.suggestions := [] |}
                     [] [unstableBaseline] []).1
                  [] [unstableBaseline] []).1)).
Proof.
  split; [exact unstable_baseline_is_reported|].
  exact (proj2 (running_list_repeats_targets (fun _ _ => "") numberedId numberedId
                  {| OptimizationEngine.suggestions := [] |} [] [unstableBaseline] []
                  unstable_baseline_is_reported)).
Defined.

(** Setting poolSize in the empty object and reading it back. *)
Lemma setPath_read_back_witness :
  (Forall (fun key => JsonRead.plainKey key = true) ["poolSize"]
   /\ Json.setPath (JObj []) ["poolSize"] (JNum 10)
      = Some (JObj [("poolSize", JNum 10)]))
  /\ JsonRead.getPath (JObj [("poolSize", JNum 10)]) ["poolSize"] = Some (JNum 10).
Proof.
  assert (Hplain : Forall (fun key => JsonRead.plainKey key = true) ["poolSize"])
    by (repeat constructor).
  assert (H : Json.setPath (JObj []) ["poolSize"] (JNum 10)
              = Some (JObj [("poolSize", JNum 10)])) by reflexivity.
  split; [auto|].
  exact (proj1 (setPath_read_back (JObj []) (JObj [("poolSize", JNum 10)]) (JNum 10)
                  ["poolSize"] Hplain H)).
Defined.


(** The run that applies the pool-size suggestion has a session "tune_1". *)
Lemma applied_session_is_active :
  exists s,
    activeSessions
      (run JSON_parse JSON_stringify (create defaultConfig, appTree)
         [ProcessSuggestions [poolSuggestion] [] firstDraw]).1 !! "tune_1" = Some s.
Proof.
  unfold run, exec, processSuggestions, toProcess, filterEligibleSuggestions,
    isWithinRiskThreshold.
  cbn [fold_left List.filter poolSuggestion sg_riskLevel sg_confidence sg_configFile
       fst snd create config activeSessions].
  rewrite nine_tenths_is_confident.
  vm_compute. eexists. reflexivity.
Qed.

(** The session of that run is filed under its id. *)
Lemma testing_sessions_are_scheduled_witness :
  exists s,
    activeSessions
      (run JSON_parse JSON_stringify (create defaultConfig, appTree)
         [ProcessSuggestions [poolSuggestion] [] firstDraw]).1 !! "tune_1" = Some s
    /\ s_id s = "tune_1".
Proof.
  destruct applied_session_is_active as [s Hs]. exists s. split; [exact Hs|].
  exact (proj1 (testing_sessions_are_scheduled JSON_parse JSON_stringify defaultConfig
                  appTree [ProcessSuggestions [poolSuggestion] [] firstDraw]
                  "tune_1" s Hs)).
Defined.

(** The stranded engine has no task for its session. *)
Lemma stranded_has_no_task (bid : string) : ("tune_1", bid) ∉ scheduled strandedEngine.
Proof. apply not_elem_of_nil. Qed.

(** The stranded session survives a cleanup. *)
Lemma unscheduled_session_stays_witness :
  (activeSessions strandedEngine !! "tune_1" = Some strandedSession
   /\ Forall (fun ev => ~ drawsSessionId "tune_1" ev) [CleanupOldBackups 200000])
  /\ activeSessions
       (run JSON_parse JSON_stringify (strandedEngine, appTree)
          [CleanupOldBackups 200000]).1 !! "tune_1" = Some strandedSession.
Proof.
  assert (H1 : activeSessions strandedEngine !! "tune_1" = Some strandedSession)
    by reflexivity.
  assert (H2 : Forall (fun ev => ~ drawsSessionId "tune_1" ev)
                 [CleanupOldBackups 200000]).
  { repeat constructor. intros H. exact H. }
  split; [auto|].
  exact (proj1 (unscheduled_session_stays JSON_parse JSON_stringify "tune_1"
                  strandedSession (strandedEngine, appTree)
                  [CleanupOldBackups 200000] H1 stranded_has_no_task H2)).
Defined.

(** An idle system with draws 1/2, 1/2, 0 raises no issue or the memory one. *)
Lemma simulated_validation_issues_witness :
  (0 <= 1 / 2 < 1 /\ 0 <= 0 < 1 /\ 0 <= 0 /\ 0 <= 1 <= 1)
  /\ let before := {| avgCpu := 0; avgMemory := 0; stability := 1 |} in
     let v := validatePerformanceChange before
                (simulatePostChangeMetrics before (1 / 2) (1 / 2) 0) in
     (issues v = ["Memory usage increased significantly"]
      /\ JS.join "; " (issues v) = "Memory usage increased significantly"
      /\ 0 < avgMemory before /\ 5 / 6 < 1 / 2)
     \/ (issues v = [] /\ JS.join "; " (issues v) = ""
         /\ (avgMemory before = 0 \/ 1 / 2 <= 5 / 6)).
Proof.
  assert (H1 : 0 <= 1 / 2 < 1) by lra. assert (H2 : 0 <= 0 < 1) by lra.
  assert (H3 : 0 <= 0) by lra. assert (H4 : 0 <= 1 <= 1) by lra.
  split; [auto|].
  exact (simulated_validation_issues {| avgCpu := 0; avgMemory := 0; stability := 1 |}
           (1 / 2) (1 / 2) 0 H1 H1 H2 H3 H3 H4).
Defined.

(** The suggestion of the idle session still counts as processed after its
    validation. *)
Lemma validation_keeps_processed_witness :
  ConfigFlow.hasBeenProcessed idleEngine "opt_1" = true
  /\ ConfigFlow.hasBeenProcessed
       (validateAndFinalize (idleEngine, changedTree) "tune_1" "backup_1"
          (Measured (1 / 2) (1 / 2) 0) 121000).1 "opt_1" = true.
Proof.
  assert (H : ConfigFlow.hasBeenProcessed idleEngine "opt_1" = true)
    by (vm_compute; reflexivity).
  split; [exact H|].
  exact (validation_keeps_processed idleEngine changedTree "tune_1" "backup_1"
           (Measured (1 / 2) (1 / 2) 0) 121000 "opt_1" H).
Defined.

(** A seventh, older snapshot in front of the history changes nothing. *)
Lemma only_latest_five_count_witness :
  (5 <= length sampleHistory)%nat
  /\ OptimizationEngine.calculateLatestMetrics ([sample 1000 90] ++ sampleHistory)
     = OptimizationEngine.calculateLatestMetrics sampleHistory.
Proof.
  assert (H : (5 <= length sampleHistory)%nat) by (cbn; lia).
  split; [exact H|].
  exact (proj1 (only_latest_five_count [sample 1000 90] sampleHistory H)).
Defined.

(** With the stranded session in the only slot, offering the pool-size
    suggestion changes nothing. *)
Lemma single_slot_blocked_witness :
  (maxConcurrentChanges (config strandedEngine) = 1%Z
   /\ activeSessions strandedEngine = {[ "tune_1" := strandedSession ]})
  /\ activeSessions
       (run JSON_parse JSON_stringify (strandedEngine, appTree)
          [ProcessSuggestions [poolSuggestion] [] firstDraw]).1
     = {[ "tune_1" := strandedSession ]}.
Proof.
  assert (H1 : maxConcurrentChanges (config strandedEngine) = 1%Z) by reflexivity.
  assert (H2 : activeSessions strandedEngine = {[ "tune_1" := strandedSession ]})
    by reflexivity.
  split; [auto|].
  exact (proj1 (single_slot_blocked JSON_parse JSON_stringify "tune_1" strandedSession
                  (strandedEngine, appTree)
                  [ProcessSuggestions [poolSuggestion] [] firstDraw]
                  H1 H2 stranded_has_no_task)).
Defined.

End Instances.
